(** * VERYFIN API: streak progress engine, ownership scoping and auth gate

    Shallow embedding of the TypeScript sources:
    - [shared/schema.ts]: the SQLite tables (rows become records);
    - the storage module ([DatabaseStorage]): queries over the tables;
    - the route modules: the express handlers using the storage, and the
      handlers of [index.ts], which query the tables directly;
    - the auth module: registration.

    Conventions.
    - A JavaScript [number] is an IEEE-754 binary64 value: [float].
    - A [Date] is its time value, milliseconds since the epoch, in [Z];
      an Invalid Date (time value NaN) is [None].  The date parser, the
      time zone and the sort of arrays belong to the host, [JsRuntime].
    - A table is the list of its rows, in rowid order.
    - [new Date()] is an argument [now] of the operation that calls it.
    - The database enforces the keys of the schema: primary keys, the
      unique e-mail, and the foreign keys with their [onDelete] action. *)

From Stdlib Require Import ZArith List String Ascii Bool Floats QArith Lia.
From Stdlib Require Import Sorted Permutation.
Import ListNotations.

Open Scope string_scope.
Open Scope Z_scope.

Set Warnings "-inexact-float".

(** ** JavaScript numbers *)

Definition number := float.

(** [a + b] on numbers: binary64 addition, rounding to nearest even. *)
Definition num_add (a b : number) : number := (a + b)%float.

(** [a < b] on numbers; false when either side is NaN. *)
Definition num_lt (a b : number) : bool := (a <? b)%float.

(** [x || 0] on a number: 0 and NaN are falsy. *)
Definition num_or_zero (x : number) : number :=
  if (x =? 0)%float || is_nan x then 0%float else x.

(** [parseFloat(x)] applied to a number: [x] is first converted to its
    shortest round-tripping decimal string, which is then parsed back.
    The result is [x] itself, except that [-0] prints as ["0"]. *)
Definition parseFloat (x : number) : number :=
  if (x =? 0)%float then 0%float else x.

(** [x.toString()] bound to a column of REAL affinity: a numeric text is
    converted back to the number it denotes.  For a finite [x] that is [x],
    with [-0] read back as [0].  The texts of the infinities and of NaN are
    not numeric and the column keeps them as text; a [number] field cannot
    hold a text, and the model keeps [x] there, the number [parseFloat]
    reads from that text.  Statements about the stored value of a column
    are made for finite numbers. *)
Definition real_of_toString (x : number) : number :=
  if (x =? 0)%float then 0%float else x.

(** The rational a finite number denotes exactly ([None] for NaN and the
    infinities). *)
Definition exact_value (x : number) : option Q :=
  match Prim2SF x with
  | S754_zero _ => Some 0%Q
  | S754_finite s m e =>
      let z := if s then Z.neg m else Z.pos m in
      Some (if 0 <=? e then inject_Z (z * 2 ^ e)
            else Qmake z (Z.to_pos (2 ^ (- e))))
  | S754_infinity _ => None
  | S754_nan => None
  end.

(** ** [Array.prototype.sort]

    The comparator returns a number; NaN is [None].  The language fixes the
    result of [l.sort(compareFn)] only when [compareFn] is a consistent
    comparator for the elements of [l]: the elements then stand in the
    order of the comparator, equal ones in their original order (the sort is
    stable), which is the order [stableSort] produces.  Otherwise the order
    is left to the engine; the result is still a rearrangement of [l]. *)

Section Sort.
Context {A : Type} (compareFn : A -> A -> option Z).

(** The comparator as the sort reads it: NaN counts as 0. *)
Definition sortCompare (x y : A) : Z :=
  match compareFn x y with
  | Some v => v
  | None => 0
  end.

Fixpoint insert (x : A) (l : list A) : list A :=
  match l with
  | [] => [x]
  | y :: l' => if 0 <? sortCompare x y then y :: insert x l' else x :: l
  end.

Fixpoint stableSort (l : list A) : list A :=
  match l with
  | [] => []
  | x :: l' => insert x (stableSort l')
  end.

(** [x] may stand before [y]: the comparator does not ask to swap them. *)
Definition mayPrecede (x y : A) : Prop := sortCompare x y <= 0.

(** [a <CF b], [a =CF b] and [a >CF b] of the language specification. *)
Definition lessCF (a b : A) : Prop :=
  exists v, compareFn a b = Some v /\ v < 0.
Definition equalCF (a b : A) : Prop := compareFn a b = Some 0.
Definition greaterCF (a b : A) : Prop :=
  exists v, compareFn a b = Some v /\ 0 < v.

(** [compareFn] is a consistent comparator for the elements of [l]: it
    never returns NaN, [=CF] is an equivalence and [<CF] and [>CF] are
    transitive. *)
Definition consistent (l : list A) : Prop :=
  (forall a b, In a l -> In b l -> compareFn a b <> None)
  /\ (forall a, In a l -> equalCF a a)
  /\ (forall a b, In a l -> In b l -> equalCF a b -> equalCF b a)
  /\ (forall a b c, In a l -> In b l -> In c l ->
       equalCF a b -> equalCF b c -> equalCF a c)
  /\ (forall a b c, In a l -> In b l -> In c l ->
       lessCF a b -> lessCF b c -> lessCF a c)
  /\ (forall a b c, In a l -> In b l -> In c l ->
       greaterCF a b -> greaterCF b c -> greaterCF a c).

(** [stableSort] rearranges its argument. *)
Fixpoint insert_permutes (x : A) (l : list A)
  : Permutation (x :: l) (insert x l) :=
  match l with
  | [] => Permutation_refl [x]
  | y :: l' =>
      if 0 <? sortCompare x y as b
      return Permutation (x :: y :: l')
               (if b then y :: insert x l' else x :: y :: l')
      then perm_trans (perm_swap y x l') (perm_skip y (insert_permutes x l'))
      else Permutation_refl (x :: y :: l')
  end.

Fixpoint stableSort_permutes (l : list A) : Permutation l (stableSort l) :=
  match l with
  | [] => perm_nil A
  | x :: l' =>
      perm_trans (perm_skip x (stableSort_permutes l'))
        (insert_permutes x (stableSort l'))
  end.
End Sort.

(** ** Dates *)

Definition msPerDay : Z := 1000 * 60 * 60 * 24.

(** A column declared [integer(..., { mode: 'timestamp' })] keeps whole
    seconds: a [Date] is written as [Math.floor(d.getTime() / 1000)] and read
    back, also by [.returning()], as the date that many seconds after the
    epoch. *)
Definition timestamp (d : Z) : Z := d / 1000 * 1000.

(** The host.
    - [Date_parse s] is [new Date(s).getTime()], [None] for NaN.
    - [LocalTZA t isUTC] is the offset of the server's time zone from UTC,
      in milliseconds, at the UTC time [t] when [isUTC] and at the local
      time [t] otherwise; it changes with daylight saving and stays below a
      day.
    - [sort compareFn l] is [l.sort(compareFn)]. *)
Class JsRuntime := {
  Date_parse : string -> option Z;
  LocalTZA : Z -> bool -> Z;
  LocalTZA_bound : forall t isUTC, - msPerDay < LocalTZA t isUTC < msPerDay;
  sort : forall A : Type, (A -> A -> option Z) -> list A -> list A;
  sort_permutes :
    forall (A : Type) (compareFn : A -> A -> option Z) (l : list A),
      Permutation l (sort A compareFn l);
  sort_consistent :
    forall (A : Type) (compareFn : A -> A -> option Z) (l : list A),
      consistent compareFn l -> sort A compareFn l = stableSort compareFn l }.
Arguments sort {_ A} _ _.

(** [Math.floor((a.getTime() - b.getTime()) / (1000 * 60 * 60 * 24))].
    For dates within 142,000 years of the epoch the time values are
    integers below 2^52 in magnitude: their difference is exact, and its
    floating-point quotient by the length of a day has the same floor as
    the exact quotient. *)
Definition daysBetween (a b : Z) : Z := (a - b) / msPerDay.

(** [d.setDate(d.getDate() - n)]: in local time the calendar date moves
    back by [n] days and the time of day is kept; the result is read in the
    offset that holds at that local time.  The time value moves back by [n]
    whole days when both offsets are the same, and by an hour less or more
    across a change of daylight saving. *)
Definition setDateBack `{JsRuntime} (d n : Z) : Z :=
  let t := d + LocalTZA d true in
  let newDate := t - n * msPerDay in
  newDate - LocalTZA newDate false.

(** The server's zone keeps one offset from UTC (as with [TZ=UTC]). *)
Definition fixedOffset `{JsRuntime} : Prop :=
  exists tza, forall t isUTC, LocalTZA t isUTC = tza.

(** *** A date parser for date-only ISO strings

    ["YYYY-MM-DD"] denotes midnight UTC of that calendar day; here every
    other string is an Invalid Date. *)

Definition digit (a : ascii) : option Z :=
  let n := Z.of_N (N_of_ascii a) - 48 in
  if (0 <=? n) && (n <=? 9) then Some n else None.

Definition digits2 (a b : ascii) : option Z :=
  match digit a, digit b with
  | Some x, Some y => Some (10 * x + y)
  | _, _ => None
  end.

Definition isLeap (y : Z) : bool :=
  ((y mod 4 =? 0) && negb (y mod 100 =? 0)) || (y mod 400 =? 0).

Definition daysInMonth (y m : Z) : Z :=
  if m =? 2 then (if isLeap y then 29 else 28)
  else if (m =? 4) || (m =? 6) || (m =? 9) || (m =? 11) then 30 else 31.

(** Days from 1970-01-01 to the civil date [y]-[m]-[d]. *)
Definition daysFromCivil (y m d : Z) : Z :=
  let y' := if m <=? 2 then y - 1 else y in
  let era := y' / 400 in
  let yoe := y' - era * 400 in
  let mp := (m + 9) mod 12 in
  let doy := (153 * mp + 2) / 5 + d - 1 in
  let doe := yoe * 365 + yoe / 4 - yoe / 100 + doy in
  era * 146097 + doe - 719468.

Definition isoDate_parse (s : string) : option Z :=
  match s with
  | String y1 (String y2 (String y3 (String y4 (String "-"
      (String m1 (String m2 (String "-"
        (String d1 (String d2 EmptyString))))))))) =>
      match digits2 y1 y2, digits2 y3 y4, digits2 m1 m2, digits2 d1 d2 with
      | Some yh, Some yl, Some m, Some d =>
          let y := 100 * yh + yl in
          if (1 <=? m) && (m <=? 12) && (1 <=? d) && (d <=? daysInMonth y m)
          then Some (daysFromCivil y m d * msPerDay)
          else None
      | _, _, _, _ => None
      end
  | _ => None
  end.

(** A host for the examples: this parser, the zone UTC and the stable
    sort. *)
Definition isoRuntime : JsRuntime :=
  {| Date_parse := isoDate_parse;
     LocalTZA := fun _ _ => 0;
     LocalTZA_bound := fun _ _ => conj eq_refl eq_refl;
     sort := @stableSort;
     sort_permutes := @stableSort_permutes;
     sort_consistent := fun _ _ _ _ => eq_refl |}.

Definition isoRuntime_fixedOffset : @fixedOffset isoRuntime :=
  ex_intro (fun tza => forall t isUTC, @LocalTZA isoRuntime t isUTC = tza) 0
    (fun _ _ => eq_refl).

(** ** Tables of [shared/schema.ts] *)

Module User.
Record t := mk {
    id : string; email : string; password : string;
    firstName : option string; lastName : option string;
    createdAt : option Z; updatedAt : option Z }.
End User.

Module Expense.
Record t := mk {
    id : Z; userId : string; description : string; amount : number;
    category : string; date : string; isRecurring : option bool;
    dayOfMonth : option Z; endDate : option string; dueDate : option string;
    createdAt : Z }.
End Expense.

Module Budget.
Record t := mk {
    id : Z; userId : string; category : string; amount : number;
    period : string; createdAt : Z }.
End Budget.

Module Goal.
Record t := mk {
    id : Z; userId : string; title : string; description : option string;
    targetAmount : number; currentAmount : number; category : string;
    targetDate : string; status : string; createdAt : Z; updatedAt : Z }.
End Goal.

Module SavingsStreak.
Record t := mk {
    id : Z; userId : string; challengeName : string; targetAmount : number;
    frequency : string; currentStreak : Z; longestStreak : Z;
    isActive : bool; lastSaveDate : option string; totalSaved : number;
    startDate : string; endDate : option string;
    createdAt : Z; updatedAt : Z }.
End SavingsStreak.

Module StreakEntry.
Record t := mk {
    id : Z; streakId : Z; amount : number; saveDate : string;
    createdAt : Z }.
End StreakEntry.

(** A table: its rows in rowid order, and the largest rowid ever assigned
    (ids are never reused). *)
Record Table (row : Type) := mkTable { rows : list row; seq : Z }.
Arguments mkTable {row} _ _.
Arguments rows {row} _.
Arguments seq {row} _.

Definition emptyTable {row : Type} : Table row := mkTable [] 0.

Record Db := mkDb {
  users : Table User.t;
  expenses : Table Expense.t;
  budgets : Table Budget.t;
  goals : Table Goal.t;
  savingsStreaks : Table SavingsStreak.t;
  streakEntries : Table StreakEntry.t }.

Definition emptyDb : Db :=
  mkDb emptyTable emptyTable emptyTable emptyTable emptyTable emptyTable.

Definition with_users (db : Db) (t : Table User.t) : Db :=
  mkDb t (expenses db) (budgets db) (goals db) (savingsStreaks db)
    (streakEntries db).
Definition with_expenses (db : Db) (t : Table Expense.t) : Db :=
  mkDb (users db) t (budgets db) (goals db) (savingsStreaks db)
    (streakEntries db).
Definition with_budgets (db : Db) (t : Table Budget.t) : Db :=
  mkDb (users db) (expenses db) t (goals db) (savingsStreaks db)
    (streakEntries db).
Definition with_goals (db : Db) (t : Table Goal.t) : Db :=
  mkDb (users db) (expenses db) (budgets db) t (savingsStreaks db)
    (streakEntries db).
Definition with_savingsStreaks (db : Db) (t : Table SavingsStreak.t) : Db :=
  mkDb (users db) (expenses db) (budgets db) (goals db) t (streakEntries db).
Definition with_streakEntries (db : Db) (t : Table StreakEntry.t) : Db :=
  mkDb (users db) (expenses db) (budgets db) (goals db) (savingsStreaks db) t.

(** ** The query builder

    A builder carries the table, the column assignments of [.set(...)] and
    one slot for the filter.  [.where(c)] assigns the slot: of two chained
    [.where] calls the second replaces the first.  Conditions are combined
    inside one call with [and(...)]. *)

Section QueryBuilder.
Context {row : Type}.

Definition SQL := row -> bool.

Record Query := mkQuery {
    q_table : Table row;
    q_set : row -> row;
    q_where : option SQL }.

Definition from (t : Table row) : Query := mkQuery t (fun r => r) None.
Definition update (t : Table row) : Query := from t.
Definition delete (t : Table row) : Query := from t.

Definition set_ (f : row -> row) (q : Query) : Query :=
    mkQuery (q_table q) f (q_where q).

Definition where_ (c : SQL) (q : Query) : Query :=
    mkQuery (q_table q) (q_set q) (Some c).

Definition and_ (a b : SQL) : SQL := fun r => a r && b r.

Definition matches (q : Query) (r : row) : bool :=
    match q_where q with
    | Some c => c r
    | None => true
    end.

  (** [await db.select().from(t).where(c)]: the matching rows. *)
Definition select_rows (q : Query) : list row :=
    filter (matches q) (rows (q_table q)).

  (** [await db.update(t).set(v).where(c).returning()]: the table after the
      update and the updated rows. *)
Definition exec_update (q : Query) : Table row * list row :=
    (mkTable
       (map (fun r => if matches q r then q_set q r else r)
            (rows (q_table q)))
       (seq (q_table q)),
     map (q_set q) (filter (matches q) (rows (q_table q)))).

  (** [await db.delete(t).where(c)]: the table after the deletion and the
      deleted rows, which [.returning()] gives. *)
Definition exec_delete (q : Query) : Table row * list row :=
    (mkTable
       (filter (fun r => negb (matches q r)) (rows (q_table q)))
       (seq (q_table q)),
     filter (matches q) (rows (q_table q))).

  (** The rowid of the next inserted row. *)
Definition nextId (rowid : row -> Z) (t : Table row) : Z :=
    fold_right (fun r m => Z.max (rowid r) m) (seq t) (rows t) + 1.

  (** [await db.insert(t).values(v).returning()], for a table with an
      autoincrement key: [mk] builds the row from the assigned rowid. *)
Definition exec_insert (rowid : row -> Z) (mk : Z -> row) (t : Table row)
    : Table row * row :=
    let i := nextId rowid t in
    (mkTable (rows t ++ [mk i]) i, mk i).

  (** [.get()], and the destructuring [const [x] = ...]: the first row. *)
Definition first (l : list row) : option row := hd_error l.

Definition eqZ (col : row -> Z) (v : Z) : SQL := fun r => col r =? v.
Definition eqS (col : row -> string) (v : string) : SQL :=
    fun r => String.eqb (col r) v.
End QueryBuilder.

Arguments Query : clear implicits.
Arguments SQL : clear implicits.

(** [o] when the key is present in a partial object, the stored value
    otherwise: drizzle skips the keys whose value is [undefined]. *)
Definition assign {A : Type} (o : option A) (old : A) : A :=
  match o with
  | Some v => v
  | None => old
  end.

(** [result.rowCount] on the result of a statement without [.returning()].
    The result object of a SQLite statement counts the affected rows in
    [changes] and has no property [rowCount], which therefore reads as
    [undefined], whatever rows were affected. *)
Definition rowCount {row : Type} (affected : list row) : option Z := None.

(** [x || 0] on a number that may be [undefined]. *)
Definition orZero (x : option Z) : Z :=
  match x with
  | Some n => n
  | None => 0
  end.

(** [gte(col, v)], [lte(col, v)] and [col BETWEEN lo AND hi] on a text
    column: texts compare byte by byte.  [and(a, b, c)] takes any number of
    conditions. *)
Definition gteS {row : Type} (col : row -> string) (v : string) : SQL row :=
  fun r => String.leb v (col r).

Definition lteS {row : Type} (col : row -> string) (v : string) : SQL row :=
  fun r => String.leb (col r) v.

Definition betweenS {row : Type} (col : row -> string) (lo hi : string)
  : SQL row :=
  fun r => String.leb lo (col r) && String.leb (col r) hi.

Definition and3 {row : Type} (a b c : SQL row) : SQL row :=
  fun r => a r && b r && c r.

(** A query or body string that passes [if (s)]: present and not empty. *)
Definition truthy (s : option string) : option string :=
  match s with
  | Some v => if String.eqb v EmptyString then None else Some v
  | None => None
  end.

(** ** Insert and partial-update objects (the zod insert schemas) *)

Record InsertUser := mkInsertUser {
  iu_email : string; iu_password : string;
  iu_firstName : option string; iu_lastName : option string }.

Record PartialInsertExpense := mkPartialInsertExpense {
  pe_userId : option string; pe_description : option string;
  pe_amount : option number; pe_category : option string;
  pe_date : option string; pe_isRecurring : option (option bool);
  pe_dayOfMonth : option (option Z); pe_endDate : option (option string);
  pe_dueDate : option (option string) }.

Record PartialInsertBudget := mkPartialInsertBudget {
  pb_userId : option string; pb_category : option string;
  pb_amount : option number; pb_period : option string }.

Record PartialInsertGoal := mkPartialInsertGoal {
  pg_userId : option string; pg_title : option string;
  pg_description : option (option string); pg_targetAmount : option number;
  pg_currentAmount : option number; pg_category : option string;
  pg_targetDate : option string; pg_status : option string }.

Record InsertBudget := mkInsertBudget {
  ib_userId : string; ib_category : string; ib_amount : number;
  ib_period : option string }.

Record InsertGoal := mkInsertGoal {
  ig_userId : string; ig_title : string;
  ig_description : option (option string); ig_targetAmount : number;
  ig_currentAmount : option number; ig_category : string;
  ig_targetDate : string; ig_status : option string }.

Record InsertSavingsStreak := mkInsertSavingsStreak {
  is_userId : string; is_challengeName : string; is_targetAmount : number;
  is_frequency : string; is_isActive : option bool;
  is_lastSaveDate : option (option string); is_startDate : string;
  is_endDate : option (option string) }.

Record PartialInsertSavingsStreak := mkPartialInsertSavingsStreak {
  ps_userId : option string; ps_challengeName : option string;
  ps_targetAmount : option number; ps_frequency : option string;
  ps_isActive : option bool; ps_lastSaveDate : option (option string);
  ps_startDate : option string; ps_endDate : option (option string) }.

Record InsertStreakEntry := mkInsertStreakEntry {
  ie_streakId : Z; ie_amount : number; ie_saveDate : string }.

(** [await db.insert(users).values(userData).returning()]: [id] defaults to
    [crypto.randomUUID()], here [uuid]; the timestamps default to
    [new Date()].  The insert throws ([None]) when the primary key or the
    unique e-mail is already present. *)
Definition insertUser (t : Table User.t) (uuid : string) (now : Z)
  (userData : InsertUser) : option (Table User.t * User.t) :=
  if existsb (fun u => String.eqb (User.id u) uuid
                       || String.eqb (User.email u) (iu_email userData))
       (rows t)
  then None
  else
    let user := User.mk uuid (iu_email userData) (iu_password userData)
                  (iu_firstName userData) (iu_lastName userData)
                  (Some (timestamp now)) (Some (timestamp now)) in
    Some (mkTable (rows t ++ [user]) (seq t), user).

(** ** The storage module: [DatabaseStorage]

    Every operation takes the database and returns it with its result;
    [undefined] is [None]. *)

Module DatabaseStorage.

(** The foreign key [user_id -> users.id] of a row written by an update.
    The caller of a handler is the authenticated user, whose row exists; an
    owner taken from the request body is any string, and the statement
    fails when it has written a row whose new owner is not a stored user. *)
Definition ownerUnknown {row : Type} (db : Db) (owner : option string)
  (updated : list row) : bool :=
  match owner, updated with
  | Some u, _ :: _ =>
      negb (existsb (fun x => String.eqb (User.id x) u) (rows (users db)))
  | _, _ => false
  end.

Definition getUser (db : Db) (id : string) : option User.t :=
  first (select_rows (where_ (eqS User.id id) (from (users db)))).

Definition getUserByEmail (db : Db) (email : string) : option User.t :=
  first (select_rows (where_ (eqS User.email email) (from (users db)))).

Definition createUser (db : Db) (uuid : string) (now : Z)
  (userData : InsertUser) : option (Db * User.t) :=
  match insertUser (users db) uuid now userData with
  | None => None
  | Some (t, user) => Some (with_users db t, user)
  end.

(** *** Expenses *)

Definition getExpenses (db : Db) (userId : string) : list Expense.t :=
  select_rows (where_ (eqS Expense.userId userId) (from (expenses db))).

Definition getExpense (db : Db) (id : Z) (userId : string)
  : option Expense.t :=
  first (select_rows
           (where_ (and_ (eqZ Expense.id id) (eqS Expense.userId userId))
                   (from (expenses db)))).

Definition setExpense (p : PartialInsertExpense) (e : Expense.t)
  : Expense.t :=
  Expense.mk (Expense.id e)
    (assign (pe_userId p) (Expense.userId e))
    (assign (pe_description p) (Expense.description e))
    (assign (pe_amount p) (Expense.amount e))
    (assign (pe_category p) (Expense.category e))
    (assign (pe_date p) (Expense.date e))
    (assign (pe_isRecurring p) (Expense.isRecurring e))
    (assign (pe_dayOfMonth p) (Expense.dayOfMonth e))
    (assign (pe_endDate p) (Expense.endDate e))
    (assign (pe_dueDate p) (Expense.dueDate e))
    (Expense.createdAt e).

(** [.set(values)] throws when no key of [values] has a value. *)
Definition noExpenseValues (p : PartialInsertExpense) : bool :=
  match p with
  | mkPartialInsertExpense None None None None None None None None None =>
      true
  | _ => false
  end.

(** [None] when [.set(expense)] throws, or the statement fails. *)
Definition updateExpense (db : Db) (id : Z) (expense : PartialInsertExpense)
  (userId : string) : option (Db * option Expense.t) :=
  if noExpenseValues expense then None
  else
    let '(t, updated) :=
      exec_update
        (where_ (and_ (eqZ Expense.id id) (eqS Expense.userId userId))
                (set_ (setExpense expense) (update (expenses db)))) in
    if ownerUnknown db (pe_userId expense) updated then None
    else Some (with_expenses db t, first updated).

(** [return (result.rowCount || 0) > 0] *)
Definition deleteExpense (db : Db) (id : Z) (userId : string) : Db * bool :=
  let '(t, deleted) :=
    exec_delete
      (where_ (and_ (eqZ Expense.id id) (eqS Expense.userId userId))
              (delete (expenses db))) in
  (with_expenses db t, 0 <? orZero (rowCount deleted)).

Definition getExpensesByCategory (db : Db) (category userId : string)
  : list Expense.t :=
  select_rows
    (where_ (and_ (eqS Expense.category category)
                  (eqS Expense.userId userId))
            (from (expenses db))).

Definition getExpensesByDateRange (db : Db) (startDate endDate userId : string)
  : list Expense.t :=
  select_rows
    (where_ (and3 (gteS Expense.date startDate) (lteS Expense.date endDate)
                  (eqS Expense.userId userId))
            (from (expenses db))).

(** *** Budgets *)

Definition getBudgets (db : Db) (userId : string) : list Budget.t :=
  select_rows (where_ (eqS Budget.userId userId) (from (budgets db))).

Definition setBudget (p : PartialInsertBudget) (b : Budget.t) : Budget.t :=
  Budget.mk (Budget.id b)
    (assign (pb_userId p) (Budget.userId b))
    (assign (pb_category p) (Budget.category b))
    (assign (pb_amount p) (Budget.amount b))
    (assign (pb_period p) (Budget.period b))
    (Budget.createdAt b).

Definition noBudgetValues (p : PartialInsertBudget) : bool :=
  match p with
  | mkPartialInsertBudget None None None None => true
  | _ => false
  end.

(** [None] when [.set(budget)] throws, or the statement fails. *)
Definition updateBudget (db : Db) (id : Z) (budget : PartialInsertBudget)
  (userId : string) : option (Db * option Budget.t) :=
  if noBudgetValues budget then None
  else
    let '(t, updated) :=
      exec_update
        (where_ (and_ (eqZ Budget.id id) (eqS Budget.userId userId))
                (set_ (setBudget budget) (update (budgets db)))) in
    if ownerUnknown db (pb_userId budget) updated then None
    else Some (with_budgets db t, first updated).

Definition deleteBudget (db : Db) (id : Z) (userId : string) : Db * bool :=
  let '(t, deleted) :=
    exec_delete
      (where_ (and_ (eqZ Budget.id id) (eqS Budget.userId userId))
              (delete (budgets db))) in
  (with_budgets db t, 0 <? orZero (rowCount deleted)).

(** The omitted [period] takes its default, ["monthly"].  The owner row
    exists: [userId] is the id of the authenticated user. *)
Definition createBudget (db : Db) (now : Z) (budget : InsertBudget)
  : Db * Budget.t :=
  let '(t, newBudget) :=
    exec_insert Budget.id
      (fun i => Budget.mk i (ib_userId budget) (ib_category budget)
                  (ib_amount budget) (assign (ib_period budget) "monthly")
                  (timestamp now))
      (budgets db) in
  (with_budgets db t, newBudget).

(** *** Goals *)

Definition getGoals (db : Db) (userId : string) : list Goal.t :=
  select_rows (where_ (eqS Goal.userId userId) (from (goals db))).

Definition getGoal (db : Db) (id : Z) (userId : string) : option Goal.t :=
  first (select_rows
           (where_ (and_ (eqZ Goal.id id) (eqS Goal.userId userId))
                   (from (goals db)))).

(** [{...goal, updatedAt: new Date()}] *)
Definition setGoal (p : PartialInsertGoal) (now : Z) (g : Goal.t) : Goal.t :=
  Goal.mk (Goal.id g)
    (assign (pg_userId p) (Goal.userId g))
    (assign (pg_title p) (Goal.title g))
    (assign (pg_description p) (Goal.description g))
    (assign (pg_targetAmount p) (Goal.targetAmount g))
    (assign (pg_currentAmount p) (Goal.currentAmount g))
    (assign (pg_category p) (Goal.category g))
    (assign (pg_targetDate p) (Goal.targetDate g))
    (assign (pg_status p) (Goal.status g))
    (Goal.createdAt g)
    (timestamp now).

(** [None] when the statement fails. *)
Definition updateGoal (db : Db) (now : Z) (id : Z) (goal : PartialInsertGoal)
  (userId : string) : option (Db * option Goal.t) :=
  let '(t, updated) :=
    exec_update
      (where_ (and_ (eqZ Goal.id id) (eqS Goal.userId userId))
              (set_ (setGoal goal now) (update (goals db)))) in
  if ownerUnknown db (pg_userId goal) updated then None
  else Some (with_goals db t, first updated).

Definition deleteGoal (db : Db) (id : Z) (userId : string) : Db * bool :=
  let '(t, deleted) :=
    exec_delete
      (where_ (and_ (eqZ Goal.id id) (eqS Goal.userId userId))
              (delete (goals db))) in
  (with_goals db t, 0 <? orZero (rowCount deleted)).

(** The omitted columns take their defaults: [currentAmount] 0, [status]
    ["active"], [description] null. *)
Definition createGoal (db : Db) (now : Z) (goal : InsertGoal)
  : Db * Goal.t :=
  let '(t, newGoal) :=
    exec_insert Goal.id
      (fun i => Goal.mk i (ig_userId goal) (ig_title goal)
                  (assign (ig_description goal) None)
                  (ig_targetAmount goal)
                  (assign (ig_currentAmount goal) 0%float)
                  (ig_category goal) (ig_targetDate goal)
                  (assign (ig_status goal) "active") (timestamp now)
                  (timestamp now))
      (goals db) in
  (with_goals db t, newGoal).

(** [{currentAmount: amount.toString(), updatedAt: new Date()}] *)
Definition setGoalProgress (amount : number) (now : Z) (g : Goal.t)
  : Goal.t :=
  Goal.mk (Goal.id g) (Goal.userId g) (Goal.title g) (Goal.description g)
    (Goal.targetAmount g) (real_of_toString amount) (Goal.category g)
    (Goal.targetDate g) (Goal.status g) (Goal.createdAt g) (timestamp now).

Definition updateGoalProgress (db : Db) (now : Z) (id : Z) (amount : number)
  (userId : string) : Db * option Goal.t :=
  let '(t, updated) :=
    exec_update
      (where_ (and_ (eqZ Goal.id id) (eqS Goal.userId userId))
              (set_ (setGoalProgress amount now) (update (goals db)))) in
  (with_goals db t, first updated).

(** *** Savings streaks *)

Definition getSavingsStreaks (db : Db) (userId : string)
  : list SavingsStreak.t :=
  select_rows
    (where_ (eqS SavingsStreak.userId userId) (from (savingsStreaks db))).

Definition getSavingsStreak (db : Db) (id : Z) (userId : string)
  : option SavingsStreak.t :=
  first (select_rows
           (where_ (and_ (eqZ SavingsStreak.id id)
                         (eqS SavingsStreak.userId userId))
                   (from (savingsStreaks db)))).

(** The omitted columns take their defaults: both streak counters and
    [totalSaved] start at 0, [isActive] at true. *)
Definition createSavingsStreak (db : Db) (now : Z)
  (streak : InsertSavingsStreak) : Db * SavingsStreak.t :=
  let '(t, newStreak) :=
    exec_insert SavingsStreak.id
      (fun i =>
         SavingsStreak.mk i (is_userId streak) (is_challengeName streak)
           (is_targetAmount streak) (is_frequency streak) 0 0
           (assign (is_isActive streak) true)
           (assign (is_lastSaveDate streak) None)
           0%float (is_startDate streak)
           (assign (is_endDate streak) None) (timestamp now)
           (timestamp now))
      (savingsStreaks db) in
  (with_savingsStreaks db t, newStreak).

(** [{...streak, updatedAt: new Date()}] *)
Definition setSavingsStreak (p : PartialInsertSavingsStreak) (now : Z)
  (s : SavingsStreak.t) : SavingsStreak.t :=
  SavingsStreak.mk (SavingsStreak.id s)
    (assign (ps_userId p) (SavingsStreak.userId s))
    (assign (ps_challengeName p) (SavingsStreak.challengeName s))
    (assign (ps_targetAmount p) (SavingsStreak.targetAmount s))
    (assign (ps_frequency p) (SavingsStreak.frequency s))
    (SavingsStreak.currentStreak s) (SavingsStreak.longestStreak s)
    (assign (ps_isActive p) (SavingsStreak.isActive s))
    (assign (ps_lastSaveDate p) (SavingsStreak.lastSaveDate s))
    (SavingsStreak.totalSaved s)
    (assign (ps_startDate p) (SavingsStreak.startDate s))
    (assign (ps_endDate p) (SavingsStreak.endDate s))
    (SavingsStreak.createdAt s) (timestamp now).

(** [None] when the statement fails. *)
Definition updateSavingsStreak (db : Db) (now : Z) (id : Z)
  (streak : PartialInsertSavingsStreak) (userId : string)
  : option (Db * option SavingsStreak.t) :=
  let '(t, updated) :=
    exec_update
      (where_ (and_ (eqZ SavingsStreak.id id)
                    (eqS SavingsStreak.userId userId))
              (set_ (setSavingsStreak streak now)
                    (update (savingsStreaks db)))) in
  if ownerUnknown db (ps_userId streak) updated then None
  else Some (with_savingsStreaks db t, first updated).

(** The entries reference their streak with [onDelete: "cascade"]: they
    are deleted with it. *)
Definition deleteSavingsStreak (db : Db) (id : Z) (userId : string)
  : Db * bool :=
  let '(t, deleted) :=
    exec_delete
      (where_ (and_ (eqZ SavingsStreak.id id)
                    (eqS SavingsStreak.userId userId))
              (delete (savingsStreaks db))) in
  let '(te, _) :=
    exec_delete
      (where_ (fun e => existsb (fun s => SavingsStreak.id s
                                          =? StreakEntry.streakId e) deleted)
              (delete (streakEntries db))) in
  (with_streakEntries (with_savingsStreaks db t) te,
   0 <? orZero (rowCount deleted)).

Definition addStreakEntry (db : Db) (now : Z) (entry : InsertStreakEntry)
  : Db * StreakEntry.t :=
  let '(t, newEntry) :=
    exec_insert StreakEntry.id
      (fun i => StreakEntry.mk i (ie_streakId entry) (ie_amount entry)
                  (ie_saveDate entry) (timestamp now))
      (streakEntries db) in
  (with_streakEntries db t, newEntry).

Definition getStreakEntries (db : Db) (streakId : Z) : list StreakEntry.t :=
  select_rows
    (where_ (eqZ StreakEntry.streakId streakId) (from (streakEntries db))).

(** *** The streak progress engine: [updateStreakProgress] *)

(** [entries.reduce((sum, entry) => sum + parseFloat(entry.amount), 0)] *)
Definition totalSavedOf (entries : list StreakEntry.t) : number :=
  fold_left
    (fun sum entry => num_add sum (parseFloat (StreakEntry.amount entry)))
    entries 0%float.

(** [(a, b) => new Date(b.saveDate).getTime() - new Date(a.saveDate).getTime()] *)
Definition bySaveDateDesc `{JsRuntime} (a b : StreakEntry.t) : option Z :=
  match Date_parse (StreakEntry.saveDate b),
        Date_parse (StreakEntry.saveDate a) with
  | Some tb, Some ta => Some (tb - ta)
  | _, _ => None
  end.

Definition expectedGapOf (frequency : string) : Z :=
  let expectedGap := 1 in
  let expectedGap := if String.eqb frequency "weekly" then 7
                     else expectedGap in
  let expectedGap := if String.eqb frequency "monthly" then 30
                     else expectedGap in
  expectedGap.

(** The [for (const entry of sortedEntries)] loop, with its two variables
    [checkDate] and [currentStreak].  An entry with an invalid date has a
    NaN difference, for which [daysDiff <= expectedGap] is false. *)
Fixpoint streakLoop `{JsRuntime} (frequency : string)
  (sortedEntries : list StreakEntry.t) (checkDate : Z) (currentStreak : Z)
  : Z :=
  match sortedEntries with
  | [] => currentStreak
  | entry :: rest =>
      match Date_parse (StreakEntry.saveDate entry) with
      | None => currentStreak
      | Some entryDate =>
          let daysDiff := daysBetween checkDate entryDate in
          let expectedGap := expectedGapOf frequency in
          if daysDiff <=? expectedGap
          then streakLoop frequency rest (setDateBack entryDate expectedGap)
                 (currentStreak + 1)
          else currentStreak
      end
  end.

Definition setStreakProgress (currentStreak longestStreak : Z)
  (totalSaved : number) (lastSaveDate : option string) (now : Z)
  (s : SavingsStreak.t) : SavingsStreak.t :=
  SavingsStreak.mk (SavingsStreak.id s) (SavingsStreak.userId s)
    (SavingsStreak.challengeName s) (SavingsStreak.targetAmount s)
    (SavingsStreak.frequency s) currentStreak longestStreak
    (SavingsStreak.isActive s) lastSaveDate (real_of_toString totalSaved)
    (SavingsStreak.startDate s) (SavingsStreak.endDate s)
    (SavingsStreak.createdAt s) (timestamp now).

(** The values the recomputation derives from the streak row and its
    entries at time [now]. *)
Record Progress := mkProgress {
  p_currentStreak : Z; p_longestStreak : Z; p_totalSaved : number;
  p_lastSaveDate : option string }.

Definition computeProgress `{JsRuntime} (streak : SavingsStreak.t)
  (entries : list StreakEntry.t) (now : Z) : Progress :=
  let totalSaved := totalSavedOf entries in
  let sortedEntries := sort bySaveDateDesc entries in
  let currentStreak :=
    if 0 <? Z.of_nat (List.length sortedEntries)
    then streakLoop (SavingsStreak.frequency streak) sortedEntries now 0
    else 0 in
  let longestStreak :=
    Z.max currentStreak (SavingsStreak.longestStreak streak) in
  let lastSaveDate :=
    match sortedEntries with
    | e :: _ => Some (StreakEntry.saveDate e)
    | [] => None
    end in
  mkProgress currentStreak longestStreak totalSaved lastSaveDate.

Definition updateStreakProgress `{JsRuntime} (db : Db) (now : Z)
  (streakId : Z) (userId : string) : Db * option SavingsStreak.t :=
  match getSavingsStreak db streakId userId with
  | None => (db, None)
  | Some streak =>
      let entries := getStreakEntries db streakId in
      let p := computeProgress streak entries now in
      let '(t, updated) :=
        exec_update
          (where_ (and_ (eqZ SavingsStreak.id streakId)
                        (eqS SavingsStreak.userId userId))
                  (set_ (setStreakProgress (p_currentStreak p)
                           (p_longestStreak p) (p_totalSaved p)
                           (p_lastSaveDate p) now)
                        (update (savingsStreaks db)))) in
      (with_savingsStreaks db t, first updated)
  end.

End DatabaseStorage.

(** ** Requests and responses *)

(** A JSON value of a request body; [JUndefined] is an absent key. *)
Inductive JsValue :=
| JUndefined
| JNull
| JBool (b : bool)
| JNumber (n : number)
| JString (s : string)
| JObject.

(** [res.status(s).json(payload)], [res.status(s).json({ message })] and
    [res.status(s).send()]. *)
Inductive Response (A : Type) :=
| Json (status : Z) (payload : A)
| Message (status : Z) (message : string)
| NoContent (status : Z).
Arguments Json {A} _ _.
Arguments Message {A} _ _.
Arguments NoContent {A} _.

Definition statusOf {A : Type} (r : Response A) : Z :=
  match r with
  | Json s _ => s
  | Message s _ => s
  | NoContent s => s
  end.

(** The outcome of [schema.parse(...)]: the validated object, or a thrown
    [ZodError]. *)
Inductive ZodResult (A : Type) :=
| ZodOk (data : A)
| ZodError.
Arguments ZodOk {A} _.
Arguments ZodError {A}.

(** [z.string()], [z.number()] (which refuses NaN), [z.boolean()], and the
    [.optional()] and [.nullable()] wrappers. *)
Definition zString (v : JsValue) : option string :=
  match v with
  | JString s => Some s
  | _ => None
  end.

Definition zNumber (v : JsValue) : option number :=
  match v with
  | JNumber n => if is_nan n then None else Some n
  | _ => None
  end.

Definition zBoolean (v : JsValue) : option bool :=
  match v with
  | JBool b => Some b
  | _ => None
  end.

Definition zOptional {A : Type} (z : JsValue -> option A) (v : JsValue)
  : option (option A) :=
  match v with
  | JUndefined => Some None
  | _ => option_map Some (z v)
  end.

Definition zNullable {A : Type} (z : JsValue -> option A) (v : JsValue)
  : option (option A) :=
  match v with
  | JNull => Some None
  | _ => option_map Some (z v)
  end.

(** The body of [POST /api/streaks]. *)
Record StreakBody := mkStreakBody {
  sb_challengeName : JsValue; sb_targetAmount : JsValue;
  sb_frequency : JsValue; sb_isActive : JsValue; sb_lastSaveDate : JsValue;
  sb_startDate : JsValue; sb_endDate : JsValue }.

(** [insertSavingsStreakSchema.parse({...req.body, userId})]: the schema
    derived from the table, without [id], the two counters, [totalSaved]
    and the timestamps.  [frequency] is a text column: any string passes. *)
Definition insertSavingsStreakSchema_parse (body : StreakBody)
  (userId : string) : ZodResult InsertSavingsStreak :=
  match zString (sb_challengeName body), zNumber (sb_targetAmount body),
        zString (sb_frequency body), zOptional zBoolean (sb_isActive body),
        zOptional (zNullable zString) (sb_lastSaveDate body),
        zString (sb_startDate body),
        zOptional (zNullable zString) (sb_endDate body) with
  | Some challengeName, Some targetAmount, Some frequency, Some isActive,
    Some lastSaveDate, Some startDate, Some endDate =>
      ZodOk (mkInsertSavingsStreak userId challengeName targetAmount
               frequency isActive lastSaveDate startDate endDate)
  | _, _, _, _, _, _, _ => ZodError
  end.

(** The body of [POST /api/streaks/:id/entries]. *)
Record EntryBody := mkEntryBody { eb_amount : JsValue; eb_saveDate : JsValue }.

(** [insertStreakEntrySchema.parse({...req.body, streakId})] *)
Definition insertStreakEntrySchema_parse (body : EntryBody) (streakId : Z)
  : ZodResult InsertStreakEntry :=
  match zNumber (eb_amount body), zString (eb_saveDate body) with
  | Some amount, Some saveDate =>
      ZodOk (mkInsertStreakEntry streakId amount saveDate)
  | _, _ => ZodError
  end.

(** The bodies of [POST /api/budgets] and [POST /api/goals]. *)
Record BudgetBody := mkBudgetBody {
  bb_category : JsValue; bb_amount : JsValue; bb_period : JsValue }.

Record GoalBody := mkGoalBody {
  gb_title : JsValue; gb_description : JsValue; gb_targetAmount : JsValue;
  gb_currentAmount : JsValue; gb_category : JsValue; gb_targetDate : JsValue;
  gb_status : JsValue }.

(** [insertBudgetSchema.parse({...req.body, userId})] and
    [insertGoalSchema.parse({...req.body, userId})]: the columns with a
    default are optional, [description] is optional and nullable. *)
Definition insertBudgetSchema_parse (body : BudgetBody) (userId : string)
  : ZodResult InsertBudget :=
  match zString (bb_category body), zNumber (bb_amount body),
        zOptional zString (bb_period body) with
  | Some category, Some amount, Some period =>
      ZodOk (mkInsertBudget userId category amount period)
  | _, _, _ => ZodError
  end.

Definition insertGoalSchema_parse (body : GoalBody) (userId : string)
  : ZodResult InsertGoal :=
  match zString (gb_title body),
        zOptional (zNullable zString) (gb_description body),
        zNumber (gb_targetAmount body),
        zOptional zNumber (gb_currentAmount body),
        zString (gb_category body), zString (gb_targetDate body),
        zOptional zString (gb_status body) with
  | Some title, Some description, Some targetAmount, Some currentAmount,
    Some category, Some targetDate, Some status =>
      ZodOk (mkInsertGoal userId title description targetAmount
               currentAmount category targetDate status)
  | _, _, _, _, _, _, _ => ZodError
  end.

(** ** The route module ([registerRoutes])

    The handlers run behind [isAuthenticated]: [userId] is [req.user.id],
    and [id] is the parsed path parameter.  An exception thrown inside a
    handler's [try] block is answered with 500. *)

Module Routes.
Import DatabaseStorage.

Definition getExpenseById (db : Db) (userId : string) (id : Z)
  : Response Expense.t :=
  match getExpense db id userId with
  | None => Message 404 "Expense not found"
  | Some expense => Json 200 expense
  end.

Definition putExpense (db : Db) (userId : string) (id : Z)
  (body : ZodResult PartialInsertExpense) : Db * Response Expense.t :=
  match body with
  | ZodError => (db, Message 400 "Invalid expense data")
  | ZodOk validatedData =>
      match updateExpense db id validatedData userId with
      | None => (db, Message 500 "Failed to update expense")
      | Some (db', None) => (db', Message 404 "Expense not found")
      | Some (db', Some e) => (db', Json 200 e)
      end
  end.

Definition deleteExpenseById (db : Db) (userId : string) (id : Z)
  : Db * Response unit :=
  let '(db', deleted) := deleteExpense db id userId in
  if deleted then (db', NoContent 204)
  else (db', Message 404 "Expense not found").

Definition putBudget (db : Db) (userId : string) (id : Z)
  (body : ZodResult PartialInsertBudget) : Db * Response Budget.t :=
  match body with
  | ZodError => (db, Message 400 "Invalid budget data")
  | ZodOk validatedData =>
      match updateBudget db id validatedData userId with
      | None => (db, Message 500 "Failed to update budget")
      | Some (db', None) => (db', Message 404 "Budget not found")
      | Some (db', Some b) => (db', Json 200 b)
      end
  end.

Definition deleteBudgetById (db : Db) (userId : string) (id : Z)
  : Db * Response unit :=
  let '(db', deleted) := deleteBudget db id userId in
  if deleted then (db', NoContent 204)
  else (db', Message 404 "Budget not found").

Definition getGoalById (db : Db) (userId : string) (id : Z)
  : Response Goal.t :=
  match getGoal db id userId with
  | None => Message 404 "Goal not found"
  | Some goal => Json 200 goal
  end.

Definition putGoal (db : Db) (now : Z) (userId : string) (id : Z)
  (body : ZodResult PartialInsertGoal) : Db * Response Goal.t :=
  match body with
  | ZodError => (db, Message 400 "Invalid goal data")
  | ZodOk validatedData =>
      match updateGoal db now id validatedData userId with
      | None => (db, Message 500 "Failed to update goal")
      | Some (db', None) => (db', Message 404 "Goal not found")
      | Some (db', Some g) => (db', Json 200 g)
      end
  end.

Definition deleteGoalById (db : Db) (userId : string) (id : Z)
  : Db * Response unit :=
  let '(db', deleted) := deleteGoal db id userId in
  if deleted then (db', NoContent 204)
  else (db', Message 404 "Goal not found").

(** [PATCH /api/goals/:id/progress], with [const { amount } = req.body]. *)
Definition patchGoalProgress (db : Db) (now : Z) (userId : string) (id : Z)
  (amount : JsValue) : Db * Response Goal.t :=
  match amount with
  | JNumber a =>
      if num_lt a 0%float then (db, Message 400 "Invalid amount")
      else
        let '(db', updatedGoal) := updateGoalProgress db now id a userId in
        match updatedGoal with
        | None => (db', Message 404 "Goal not found")
        | Some g => (db', Json 200 g)
        end
  | _ => (db, Message 400 "Invalid amount")
  end.

Definition getStreakById (db : Db) (userId : string) (id : Z)
  : Response SavingsStreak.t :=
  match getSavingsStreak db id userId with
  | None => Message 404 "Streak not found"
  | Some streak => Json 200 streak
  end.

Definition postStreak (db : Db) (now : Z) (userId : string)
  (body : StreakBody) : Db * Response SavingsStreak.t :=
  match insertSavingsStreakSchema_parse body userId with
  | ZodError => (db, Message 400 "Invalid streak data")
  | ZodOk validatedData =>
      let '(db', streak) := createSavingsStreak db now validatedData in
      (db', Json 201 streak)
  end.

(** [POST /api/streaks/:id/entries]: the ownership check, the validation,
    the insertion, then the recomputation. *)
Definition postStreakEntry `{JsRuntime} (db : Db) (now : Z) (userId : string)
  (streakId : Z) (body : EntryBody) : Db * Response StreakEntry.t :=
  match getSavingsStreak db streakId userId with
  | None => (db, Message 404 "Streak not found")
  | Some _ =>
      match insertStreakEntrySchema_parse body streakId with
      | ZodError => (db, Message 400 "Invalid entry data")
      | ZodOk validatedData =>
          let '(db1, entry) := addStreakEntry db now validatedData in
          let '(db2, _) := updateStreakProgress db1 now streakId userId in
          (db2, Json 201 entry)
      end
  end.

Definition deleteStreakById (db : Db) (userId : string) (id : Z)
  : Db * Response unit :=
  let '(db', deleted) := deleteSavingsStreak db id userId in
  if deleted then (db', NoContent 204)
  else (db', Message 404 "Streak not found").

(** [POST /api/budgets] and [POST /api/goals] *)
Definition postBudget (db : Db) (now : Z) (userId : string)
  (body : BudgetBody) : Db * Response Budget.t :=
  match insertBudgetSchema_parse body userId with
  | ZodError => (db, Message 400 "Invalid budget data")
  | ZodOk validatedData =>
      let '(db', budget) := createBudget db now validatedData in
      (db', Json 201 budget)
  end.

Definition postGoal (db : Db) (now : Z) (userId : string)
  (body : GoalBody) : Db * Response Goal.t :=
  match insertGoalSchema_parse body userId with
  | ZodError => (db, Message 400 "Invalid goal data")
  | ZodOk validatedData =>
      let '(db', goal) := createGoal db now validatedData in
      (db', Json 201 goal)
  end.

(** The query string of [GET /api/expenses]. *)
Record ExpenseQuery := mkExpenseQuery {
  eq_category : option string; eq_startDate : option string;
  eq_endDate : option string }.

(** [GET /api/expenses]: a category wins over a date range, which needs
    both of its ends. *)
Definition getExpensesList (db : Db) (userId : string) (q : ExpenseQuery)
  : Response (list Expense.t) :=
  match truthy (eq_category q) with
  | Some category => Json 200 (getExpensesByCategory db category userId)
  | None =>
      match truthy (eq_startDate q), truthy (eq_endDate q) with
      | Some startDate, Some endDate =>
          Json 200 (getExpensesByDateRange db startDate endDate userId)
      | _, _ => Json 200 (getExpenses db userId)
      end
  end.

Definition getBudgetsList (db : Db) (userId : string)
  : Response (list Budget.t) :=
  Json 200 (getBudgets db userId).

Definition getGoalsList (db : Db) (userId : string)
  : Response (list Goal.t) :=
  Json 200 (getGoals db userId).

Definition getStreaksList (db : Db) (userId : string)
  : Response (list SavingsStreak.t) :=
  Json 200 (getSavingsStreaks db userId).

(** [GET /api/streaks/:id/entries]: the ownership check, then the entries
    of the streak. *)
Definition getStreakEntriesList (db : Db) (userId : string) (streakId : Z)
  : Response (list StreakEntry.t) :=
  match getSavingsStreak db streakId userId with
  | None => Message 404 "Streak not found"
  | Some _ => Json 200 (getStreakEntries db streakId)
  end.

End Routes.

(** ** Registration *)

(** The body of a registration request: its string fields, [None] when
    absent. *)
Record RegisterBody := mkRegisterBody {
  rb_email : option string; rb_password : option string;
  rb_firstName : option string; rb_lastName : option string }.

(** The user object of the responses: the row without its password. *)
Record PublicUser := mkPublicUser {
  pu_id : string; pu_email : string;
  pu_firstName : option string; pu_lastName : option string }.

Definition publicUser (u : User.t) : PublicUser :=
  mkPublicUser (User.id u) (User.email u) (User.firstName u)
    (User.lastName u).

(** [!s] and [s || null] on an optional string: absent and empty strings
    are falsy. *)
Definition falsy (s : option string) : bool :=
  match s with
  | None => true
  | Some v => String.eqb v EmptyString
  end.

Definition orNull (s : option string) : option string :=
  if falsy s then None else s.

(** ** Buffers and the password hash

    A [Buffer] is the string of its bytes.  [scrypt password salt] is
    [scryptAsync(password, salt, 64)], a key of 64 bytes. *)

Class Scrypt := {
  scrypt : string -> string -> string;
  scrypt_length :
    forall password salt, String.length (scrypt password salt) = 64%nat }.

Definition hexDigit (n : N) : ascii :=
  if (n <? 10)%N then ascii_of_N (48 + n) else ascii_of_N (87 + n).

Definition hexValue (a : ascii) : option N :=
  let n := N_of_ascii a in
  if ((48 <=? n) && (n <=? 57))%N then Some (n - 48)%N
  else if ((97 <=? n) && (n <=? 102))%N then Some (n - 87)%N
  else if ((65 <=? n) && (n <=? 70))%N then Some (n - 55)%N
  else None.

(** [buf.toString("hex")]: two lower-case digits for each byte. *)
Fixpoint toHex (buf : string) : string :=
  match buf with
  | EmptyString => EmptyString
  | String b rest =>
      String (hexDigit (N_of_ascii b / 16))
        (String (hexDigit (N_of_ascii b mod 16)) (toHex rest))
  end.

(** [Buffer.from(s, "hex")]: one byte for each pair of digits, up to the
    first pair that is not hexadecimal. *)
Fixpoint fromHex (s : string) : string :=
  match s with
  | String a (String b rest) =>
      match hexValue a, hexValue b with
      | Some h, Some l => String (ascii_of_N (16 * h + l)) (fromHex rest)
      | _, _ => EmptyString
      end
  | _ => EmptyString
  end.

(** [s.split(".")] *)
Fixpoint splitDot (s : string) : list string :=
  match s with
  | EmptyString => [EmptyString]
  | String c rest =>
      if Ascii.eqb c "." then EmptyString :: splitDot rest
      else
        match splitDot rest with
        | h :: t => String c h :: t
        | [] => [String c EmptyString]
        end
  end.

(** [timingSafeEqual(a, b)]: throws ([None]) when the two buffers differ
    in length. *)
Definition timingSafeEqual (a b : string) : option bool :=
  if Nat.eqb (String.length a) (String.length b)
  then Some (String.eqb a b)
  else None.

(** ** The auth module ([setupAuth])

    [hashedPassword] is the result of [hashPassword(password)] for this
    request (the salt is random), [uuid] the generated user id.  The
    session, in which [req.login] puts the new user, is not part of the
    database. *)

Module Auth.
Import DatabaseStorage.

(** [POST /api/register] *)
Definition register (db : Db) (uuid : string) (now : Z)
  (hashedPassword : string) (body : RegisterBody)
  : Db * Response PublicUser :=
  match rb_email body, rb_password body with
  | Some email, Some password =>
      if falsy (Some email) || falsy (Some password)
      then (db, Message 400 "Email e senha são obrigatórios")
      else
        match getUserByEmail db email with
        | Some _ => (db, Message 400 "Usuário já existe com este email")
        | None =>
            match createUser db uuid now
                    (mkInsertUser email hashedPassword
                       (orNull (rb_firstName body))
                       (orNull (rb_lastName body))) with
            | None => (db, Message 500 "Erro interno do servidor")
            | Some (db', user) => (db', Json 201 (publicUser user))
            end
        end
  | _, _ => (db, Message 400 "Email e senha são obrigatórios")
  end.

(** [hashPassword(password)]; [saltBytes] is [randomBytes(16)]. *)
Definition hashPassword `{Scrypt} (saltBytes password : string) : string :=
  let salt := toHex saltBytes in
  let buf := scrypt password salt in
  toHex buf ++ "." ++ salt.

(** [comparePasswords(supplied, stored)]; [None] when it throws: without a
    dot in [stored] the salt is [undefined] and [scrypt] refuses it. *)
Definition comparePasswords `{Scrypt} (supplied stored : string)
  : option bool :=
  match splitDot stored with
  | hashed :: salt :: _ =>
      let hashedBuf := fromHex hashed in
      let suppliedBuf := scrypt supplied salt in
      timingSafeEqual hashedBuf suppliedBuf
  | _ => None
  end.

(** The outcome of the verify function of the local strategy:
    [done(null, user)], [done(null, false, { message })] and
    [done(error)]. *)
Inductive Verified :=
| Authenticated (user : User.t)
| Refused (message : string)
| Errored.

Definition verify `{Scrypt} (db : Db) (email password : string) : Verified :=
  match getUserByEmail db email with
  | None => Refused "Email ou senha incorretos"
  | Some user =>
      match comparePasswords password (User.password user) with
      | None => Errored
      | Some true => Authenticated user
      | Some false => Refused "Email ou senha incorretos"
      end
  end.

(** The session of a request: the id of its user, [None] without one. *)
Definition Session := option string.

Record LoginBody := mkLoginBody {
  lb_email : option string; lb_password : option string }.

(** [POST /api/login].  The local strategy refuses a request without
    e-mail or password before it calls [verify]; the handler answers a
    refusal with 401 and the strategy's message.  [loggedIn] tells whether
    [req.login] succeeds. *)
Definition login `{Scrypt} (db : Db) (session : Session) (loggedIn : bool)
  (body : LoginBody) : Session * Response PublicUser :=
  match truthy (lb_email body), truthy (lb_password body) with
  | Some email, Some password =>
      match verify db email password with
      | Errored => (session, Message 500 "Erro interno do servidor")
      | Refused message => (session, Message 401 message)
      | Authenticated user =>
          if loggedIn then (Some (User.id user), Json 200 (publicUser user))
          else (session, Message 500 "Erro interno do servidor")
      end
  | _, _ => (session, Message 401 "Missing credentials")
  end.

End Auth.

(** ** The handlers of [index.ts]

    They run behind [requireAuth] and query the tables directly; [userId]
    is [req.session.userId]. *)

Module Index.

(** [POST /api/auth/register].  A missing e-mail cannot be bound as a query
    parameter and a missing password cannot be hashed: both throw inside
    the [try] block. *)
Definition register (db : Db) (uuid : string) (now : Z)
  (hashedPassword : string) (body : RegisterBody)
  : Db * Response PublicUser :=
  match rb_email body with
  | None => (db, Message 500 "Erro interno do servidor")
  | Some email =>
      let existingUser :=
        first (select_rows (where_ (eqS User.email email)
                                   (from (users db)))) in
      match existingUser with
      | Some _ => (db, Message 409 "Email já está em uso")
      | None =>
          match rb_password body with
          | None => (db, Message 500 "Erro interno do servidor")
          | Some _ =>
              match insertUser (users db) uuid now
                      (mkInsertUser email hashedPassword
                         (rb_firstName body) (rb_lastName body)) with
              | None => (db, Message 500 "Erro interno do servidor")
              | Some (t, newUser) =>
                  (with_users db t, Json 201 (publicUser newUser))
              end
          end
      end
  end.

(** The body of [PUT /api/goals/:id], a [GoalInput] with its required
    fields; [status] and the optional fields are [None] when absent. *)
Record GoalInput := mkGoalInput {
  gi_title : string; gi_description : option string;
  gi_targetAmount : number; gi_currentAmount : option number;
  gi_category : string; gi_targetDate : string; gi_status : option string }.

(** The object given to [.set(...)]: [parseFloat(targetAmount)],
    [parseFloat(currentAmount || 0)], and [updatedAt: new Date()]. *)
Definition setGoalInput (body : GoalInput) (now : Z) (g : Goal.t) : Goal.t :=
  Goal.mk (Goal.id g) (Goal.userId g) (gi_title body)
    (match gi_description body with
     | Some d => Some d
     | None => Goal.description g
     end)
    (parseFloat (gi_targetAmount body))
    (parseFloat (match gi_currentAmount body with
                 | Some c => num_or_zero c
                 | None => 0%float
                 end))
    (gi_category body) (gi_targetDate body)
    (assign (gi_status body) (Goal.status g))
    (Goal.createdAt g) (timestamp now).

(** [PUT /api/goals/:id]: the update is built with
    [.where(eq(goals.id, id)).where(eq(goals.userId, userId))]. *)
Definition putGoal (db : Db) (now : Z) (userId : string) (id : Z)
  (body : GoalInput) : Db * Response Goal.t :=
  let '(t, returning) :=
    exec_update
      (where_ (eqS Goal.userId userId)
         (where_ (eqZ Goal.id id)
            (set_ (setGoalInput body now) (update (goals db))))) in
  match first returning with
  | None => (with_goals db t, Message 404 "Meta não encontrada")
  | Some updatedGoal => (with_goals db t, Json 200 updatedGoal)
  end.

(** [DELETE /api/goals/:id]: the deletion is built with
    [.where(eq(goals.id, id)).where(eq(goals.userId, userId))]. *)
Definition deleteGoal (db : Db) (userId : string) (id : Z)
  : Db * Response unit :=
  let '(t, returning) :=
    exec_delete
      (where_ (eqS Goal.userId userId)
         (where_ (eqZ Goal.id id) (delete (goals db)))) in
  match first returning with
  | None => (with_goals db t, Message 404 "Meta não encontrada")
  | Some _ => (with_goals db t, NoContent 204)
  end.

(** The session of a request: [req.session.userId], [None] when there is
    no session or no user in it. *)
Definition Session := option string.

(** The [requireAuth] middleware in front of a handler. *)
Definition requireAuth {A : Type} (session : Session)
  (next : string -> Db -> Db * Response A) (db : Db) : Db * Response A :=
  match truthy session with
  | None => (db, Message 401 "Não autenticado")
  | Some userId => next userId db
  end.

(** The body of [POST /api/auth/login]. *)
Record LoginBody := mkLoginBody {
  lb_email : option string; lb_password : option string }.

(** [POST /api/auth/login].  [compare] is [bcrypt.compare]; [saved] tells
    whether [req.session.save] succeeds.  A missing e-mail cannot be bound
    as a query parameter and a missing password cannot be compared: both
    throw inside the [try] block. *)
Definition login (compare : string -> string -> bool) (db : Db)
  (session : Session) (saved : bool) (body : LoginBody)
  : Session * Response PublicUser :=
  match lb_email body with
  | None => (session, Message 500 "Erro interno do servidor")
  | Some email =>
      match first (select_rows (where_ (eqS User.email email)
                                       (from (users db)))) with
      | None => (session, Message 401 "Credenciais inválidas")
      | Some user =>
          match lb_password body with
          | None => (session, Message 500 "Erro interno do servidor")
          | Some password =>
              if compare password (User.password user)
              then if saved
                   then (Some (User.id user), Json 200 (publicUser user))
                   else (session, Message 500 "Erro ao criar sessão")
              else (session, Message 401 "Credenciais inválidas")
          end
      end
  end.

(** [POST /api/auth/logout]; [destroyed] tells whether
    [req.session.destroy] succeeds. *)
Definition logout (session : Session) (destroyed : bool)
  : Session * Response unit :=
  if destroyed then (None, Message 200 "Logout realizado com sucesso")
  else (session, Message 500 "Erro ao fazer logout").

(** [GET /api/auth/me] *)
Definition me (db : Db) (session : Session) : Response PublicUser :=
  match truthy session with
  | None => Message 401 "Não autenticado"
  | Some userId =>
      match first (select_rows (where_ (eqS User.id userId)
                                       (from (users db)))) with
      | None => Message 401 "Usuário não encontrado"
      | Some user => Json 200 (publicUser user)
      end
  end.

(** The query string of [GET /api/expenses]. *)
Record ExpenseQuery := mkExpenseQuery {
  eq_category : option string; eq_startDate : option string;
  eq_endDate : option string }.

(** [GET /api/expenses]: the query starts with the owner filter, and each
    filter of the query string adds a [.where] call to it. *)
Definition getExpenses (db : Db) (userId : string) (q : ExpenseQuery)
  : Response (list Expense.t) :=
  let query := where_ (eqS Expense.userId userId) (from (expenses db)) in
  let query :=
    match truthy (eq_category q) with
    | Some category => where_ (eqS Expense.category category) query
    | None => query
    end in
  let query :=
    match truthy (eq_startDate q), truthy (eq_endDate q) with
    | Some startDate, Some endDate =>
        where_ (betweenS Expense.date startDate endDate) query
    | _, _ => query
    end in
  Json 200 (select_rows query).

(** [GET /api/goals], [GET /api/budgets] and [GET /api/streaks] *)
Definition getGoals (db : Db) (userId : string) : Response (list Goal.t) :=
  Json 200 (select_rows (where_ (eqS Goal.userId userId) (from (goals db)))).

Definition getBudgets (db : Db) (userId : string)
  : Response (list Budget.t) :=
  Json 200
    (select_rows (where_ (eqS Budget.userId userId) (from (budgets db)))).

Definition getStreaks (db : Db) (userId : string)
  : Response (list SavingsStreak.t) :=
  Json 200
    (select_rows (where_ (eqS SavingsStreak.userId userId)
                         (from (savingsStreaks db)))).

End Index.

(** ** Notions of the specification *)

(** The walk of the specification, as a relation: [Counted gap c l c'] when
    starting from the cursor [c] every entry of [l], in order, is within
    [gap] whole days of the cursor, which then moves to the entry's date
    minus [gap] days; [c'] is the cursor after the last entry. *)
Inductive Counted `{JsRuntime} (gap : Z)
  : Z -> list StreakEntry.t -> Z -> Prop :=
| Counted_nil : forall c, Counted gap c [] c
| Counted_cons : forall c e t l c',
    Date_parse (StreakEntry.saveDate e) = Some t ->
    daysBetween c t <= gap ->
    Counted gap (t - gap * msPerDay) l c' ->
    Counted gap c (e :: l) c'.

(** The entry at which the walk stops: its gap from the cursor exceeds
    [gap], or its date is invalid and has no gap at all. *)
Definition stopsAt `{JsRuntime} (gap c : Z) (e : StreakEntry.t) : Prop :=
  match Date_parse (StreakEntry.saveDate e) with
  | Some t => gap < daysBetween c t
  | None => True
  end.

Definition stopsWalk `{JsRuntime} (gap c : Z) (rest : list StreakEntry.t)
  : Prop :=
  match rest with
  | [] => True
  | e :: _ => stopsAt gap c e
  end.

(** The UTC calendar day of a time value. *)
Definition utcDay (t : Z) : Z := t / msPerDay.

(** Entries on consecutive calendar days, most recent first: the first is
    on day [d], the next on day [d - 1], and so on. *)
Fixpoint consecutiveDays `{JsRuntime} (d : Z) (l : list StreakEntry.t)
  : Prop :=
  match l with
  | [] => True
  | e :: l' =>
      (exists t, Date_parse (StreakEntry.saveDate e) = Some t
                 /\ utcDay t = d)
      /\ consecutiveDays (d - 1) l'
  end.

(** The exact sum of the entry amounts, as a rational. *)
Fixpoint exactSum (entries : list StreakEntry.t) : option Q :=
  match entries with
  | [] => Some 0%Q
  | e :: l =>
      match exact_value (StreakEntry.amount e), exactSum l with
      | Some v, Some q => Some (v + q)%Q
      | _, _ => None
      end
  end.

Definition totalIsExact (total : number) (entries : list StreakEntry.t)
  : Prop :=
  match exact_value total, exactSum entries with
  | Some v, Some q => (v == q)%Q
  | _, _ => False
  end.

(** A goal after a progress update, as the specification describes it:
    [currentAmount] holds the amount and no other field differs. *)
Definition onlyCurrentAmountSet (amount : number) (g g' : Goal.t) : Prop :=
  g' = Goal.mk (Goal.id g) (Goal.userId g) (Goal.title g)
         (Goal.description g) (Goal.targetAmount g) amount (Goal.category g)
         (Goal.targetDate g) (Goal.status g) (Goal.createdAt g)
         (Goal.updatedAt g).

(** No row of the table has both this id and this owner: the id is unknown,
    or it belongs to another user. *)
Definition notOwned {row : Type} (rowid : row -> Z) (owner : row -> string)
  (t : Table row) (id : Z) (userId : string) : Prop :=
  forall r, In r (rows t) -> rowid r = id -> owner r <> userId.

(** The users table has a row with this id. *)
Definition storedUser (db : Db) (u : string) : bool :=
  existsb (fun x => String.eqb (User.id x) u) (rows (users db)).

(** A sequence of entry additions: each request has its own time, user,
    streak and body. *)
Record EntryRequest := mkEntryRequest {
  er_now : Z; er_userId : string; er_streakId : Z; er_body : EntryBody }.

Definition addEntry `{JsRuntime} (db : Db) (r : EntryRequest) : Db :=
  fst (Routes.postStreakEntry db (er_now r) (er_userId r) (er_streakId r)
         (er_body r)).

Definition addEntries `{JsRuntime} (db : Db) (reqs : list EntryRequest)
  : Db :=
  fold_left addEntry reqs db.

(** The streak row keeps its identity and its longest streak does not
    decrease. *)
Definition ratchets (s s' : SavingsStreak.t) : Prop :=
  SavingsStreak.id s' = SavingsStreak.id s
  /\ SavingsStreak.userId s' = SavingsStreak.userId s
  /\ SavingsStreak.longestStreak s <= SavingsStreak.longestStreak s'.

(** The assignments a recomputation makes, derived from the streak row [s]
    it has read and from the entries; and the row it returns for [s]. *)
Definition progressWrite `{JsRuntime} (s : SavingsStreak.t)
  (entries : list StreakEntry.t) (now : Z)
  : SavingsStreak.t -> SavingsStreak.t :=
  let p := DatabaseStorage.computeProgress s entries now in
  DatabaseStorage.setStreakProgress (DatabaseStorage.p_currentStreak p)
    (DatabaseStorage.p_longestStreak p) (DatabaseStorage.p_totalSaved p)
    (DatabaseStorage.p_lastSaveDate p) now.

Definition progressRow `{JsRuntime} (s : SavingsStreak.t)
  (entries : list StreakEntry.t) (now : Z) : SavingsStreak.t :=
  progressWrite s entries now s.

(** The filter of the recomputation, and the table it leaves. *)
Definition ownStreak (streakId : Z) (userId : string)
  : SQL SavingsStreak.t :=
  and_ (eqZ SavingsStreak.id streakId) (eqS SavingsStreak.userId userId).

Definition progressTable `{JsRuntime} (db : Db) (now streakId : Z)
  (userId : string) (s : SavingsStreak.t) : Table SavingsStreak.t :=
  mkTable
    (map (fun r => if ownStreak streakId userId r
                   then progressWrite s
                          (DatabaseStorage.getStreakEntries db streakId) now
                          r
                   else r)
       (rows (savingsStreaks db)))
    (seq (savingsStreaks db)).

(** The time value of an entry's date, and the order "not older than" on
    time values; an invalid date is in no such relation. *)
Definition entryTime `{JsRuntime} (e : StreakEntry.t) : option Z :=
  Date_parse (StreakEntry.saveDate e).

Definition notOlder (x y : option Z) : Prop :=
  match x, y with
  | Some a, Some b => b <= a
  | _, _ => False
  end.

Definition validDates `{JsRuntime} (entries : list StreakEntry.t) : Prop :=
  Forall (fun e => entryTime e <> None) entries.

(** A table with its primary key: the ids are distinct, and none is above
    the largest id ever assigned. *)
Definition keyed {row : Type} (rowid : row -> Z) (t : Table row) : Prop :=
  NoDup (map rowid (rows t)) /\ Forall (fun r => rowid r <= seq t) (rows t).

(** The requests on streaks of the route module. *)
Inductive StreakRequest :=
| PostStreak (now : Z) (userId : string) (body : StreakBody)
| PostEntry (now : Z) (userId : string) (streakId : Z) (body : EntryBody)
| DeleteStreak (userId : string) (streakId : Z).

Definition serve `{JsRuntime} (db : Db) (r : StreakRequest) : Db :=
  match r with
  | PostStreak now userId body => fst (Routes.postStreak db now userId body)
  | PostEntry now userId streakId body =>
      fst (Routes.postStreakEntry db now userId streakId body)
  | DeleteStreak userId streakId =>
      fst (Routes.deleteStreakById db userId streakId)
  end.

Definition serveAll `{JsRuntime} (db : Db) (reqs : list StreakRequest)
  : Db :=
  fold_left serve reqs db.

(** ** Example data *)

Definition hours (n : Z) : Z := n * 60 * 60 * 1000.

(** 2025-03-20, noon UTC. *)
Definition noon20 : Z := 1742428800000 + hours 12.

(** A host in New York: four hours behind UTC until daylight saving ends,
    at 06:00 UTC on 2025-11-02, and five hours behind afterwards; a local
    time is read in the earlier offset until 02:00. *)
Definition dstEnd : Z := 1762063200000.

Definition newYorkTZA (t : Z) (isUTC : bool) : Z :=
  if isUTC then (if t <? dstEnd then - hours 4 else - hours 5)
  else (if t <? dstEnd - hours 4 then - hours 4 else - hours 5).

Definition newYorkTZA_bound (t : Z) (isUTC : bool)
  : - msPerDay < newYorkTZA t isUTC < msPerDay :=
  match isUTC as b return - msPerDay < newYorkTZA t b < msPerDay with
  | true =>
      if t <? dstEnd as c
      return - msPerDay < (if c then - hours 4 else - hours 5) < msPerDay
      then conj eq_refl eq_refl else conj eq_refl eq_refl
  | false =>
      if t <? dstEnd - hours 4 as c
      return - msPerDay < (if c then - hours 4 else - hours 5) < msPerDay
      then conj eq_refl eq_refl else conj eq_refl eq_refl
  end.

Definition newYorkRuntime : JsRuntime :=
  {| Date_parse := isoDate_parse;
     LocalTZA := newYorkTZA;
     LocalTZA_bound := newYorkTZA_bound;
     sort := @stableSort;
     sort_permutes := @stableSort_permutes;
     sort_consistent := fun _ _ _ _ => eq_refl |}.

(** 2025-11-03, noon UTC, and two entries three calendar days apart. *)
Definition noonNov3 : Z := 1762128000000 + hours 12.

Definition streakOf (id : Z) (userId frequency : string)
  : SavingsStreak.t :=
  SavingsStreak.mk id userId "Cofrinho" 100%float frequency 0 0 true None
    0%float "2025-03-01" None 0 0.

Definition entryOf (id streakId : Z) (amount : number) (saveDate : string)
  : StreakEntry.t :=
  StreakEntry.mk id streakId amount saveDate 0.

Definition dbOf (streaks : list SavingsStreak.t)
  (entries : list StreakEntry.t) : Db :=
  with_streakEntries
    (with_savingsStreaks emptyDb (mkTable streaks 10))
    (mkTable entries 10).

Definition staleEntries : list StreakEntry.t :=
  [entryOf 1 1 10%float "2025-03-09"; entryOf 2 1 10%float "2025-03-10"].

Definition recentEntries : list StreakEntry.t :=
  [entryOf 1 1 10%float "2025-03-19"; entryOf 2 1 10%float "2025-03-20";
   entryOf 3 1 10%float "2025-03-18"].

Definition skippedDayEntries : list StreakEntry.t :=
  [entryOf 1 1 10%float "2025-03-20"; entryOf 2 1 10%float "2025-03-18"].

Definition novemberEntries : list StreakEntry.t :=
  [entryOf 1 1 10%float "2025-11-03"; entryOf 2 1 10%float "2025-10-31"].

Definition dimeEntries : list StreakEntry.t :=
  [entryOf 1 1 0.1%float "2025-03-19"; entryOf 2 1 0.2%float "2025-03-20"].

(** Alice's daily streak 1 with the given entries. *)
Definition dailyDb (entries : list StreakEntry.t) : Db :=
  dbOf [streakOf 1 "alice" "daily"] entries.

Definition entryBody (saveDate : string) : EntryBody :=
  mkEntryBody (JNumber 100%float) (JString saveDate).

(** Alice adds an entry for yesterday, then one for today. *)
Definition dailyRequests : list EntryRequest :=
  [mkEntryRequest (noon20 - hours 1) "alice" 1 (entryBody "2025-03-19");
   mkEntryRequest noon20 "alice" 1 (entryBody "2025-03-20")].

Definition goalOf (id : Z) (userId title : string) : Goal.t :=
  Goal.mk id userId title None 2000%float 100%float "travel" "2025-12-31"
    "active" 1000 1000.

Definition goalsDb : Db :=
  with_goals emptyDb
    (mkTable [goalOf 1 "alice" "Viagem"; goalOf 2 "bob" "Carro";
              goalOf 3 "alice" "Casa"] 3).

(** The goals of [goalsDb] together with the rows of their two owners. *)
Definition peopleDb : Db :=
  with_users goalsDb
    (mkTable [User.mk "alice" "alice@example.com" "hash" None None (Some 0)
                (Some 0);
              User.mk "bob" "bob@example.com" "hash" None None (Some 0)
                (Some 0)] 0).

Definition goalBody : Index.GoalInput :=
  Index.mkGoalInput "Moto" None 9000%float None "vehicle" "2026-01-01" None.

Definition userOf (id email : string) : User.t :=
  User.mk id email "hash" None None (Some 0) (Some 0).

Definition usersDb : Db :=
  with_users emptyDb (mkTable [userOf "u1" "alice@example.com"] 0).

Definition weeklyBody : StreakBody :=
  mkStreakBody (JString "Cofrinho") (JNumber 100%float) (JString "weekly")
    JUndefined JUndefined (JString "2025-03-01") JUndefined.

(** Alice creates a streak, deletes it, and three entries are refused or
    added in between. *)
Definition churnRequests : list StreakRequest :=
  [PostEntry 10 "alice" 1 (entryBody "2025-03-19");
   DeleteStreak "alice" 1;
   PostEntry 20 "alice" 1 (entryBody "2025-03-20")].

(** Alice and Bob both have an expense in the category food. *)
Definition expenseOf (id : Z) (userId category date : string) : Expense.t :=
  Expense.mk id userId "Compra" 10%float category date None None None None 0.

Definition expensesDb : Db :=
  with_expenses emptyDb
    (mkTable [expenseOf 1 "alice" "food" "2025-03-01";
              expenseOf 2 "bob" "food" "2025-03-02";
              expenseOf 3 "alice" "rent" "2025-03-05"] 3).

(** A key derivation for the examples: the password followed by the salt,
    cut or filled with zero bytes to [n] bytes. *)
Fixpoint pad (n : nat) (s : string) : string :=
  match n with
  | O => EmptyString
  | S n' =>
      match s with
      | EmptyString => String Ascii.zero (pad n' EmptyString)
      | String c rest => String c (pad n' rest)
      end
  end.

Fixpoint pad_length (n : nat) (s : string) : String.length (pad n s) = n :=
  match n with
  | O => eq_refl
  | S n' =>
      match s with
      | EmptyString => f_equal S (pad_length n' EmptyString)
      | String _ rest => f_equal S (pad_length n' rest)
      end
  end.

Definition toyScrypt : Scrypt :=
  {| scrypt := fun password salt => pad 64 (password ++ salt);
     scrypt_length := fun password salt => pad_length 64 (password ++ salt) |}.

(** Bodies for a new goal and a new budget that leave the optional keys
    out. *)
Definition newGoalBody : GoalBody :=
  mkGoalBody (JString "Moto") JUndefined (JNumber 9000%float) JUndefined
    (JString "vehicle") (JString "2026-01-01") JUndefined.

Definition newBudgetBody : BudgetBody :=
  mkBudgetBody (JString "food") (JNumber 500%float) JUndefined.

(** Alice creates her weekly streak in an empty database. *)
Definition weeklyDb : Db :=
  fst (Routes.postStreak emptyDb 0 "alice" weeklyBody).

(** Alice adds the entry dated [saveDate] at time [now]. *)
Definition aliceAdds `{JsRuntime} (db : Db) (now : Z) (amount : number)
  (saveDate : string) : Db :=
  addEntry db (mkEntryRequest now "alice" 1
                 (mkEntryBody (JNumber amount) (JString saveDate))).

(** * Proofs *)

(** ** The query builder *)

Section QueryFacts.
Context {row : Type}.
Implicit Types (c : SQL row) (f : row -> row) (l : list row).

Lemma filter_none c l :
  (forall r, In r l -> c r = false) -> filter c l = [].
Proof.
  induction l as [|r l IH]; intros Hc; simpl; [reflexivity|].
  rewrite (Hc r (or_introl eq_refl)). apply IH.
  intros r' Hr'. apply Hc. now right.
Qed.

Lemma filter_all c l :
  (forall r, In r l -> c r = true) -> filter c l = l.
Proof.
  induction l as [|r l IH]; intros Hc; simpl; [reflexivity|].
  rewrite (Hc r (or_introl eq_refl)). f_equal. apply IH.
  intros r' Hr'. apply Hc. now right.
Qed.

Lemma map_unmatched c f l :
  (forall r, In r l -> c r = false) ->
  map (fun r => if c r then f r else r) l = l.
Proof.
  induction l as [|r l IH]; intros Hc; simpl; [reflexivity|].
  rewrite (Hc r (or_introl eq_refl)). f_equal. apply IH.
  intros r' Hr'. apply Hc. now right.
Qed.

Lemma first_map (g : row -> row) l : first (map g l) = option_map g (first l).
Proof. destruct l; reflexivity. Qed.

(** Rows updated by assignments that keep the filter's columns are exactly
    the rows the same filter selects afterwards. *)
Lemma filter_updated c f l :
  (forall r, c r = true -> c (f r) = true) ->
  filter c (map (fun r => if c r then f r else r) l) = map f (filter c l).
Proof.
  intros Hf. induction l as [|r l IH]; simpl; [reflexivity|].
  destruct (c r) eqn:Hr.
  - rewrite (Hf r Hr). simpl. now rewrite IH.
  - rewrite Hr. exact IH.
Qed.

(** An update rewrites the matching rows in place and keeps the others. *)
Lemma Forall2_updated c f l :
  Forall2 (fun r r' => if c r then r' = f r else r' = r) l
    (map (fun r => if c r then f r else r) l).
Proof.
  induction l as [|r l IH]; simpl; constructor; [|exact IH].
  now destruct (c r).
Qed.

Lemma table_eta (t : Table row) : mkTable (rows t) (seq t) = t.
Proof. now destruct t. Qed.

Lemma select_rows_where c (t : Table row) :
  select_rows (where_ c (from t)) = filter c (rows t).
Proof. reflexivity. Qed.

Lemma exec_update_where c f (t : Table row) :
  exec_update (where_ c (set_ f (update t)))
  = (mkTable (map (fun r => if c r then f r else r) (rows t)) (seq t),
     map f (filter c (rows t))).
Proof. reflexivity. Qed.

Lemma exec_delete_where c (t : Table row) :
  exec_delete (where_ c (delete t))
  = (mkTable (filter (fun r => negb (c r)) (rows t)) (seq t),
     filter c (rows t)).
Proof. reflexivity. Qed.

Variables (rowid : row -> Z) (owner : row -> string).

Lemma scoped_unmatched (t : Table row) id userId :
  notOwned rowid owner t id userId ->
  forall r, In r (rows t) ->
    and_ (eqZ rowid id) (eqS owner userId) r = false.
Proof.
  intros Hn r Hr. unfold and_, eqZ, eqS.
  destruct (Z.eqb_spec (rowid r) id) as [Hid|]; [|reflexivity].
  simpl. apply String.eqb_neq. now apply (Hn r).
Qed.

(** A read, an update and a deletion filtered by [and(eq(id), eq(userId))]
    find nothing, and change nothing, when no row has both. *)
Lemma scoped_select (t : Table row) id userId :
  notOwned rowid owner t id userId ->
  select_rows (where_ (and_ (eqZ rowid id) (eqS owner userId)) (from t))
  = [].
Proof.
  intros Hn.
  cbv [select_rows matches where_ from q_where q_table].
  apply filter_none. now apply scoped_unmatched.
Qed.

Lemma scoped_update (t : Table row) f id userId :
  notOwned rowid owner t id userId ->
  exec_update (where_ (and_ (eqZ rowid id) (eqS owner userId))
                      (set_ f (update t)))
  = (t, []).
Proof.
  intros Hn. pose proof (scoped_unmatched t id userId Hn) as Hu.
  cbv [exec_update matches where_ set_ update from q_where q_table q_set].
  rewrite (map_unmatched _ f _ Hu).
  rewrite (filter_none (fun r => and_ (eqZ rowid id) (eqS owner userId) r)
             _ Hu).
  now rewrite table_eta.
Qed.

Lemma scoped_delete (t : Table row) id userId :
  notOwned rowid owner t id userId ->
  exec_delete (where_ (and_ (eqZ rowid id) (eqS owner userId)) (delete t))
  = (t, []).
Proof.
  intros Hn. pose proof (scoped_unmatched t id userId Hn) as Hu.
  cbv [exec_delete matches where_ delete from q_where q_table].
  rewrite (filter_none (fun r => and_ (eqZ rowid id) (eqS owner userId) r)
             _ Hu).
  rewrite filter_all, table_eta; [reflexivity|].
  intros r Hr. now rewrite (Hu r Hr).
Qed.

End QueryFacts.

Lemma with_users_eta db : with_users db (users db) = db.
Proof. now destruct db. Qed.
Lemma with_expenses_eta db : with_expenses db (expenses db) = db.
Proof. now destruct db. Qed.
Lemma with_budgets_eta db : with_budgets db (budgets db) = db.
Proof. now destruct db. Qed.
Lemma with_goals_eta db : with_goals db (goals db) = db.
Proof. now destruct db. Qed.
Lemma with_savingsStreaks_eta db :
  with_savingsStreaks db (savingsStreaks db) = db.
Proof. now destruct db. Qed.
Lemma with_streakEntries_eta db :
  with_streakEntries db (streakEntries db) = db.
Proof. now destruct db. Qed.

(** ** Ownership scoping in the storage module

    For each entity the read, the update and the deletion of the storage
    module carry the id and the owner in one [and(...)] filter. *)

Lemma ownerUnknown_nil {row : Type} db owner :
  DatabaseStorage.ownerUnknown (row:=row) db owner [] = false.
Proof. now destruct owner. Qed.

Section StorageScoping.
Import DatabaseStorage.
Variables (db : Db) (now id : Z) (userId : string).

Lemma expense_scoped p :
  notOwned Expense.id Expense.userId (expenses db) id userId ->
  getExpense db id userId = None
  /\ (noExpenseValues p = false ->
      updateExpense db id p userId = Some (db, None))
  /\ deleteExpense db id userId = (db, false).
Proof.
  intros Hn. unfold getExpense, updateExpense, deleteExpense.
  rewrite (scoped_select _ _ _ _ _ Hn), (scoped_update _ _ _ _ _ _ Hn),
    (scoped_delete _ _ _ _ _ Hn), with_expenses_eta, ownerUnknown_nil.
  repeat split. intros Hp. now rewrite Hp.
Qed.

Lemma budget_scoped p :
  notOwned Budget.id Budget.userId (budgets db) id userId ->
  (noBudgetValues p = false -> updateBudget db id p userId = Some (db, None))
  /\ deleteBudget db id userId = (db, false).
Proof.
  intros Hn. unfold updateBudget, deleteBudget.
  rewrite (scoped_update _ _ _ _ _ _ Hn), (scoped_delete _ _ _ _ _ Hn),
    with_budgets_eta, ownerUnknown_nil.
  repeat split. intros Hp. now rewrite Hp.
Qed.

Lemma goal_scoped p a :
  notOwned Goal.id Goal.userId (goals db) id userId ->
  getGoal db id userId = None
  /\ updateGoal db now id p userId = Some (db, None)
  /\ deleteGoal db id userId = (db, false)
  /\ updateGoalProgress db now id a userId = (db, None).
Proof.
  intros Hn. unfold getGoal, updateGoal, deleteGoal, updateGoalProgress.
  rewrite (scoped_select _ _ _ _ _ Hn), !(scoped_update _ _ _ _ _ _ Hn),
    (scoped_delete _ _ _ _ _ Hn), with_goals_eta, ownerUnknown_nil.
  repeat split.
Qed.

Lemma streak_scoped p :
  notOwned SavingsStreak.id SavingsStreak.userId (savingsStreaks db) id
    userId ->
  getSavingsStreak db id userId = None
  /\ updateSavingsStreak db now id p userId = Some (db, None)
  /\ deleteSavingsStreak db id userId = (db, false).
Proof.
  intros Hn.
  unfold getSavingsStreak, updateSavingsStreak, deleteSavingsStreak.
  rewrite (scoped_select _ _ _ _ _ Hn), (scoped_update _ _ _ _ _ _ Hn),
    (scoped_delete _ _ _ _ _ Hn), with_savingsStreaks_eta, ownerUnknown_nil.
  repeat split.
  cbv [exec_delete matches where_ delete from q_where q_table existsb negb].
  rewrite filter_all by reflexivity.
  now rewrite table_eta, with_streakEntries_eta.
Qed.

End StorageScoping.

(** The handlers of the route module answer 404 and leave the database as
    it is, whether the id is unknown or belongs to another user. *)
Lemma routes_notFound db now id userId pe pb pg a
  (Hpe : DatabaseStorage.noExpenseValues pe = false)
  (Hpb : DatabaseStorage.noBudgetValues pb = false)
  (He : notOwned Expense.id Expense.userId (expenses db) id userId)
  (Hb : notOwned Budget.id Budget.userId (budgets db) id userId)
  (Hg : notOwned Goal.id Goal.userId (goals db) id userId)
  (Hs : notOwned SavingsStreak.id SavingsStreak.userId (savingsStreaks db)
          id userId) :
  Routes.getExpenseById db userId id = Message 404 "Expense not found"
  /\ Routes.putExpense db userId id (ZodOk pe)
     = (db, Message 404 "Expense not found")
  /\ Routes.deleteExpenseById db userId id
     = (db, Message 404 "Expense not found")
  /\ Routes.putBudget db userId id (ZodOk pb)
     = (db, Message 404 "Budget not found")
  /\ Routes.deleteBudgetById db userId id
     = (db, Message 404 "Budget not found")
  /\ Routes.getGoalById db userId id = Message 404 "Goal not found"
  /\ Routes.putGoal db now userId id (ZodOk pg)
     = (db, Message 404 "Goal not found")
  /\ Routes.deleteGoalById db userId id = (db, Message 404 "Goal not found")
  /\ (num_lt a 0%float = false ->
      Routes.patchGoalProgress db now userId id (JNumber a)
      = (db, Message 404 "Goal not found"))
  /\ Routes.getStreakById db userId id = Message 404 "Streak not found"
  /\ Routes.deleteStreakById db userId id
     = (db, Message 404 "Streak not found").
Proof.
  destruct (expense_scoped db id userId pe He) as (E1 & E2 & E3).
  destruct (budget_scoped db id userId pb Hb) as (B1 & B2).
  destruct (goal_scoped db now id userId pg a Hg) as (G1 & G2 & G3 & G4).
  destruct (streak_scoped db now id userId
              (mkPartialInsertSavingsStreak None None None None None None
                 None None) Hs) as (S1 & _ & S3).
  unfold Routes.getExpenseById, Routes.putExpense, Routes.deleteExpenseById,
    Routes.putBudget, Routes.deleteBudgetById, Routes.getGoalById,
    Routes.putGoal, Routes.deleteGoalById, Routes.patchGoalProgress,
    Routes.getStreakById, Routes.deleteStreakById.
  rewrite E1, (E2 Hpe), E3, (B1 Hpb), B2, G1, G2, G3, G4, S1, S3.
  repeat split. intros Ha. now rewrite Ha.
Qed.

(** ** The sort *)

Section SortFacts.
Context {A : Type} (compareFn : A -> A -> option Z).

Lemma insert_perm x l : Permutation (x :: l) (insert compareFn x l).
Proof.
  induction l as [|y l IH]; simpl; [reflexivity|].
  destruct (0 <? sortCompare compareFn x y); [|reflexivity].
  rewrite perm_swap. now constructor.
Qed.

Lemma stableSort_perm l : Permutation l (stableSort compareFn l).
Proof.
  induction l as [|x l IH]; simpl; [constructor|].
  rewrite <- insert_perm. now constructor.
Qed.

Hypothesis compare_asym :
  forall x y, 0 < sortCompare compareFn x y -> sortCompare compareFn y x <= 0.

Lemma insert_sorted x l :
  Sorted (mayPrecede compareFn) l ->
  Sorted (mayPrecede compareFn) (insert compareFn x l).
Proof.
  induction 1 as [|y l Hs IH Hhd]; simpl; [repeat constructor|].
  destruct (Z.ltb_spec 0 (sortCompare compareFn x y)) as [Hlt|Hle].
  - constructor; [exact IH|].
    destruct Hhd as [|z l' Hyz]; simpl.
    + constructor. now apply compare_asym.
    + destruct (0 <? sortCompare compareFn x z); constructor;
        [exact Hyz | now apply compare_asym].
  - constructor; [now constructor|]. constructor. exact Hle.
Qed.

Lemma stableSort_sorted l :
  Sorted (mayPrecede compareFn) (stableSort compareFn l).
Proof.
  induction l as [|x l IH]; simpl; [constructor|]. now apply insert_sorted.
Qed.

End SortFacts.

(** The sort of the host rearranges the array. *)
Lemma sort_perm `{JsRuntime} {A : Type} (compareFn : A -> A -> option Z) l :
  Permutation l (sort compareFn l).
Proof. apply sort_permutes. Qed.

Lemma sort_nil `{JsRuntime} {A : Type} (compareFn : A -> A -> option Z) :
  sort compareFn [] = [].
Proof. apply Permutation_nil, sort_perm. Qed.

Lemma length_sort `{JsRuntime} {A : Type} (compareFn : A -> A -> option Z)
  l :
  List.length (sort compareFn l) = List.length l.
Proof. symmetry. apply Permutation_length, sort_perm. Qed.

(** ** Whole-day arithmetic *)

Lemma msPerDay_pos : 0 < msPerDay.
Proof. reflexivity. Qed.

(** In a zone of fixed offset [setDate] moves the time value by whole
    days. *)
Lemma setDateBack_fixed `{JsRuntime} t n :
  fixedOffset -> setDateBack t n = t - n * msPerDay.
Proof.
  intros [tza Hz]. unfold setDateBack. cbv zeta. rewrite !Hz. lia.
Qed.

(** In any zone it moves it by whole days to within two days. *)
Lemma setDateBack_near `{JsRuntime} t n :
  t - (n + 2) * msPerDay < setDateBack t n < t - (n - 2) * msPerDay.
Proof.
  unfold setDateBack. cbv zeta.
  pose proof (LocalTZA_bound t true) as H1.
  pose proof (LocalTZA_bound (t + LocalTZA t true - n * msPerDay) false)
    as H2.
  lia.
Qed.

Lemma utcDay_setDateBack `{JsRuntime} t n :
  fixedOffset -> utcDay (setDateBack t n) = utcDay t - n.
Proof.
  intros Hzone. rewrite (setDateBack_fixed _ _ Hzone). unfold utcDay.
  replace (t - n * msPerDay) with (t + (- n) * msPerDay) by ring.
  rewrite Z.div_add by (pose proof msPerDay_pos; lia). ring.
Qed.

(** The whole-day gap between two instants is at most the difference of
    their calendar days, and at least that difference minus one. *)
Lemma daysBetween_utcDay a b :
  utcDay a - utcDay b - 1 <= daysBetween a b <= utcDay a - utcDay b.
Proof.
  unfold daysBetween, utcDay. pose proof msPerDay_pos as Hpos.
  pose proof (Z.div_mod a msPerDay ltac:(lia)) as Ha.
  pose proof (Z.div_mod b msPerDay ltac:(lia)) as Hb.
  pose proof (Z.mod_pos_bound a msPerDay Hpos) as Hra.
  pose proof (Z.mod_pos_bound b msPerDay Hpos) as Hrb.
  split.
  - apply Z.div_le_lower_bound; [exact Hpos|]. nia.
  - apply Z.lt_succ_r, Z.div_lt_upper_bound; [exact Hpos|]. nia.
Qed.

Lemma daysBetween_mono a a' b : a <= a' -> daysBetween a b <= daysBetween a' b.
Proof.
  intros Ha. unfold daysBetween.
  apply Z.div_le_mono; [exact msPerDay_pos|lia].
Qed.

(** The gap is within the window exactly until [gap + 1] whole days have
    passed since the entry. *)
Lemma daysBetween_window c t gap :
  daysBetween c t <= gap <-> c < t + (gap + 1) * msPerDay.
Proof.
  unfold daysBetween. pose proof msPerDay_pos as Hpos. split; intros Hw.
  - pose proof (Z.mul_div_le (c - t) msPerDay Hpos).
    pose proof (Z.mod_pos_bound (c - t) msPerDay Hpos).
    pose proof (Z.div_mod (c - t) msPerDay ltac:(lia)). nia.
  - apply Z.lt_succ_r, Z.div_lt_upper_bound; [exact Hpos|]. lia.
Qed.

(** ** The streak loop *)

Section StreakLoop.
Import DatabaseStorage.
Context `{JsRuntime}.
Implicit Types (l : list StreakEntry.t) (c n : Z) (frequency : string).

(** The lemmas that follow the cursor are for a zone of fixed offset. *)
Hypothesis Hzone : fixedOffset.

Lemma bySaveDateDesc_asym (x y : StreakEntry.t) :
  0 < sortCompare bySaveDateDesc x y -> sortCompare bySaveDateDesc y x <= 0.
Proof.
  unfold sortCompare, bySaveDateDesc.
  destruct (Date_parse (StreakEntry.saveDate x)),
           (Date_parse (StreakEntry.saveDate y)); lia.
Qed.

(** Between entries with valid dates, [mayPrecede] is "not older than". *)
Lemma mayPrecede_dates (x y : StreakEntry.t) tx ty :
  Date_parse (StreakEntry.saveDate x) = Some tx ->
  Date_parse (StreakEntry.saveDate y) = Some ty ->
  mayPrecede bySaveDateDesc x y <-> ty <= tx.
Proof.
  intros Hx Hy. unfold mayPrecede, sortCompare, bySaveDateDesc.
  rewrite Hx, Hy. lia.
Qed.

Lemma streakLoop_bounds frequency l c n :
  n <= streakLoop frequency l c n <= n + Z.of_nat (List.length l).
Proof.
  revert c n. induction l as [|e l IH]; intros c n; simpl; [lia|].
  destruct (Date_parse (StreakEntry.saveDate e)) as [t|]; [|lia].
  destruct (daysBetween c t <=? expectedGapOf frequency); [|lia].
  specialize (IH (setDateBack t (expectedGapOf frequency)) (n + 1)). lia.
Qed.

(** Counted entries are passed over, each adding one to the streak. *)
Lemma streakLoop_counted frequency counted rest c c' n :
  Counted (expectedGapOf frequency) c counted c' ->
  streakLoop frequency (counted ++ rest) c n
  = streakLoop frequency rest c' (n + Z.of_nat (List.length counted)).
Proof.
  intros Hc. revert n.
  induction Hc as [c|c e t l c' Ht Hgap _ IH]; intros n; simpl.
  - f_equal. lia.
  - rewrite Ht. apply Z.leb_le in Hgap. rewrite Hgap.
    rewrite (setDateBack_fixed _ _ Hzone), IH. f_equal. lia.
Qed.

(** The loop stops at an entry that is out of the window. *)
Lemma streakLoop_stops frequency rest c n :
  stopsWalk (expectedGapOf frequency) c rest ->
  streakLoop frequency rest c n = n.
Proof.
  destruct rest as [|e rest]; simpl; [reflexivity|]. unfold stopsAt.
  destruct (Date_parse (StreakEntry.saveDate e)) as [t|]; [|reflexivity].
  intros Hgap. apply Z.leb_gt in Hgap. now rewrite Hgap.
Qed.

(** Every list of entries splits into the counted prefix and the rest, at
    whose first entry the walk stops. *)
Lemma walk_split frequency l c :
  exists counted rest c',
    l = (counted ++ rest)%list
    /\ Counted (expectedGapOf frequency) c counted c'
    /\ stopsWalk (expectedGapOf frequency) c' rest.
Proof.
  revert c. induction l as [|e l IH]; intros c.
  - exists [], [], c. repeat split. constructor.
  - destruct (Date_parse (StreakEntry.saveDate e)) as [t|] eqn:Ht.
    + destruct (Z.leb_spec (daysBetween c t) (expectedGapOf frequency))
        as [Hle|Hgt].
      * destruct (IH (t - expectedGapOf frequency * msPerDay))
          as (counted & rest & c' & -> & Hc & Hs).
        exists (e :: counted), rest, c'. repeat split; [|exact Hs].
        now apply Counted_cons with t.
      * exists [], (e :: l), c. repeat split; [constructor|].
        simpl. unfold stopsAt. now rewrite Ht.
    + exists [], (e :: l), c. repeat split; [constructor|].
      simpl. unfold stopsAt. now rewrite Ht.
Qed.

(** With a window of one day, entries on consecutive calendar days are all
    counted once the cursor is at most one day after the first of them. *)
Lemma streakLoop_consecutive frequency l d c n :
  expectedGapOf frequency = 1 ->
  consecutiveDays d l ->
  utcDay c - d <= 1 ->
  streakLoop frequency l c n = n + Z.of_nat (List.length l).
Proof.
  intros Hgap. revert d c n.
  induction l as [|e l IH]; intros d c n Hl Hc; simpl; [lia|].
  destruct Hl as [(t & Ht & Hd) Hl]. rewrite Ht, Hgap.
  pose proof (daysBetween_utcDay c t) as Hb.
  destruct (Z.leb_spec (daysBetween c t) 1) as [_|Hgt]; [|lia].
  rewrite (IH (d - 1)); [lia|exact Hl|].
  rewrite utcDay_setDateBack by exact Hzone. lia.
Qed.

Lemma computeProgress_currentStreak streak entries now :
  p_currentStreak (computeProgress streak entries now)
  = streakLoop (SavingsStreak.frequency streak)
      (sort bySaveDateDesc entries) now 0.
Proof.
  unfold computeProgress. simpl.
  destruct (sort bySaveDateDesc entries); reflexivity.
Qed.

End StreakLoop.

(** ** The recomputation as a database operation *)

Section Recompute.
Import DatabaseStorage.
Context `{JsRuntime}.
Implicit Types (db : Db) (now streakId : Z) (userId : string).

Lemma getSavingsStreak_filter db streakId userId :
  getSavingsStreak db streakId userId
  = first (filter (ownStreak streakId userId) (rows (savingsStreaks db))).
Proof. reflexivity. Qed.

Lemma getSavingsStreak_own db streakId userId s :
  getSavingsStreak db streakId userId = Some s ->
  In s (rows (savingsStreaks db)) /\ ownStreak streakId userId s = true.
Proof.
  rewrite getSavingsStreak_filter. unfold first.
  destruct (filter _ _) as [|r l] eqn:Hf; [discriminate|].
  intros [= ->]. apply filter_In. rewrite Hf. now left.
Qed.

Lemma updateStreakProgress_missing db now streakId userId :
  getSavingsStreak db streakId userId = None ->
  updateStreakProgress db now streakId userId = (db, None).
Proof. intros Hg. unfold updateStreakProgress. now rewrite Hg. Qed.

Lemma updateStreakProgress_found db now streakId userId s :
  getSavingsStreak db streakId userId = Some s ->
  updateStreakProgress db now streakId userId
  = (with_savingsStreaks db (progressTable db now streakId userId s),
     Some (progressRow s (getStreakEntries db streakId) now)).
Proof.
  intros Hg. unfold updateStreakProgress. rewrite Hg, exec_update_where.
  fold (ownStreak streakId userId).
  rewrite first_map, <- getSavingsStreak_filter, Hg. reflexivity.
Qed.

(** A successful recomputation: the returned row is the stored row with
    the derived fields written, and it is what a read now returns. *)
Lemma updateStreakProgress_inv db now streakId userId db' s' :
  updateStreakProgress db now streakId userId = (db', Some s') ->
  exists s,
    getSavingsStreak db streakId userId = Some s
    /\ s' = progressRow s (getStreakEntries db streakId) now
    /\ db' = with_savingsStreaks db (progressTable db now streakId userId s)
    /\ getSavingsStreak db' streakId userId = Some s'.
Proof.
  destruct (getSavingsStreak db streakId userId) as [s|] eqn:Hg.
  - rewrite (updateStreakProgress_found _ _ _ _ s Hg). intros [= <- <-].
    exists s. repeat split.
    rewrite getSavingsStreak_filter. simpl.
    rewrite filter_updated by (intros; assumption).
    rewrite first_map, <- getSavingsStreak_filter, Hg. reflexivity.
  - rewrite (updateStreakProgress_missing _ _ _ _ Hg). discriminate.
Qed.

End Recompute.

(** ** The order of the sorted entries *)

Section SortedDates.
Import DatabaseStorage.
Context `{JsRuntime}.

(** The loop reads the entries through their dates only. *)
Lemma streakLoop_times frequency l1 l2 c n :
  map entryTime l1 = map entryTime l2 ->
  streakLoop frequency l1 c n = streakLoop frequency l2 c n.
Proof.
  revert l2 c n. induction l1 as [|e1 l1 IH]; intros [|e2 l2] c n Hm;
    try discriminate; [reflexivity|].
  simpl in Hm. injection Hm as He Hm. unfold entryTime in He. simpl.
  rewrite He.
  destruct (Date_parse (StreakEntry.saveDate e2)) as [t|]; [|reflexivity].
  destruct (daysBetween c t <=? expectedGapOf frequency);
    [now apply IH|reflexivity].
Qed.

Lemma notOlder_trans x y z : notOlder x y -> notOlder y z -> notOlder x z.
Proof. destruct x, y, z; simpl; try tauto. lia. Qed.

Lemma notOlder_antisym x y : notOlder x y -> notOlder y x -> x = y.
Proof. destruct x, y; simpl; try tauto. intros. f_equal. lia. Qed.

Lemma mayPrecede_notOlder x y :
  entryTime x <> None -> entryTime y <> None ->
  mayPrecede bySaveDateDesc x y -> notOlder (entryTime x) (entryTime y).
Proof.
  unfold mayPrecede, sortCompare, bySaveDateDesc, entryTime.
  destruct (Date_parse (StreakEntry.saveDate x)),
           (Date_parse (StreakEntry.saveDate y)); simpl; try congruence.
  lia.
Qed.

(** With valid dates the comparator is consistent: it is the difference
    of two time values. *)
Lemma validDates_consistent entries :
  validDates entries -> consistent bySaveDateDesc entries.
Proof.
  intros Hv. unfold validDates in Hv. rewrite Forall_forall in Hv.
  assert (Hcmp : forall a b, In a entries -> In b entries ->
            exists ta tb, entryTime a = Some ta /\ entryTime b = Some tb
                          /\ bySaveDateDesc a b = Some (tb - ta)).
  { intros a b Ha Hb. pose proof (Hv a Ha) as Hta. pose proof (Hv b Hb) as Htb.
    unfold entryTime, bySaveDateDesc in *.
    destruct (Date_parse (StreakEntry.saveDate a)) as [ta|]; [|congruence].
    destruct (Date_parse (StreakEntry.saveDate b)) as [tb|]; [|congruence].
    now exists ta, tb. }
  unfold consistent, equalCF, lessCF, greaterCF. repeat split.
  - intros a b Ha Hb. destruct (Hcmp a b Ha Hb) as (ta & tb & _ & _ & ->).
    discriminate.
  - intros a Ha. destruct (Hcmp a a Ha Ha) as (ta & tb & H1 & H2 & ->).
    f_equal. assert (ta = tb) by congruence. lia.
  - intros a b Ha Hb.
    destruct (Hcmp a b Ha Hb) as (ta & tb & H1 & H2 & ->).
    destruct (Hcmp b a Hb Ha) as (tb' & ta' & H3 & H4 & ->).
    intros [= He]. f_equal.
    assert (ta = ta') by congruence. assert (tb = tb') by congruence. lia.
  - intros a b c Ha Hb Hc.
    destruct (Hcmp a b Ha Hb) as (ta & tb & H1 & H2 & ->).
    destruct (Hcmp b c Hb Hc) as (tb' & tc & H3 & H4 & ->).
    destruct (Hcmp a c Ha Hc) as (ta' & tc' & H5 & H6 & ->).
    intros [= E1] [= E2]. f_equal.
    assert (ta = ta') by congruence. assert (tb = tb') by congruence.
    assert (tc = tc') by congruence. lia.
  - intros a b c Ha Hb Hc.
    destruct (Hcmp a b Ha Hb) as (ta & tb & H1 & H2 & ->).
    destruct (Hcmp b c Hb Hc) as (tb' & tc & H3 & H4 & ->).
    destruct (Hcmp a c Ha Hc) as (ta' & tc' & H5 & H6 & ->).
    intros (v1 & [= <-] & L1) (v2 & [= <-] & L2). eexists. split; [reflexivity|].
    assert (ta = ta') by congruence. assert (tb = tb') by congruence.
    assert (tc = tc') by congruence. lia.
  - intros a b c Ha Hb Hc.
    destruct (Hcmp a b Ha Hb) as (ta & tb & H1 & H2 & ->).
    destruct (Hcmp b c Hb Hc) as (tb' & tc & H3 & H4 & ->).
    destruct (Hcmp a c Ha Hc) as (ta' & tc' & H5 & H6 & ->).
    intros (v1 & [= <-] & L1) (v2 & [= <-] & L2). eexists. split; [reflexivity|].
    assert (ta = ta') by congruence. assert (tb = tb') by congruence.
    assert (tc = tc') by congruence. lia.
Qed.

(** With valid dates the order of the sorted entries is fixed: that of the
    stable sort. *)
Lemma sort_valid entries :
  validDates entries ->
  sort bySaveDateDesc entries = stableSort bySaveDateDesc entries.
Proof. intros Hv. apply sort_consistent, validDates_consistent, Hv. Qed.

(** With valid dates the dates of the sorted entries are in descending
    order, each not older than all that follow. *)
Lemma sorted_times entries :
  validDates entries ->
  StronglySorted notOlder (map entryTime (sort bySaveDateDesc entries)).
Proof.
  intros Hv.
  assert (Hvs : validDates (sort bySaveDateDesc entries)).
  { unfold validDates in *. rewrite Forall_forall in *. intros e He.
    apply Hv. apply Permutation_in with (2 := He).
    apply Permutation_sym, sort_perm. }
  apply Sorted_StronglySorted; [exact notOlder_trans|].
  rewrite (sort_valid _ Hv) in *.
  pose proof (stableSort_sorted bySaveDateDesc bySaveDateDesc_asym entries)
    as Hs.
  induction Hs as [|e l Hs IH Hhd]; simpl; [constructor|].
  inversion Hvs as [|? ? He Hl]; subst.
  constructor; [now apply IH|].
  destruct Hhd as [|e' l' Hee']; simpl; constructor.
  inversion Hl; subst. now apply mayPrecede_notOlder.
Qed.

(** A list in descending order is determined by its elements. *)
Lemma descending_unique (l1 l2 : list (option Z)) :
  StronglySorted notOlder l1 -> StronglySorted notOlder l2 ->
  Permutation l1 l2 -> l1 = l2.
Proof.
  revert l2. induction l1 as [|a l1 IH]; intros l2 S1 S2 Hp.
  - now apply Permutation_nil in Hp.
  - destruct l2 as [|b l2];
      [now apply Permutation_sym, Permutation_nil in Hp|].
    inversion S1 as [|? ? S1' F1]; inversion S2 as [|? ? S2' F2]; subst.
    assert (a = b) as ->.
    { assert (Ha : In a (b :: l2))
        by (apply Permutation_in with (1 := Hp); now left).
      assert (Hb : In b (a :: l1))
        by (apply Permutation_in with (1 := Permutation_sym Hp); now left).
      destruct Ha as [->|Ha]; [reflexivity|].
      destruct Hb as [->|Hb]; [reflexivity|].
      rewrite Forall_forall in F1, F2.
      apply notOlder_antisym; [now apply F1|now apply F2]. }
    f_equal. apply IH; try assumption.
    now apply Permutation_cons_inv with b.
Qed.

Lemma sorted_times_perm entries1 entries2 :
  Permutation entries1 entries2 -> validDates entries1 ->
  map entryTime (sort bySaveDateDesc entries1)
  = map entryTime (sort bySaveDateDesc entries2).
Proof.
  intros Hp Hv.
  assert (Hv2 : validDates entries2).
  { unfold validDates in *. rewrite Forall_forall in *. intros e He.
    apply Hv. now apply Permutation_in with (1 := Permutation_sym Hp). }
  apply descending_unique; try now apply sorted_times.
  apply Permutation_map.
  rewrite <- (sort_perm bySaveDateDesc entries1).
  now rewrite <- (sort_perm bySaveDateDesc entries2).
Qed.

(** Entries on consecutive calendar days, most recent first, have valid
    dates in strictly descending order. *)
Lemma consecutiveDays_days d l :
  consecutiveDays d l ->
  Forall (fun e => exists t, entryTime e = Some t /\ utcDay t <= d) l.
Proof.
  revert d. induction l as [|e l IH]; intros d Hl; simpl; constructor.
  - destruct Hl as [(t & Ht & Hd) _]. exists t. split; [exact Ht|lia].
  - destruct Hl as [_ Hl]. apply Forall_impl with (2 := IH _ Hl).
    intros e' (t & Ht & Hd). exists t. split; [exact Ht|lia].
Qed.

Lemma consecutiveDays_sorted d l :
  consecutiveDays d l ->
  validDates l /\ StronglySorted notOlder (map entryTime l).
Proof.
  revert d. induction l as [|e l IH]; intros d Hl; simpl.
  - split; constructor.
  - destruct Hl as [(t & Ht & Hd) Hl]. destruct (IH _ Hl) as [Hv Hs].
    split; [constructor; [unfold entryTime; congruence|exact Hv]|].
    constructor; [exact Hs|].
    apply Forall_map. apply Forall_impl with (2 := consecutiveDays_days _ _ Hl).
    intros e' (t' & Ht' & Hd'). unfold entryTime in *. rewrite Ht, Ht'.
    simpl. destruct (Z.le_gt_cases t' t) as [Hle|Hgt]; [exact Hle|].
    exfalso. unfold utcDay in *.
    pose proof (Z.div_le_mono t t' msPerDay msPerDay_pos ltac:(lia)). lia.
Qed.

(** Entries that can be arranged on consecutive calendar days are sorted
    into that arrangement, as far as their dates go. *)
Lemma sort_consecutive entries d l :
  Permutation entries l -> consecutiveDays d l ->
  map entryTime (sort bySaveDateDesc entries) = map entryTime l.
Proof.
  intros Hp Hl. destruct (consecutiveDays_sorted _ _ Hl) as [Hv Hs].
  assert (Hve : validDates entries).
  { unfold validDates in *. rewrite Forall_forall in *. intros e He.
    apply Hv. now apply Permutation_in with (1 := Hp). }
  apply descending_unique; [now apply sorted_times|exact Hs|].
  apply Permutation_map.
  rewrite <- (sort_perm bySaveDateDesc entries). exact Hp.
Qed.

End SortedDates.

(** ** C1: the walk over the entries *)

(** C1 (as amended).  The server's zone has a fixed offset.  A successful
    recomputation sorts the entries by [saveDate] and walks them from a
    cursor set to now.  When all dates are valid the sorted entries stand
    most recent first: the date of each is not older than the date of any
    entry after it.  The sorted entries split into a counted prefix and a
    rest: every counted entry is within [expectedGap] whole days of the
    cursor, which then moves to that entry's date minus [expectedGap] days;
    the walk stops at the first entry of the rest, whose gap exceeds
    [expectedGap] (or whose date is invalid); and [currentStreak] is the
    length of the counted prefix.  For a daily streak: entries that, in any
    stored order, fall on consecutive calendar days, the most recent of them
    today or yesterday, are all counted; and an entry whose gap from the
    cursor is 2 days or more ends the count. *)
Theorem C1_streak_walk `{JsRuntime} db now streakId userId db' s' :
  fixedOffset ->
  DatabaseStorage.updateStreakProgress db now streakId userId
  = (db', Some s') ->
  let gap := DatabaseStorage.expectedGapOf (SavingsStreak.frequency s') in
  let entries := DatabaseStorage.getStreakEntries db streakId in
  let sortedEntries := sort DatabaseStorage.bySaveDateDesc entries in
  let currentStreak := SavingsStreak.currentStreak s' in
  Permutation entries sortedEntries
  /\ (validDates entries ->
      StronglySorted notOlder (map entryTime sortedEntries))
  /\ (exists counted rest cursor,
        sortedEntries = (counted ++ rest)%list
        /\ Counted gap now counted cursor
        /\ stopsWalk gap cursor rest
        /\ currentStreak = Z.of_nat (List.length counted))
  /\ (gap = 1 ->
      forall d l,
        Permutation entries l -> consecutiveDays d l ->
        utcDay now - d <= 1 ->
        currentStreak = Z.of_nat (List.length entries))
  /\ (gap = 1 ->
      forall counted e rest cursor t,
        sortedEntries = (counted ++ e :: rest)%list ->
        Counted gap now counted cursor ->
        Date_parse (StreakEntry.saveDate e) = Some t ->
        2 <= daysBetween cursor t ->
        currentStreak = Z.of_nat (List.length counted)).
Proof.
  intros Hzone Hup gap entries sortedEntries currentStreak.
  destruct (updateStreakProgress_inv _ _ _ _ _ _ Hup) as (s & _ & Hs' & _).
  assert (Hcs : currentStreak
                = DatabaseStorage.streakLoop (SavingsStreak.frequency s')
                    sortedEntries now 0).
  { subst currentStreak s'. unfold progressRow, progressWrite. simpl.
    apply computeProgress_currentStreak. }
  split; [apply sort_perm|].
  split; [apply sorted_times|].
  split; [|split].
  - destruct (walk_split (SavingsStreak.frequency s') sortedEntries now)
      as (counted & rest & cursor & Hsplit & Hc & Hstop).
    exists counted, rest, cursor. repeat split; try assumption.
    rewrite Hcs, Hsplit, (streakLoop_counted Hzone _ _ _ _ _ _ Hc).
    now rewrite streakLoop_stops.
  - intros Hgap d l Hp Hd Hnow.
    rewrite Hcs.
    rewrite (streakLoop_times _ sortedEntries l)
      by (apply sort_consecutive with d; assumption).
    rewrite (streakLoop_consecutive Hzone _ _ d now 0 Hgap Hd Hnow).
    now rewrite (Permutation_length Hp).
  - intros Hgap counted e rest cursor t Hsplit Hc Ht Hfar.
    rewrite Hcs, Hsplit, (streakLoop_counted Hzone _ _ _ _ _ _ Hc).
    rewrite streakLoop_stops; [lia|].
    simpl. unfold stopsAt. rewrite Ht. fold gap. lia.
Qed.

(** Three entries dated today, yesterday and the day before, stored in
    another order: the daily streak counts all three. *)
Lemma C1_streak_walk_witness :
  exists db' s',
    @DatabaseStorage.updateStreakProgress isoRuntime (dailyDb recentEntries)
      noon20 1 "alice" = (db', Some s')
    /\ SavingsStreak.currentStreak s' = 3.
Proof.
  eexists _, _. split; [reflexivity|].
  refine (proj1 (proj2 (proj2 (proj2
            (@C1_streak_walk isoRuntime (dailyDb recentEntries) noon20 1
               "alice" _ _ isoRuntime_fixedOffset eq_refl))))
            eq_refl 20167
            [entryOf 2 1 10%float "2025-03-20";
             entryOf 1 1 10%float "2025-03-19";
             entryOf 3 1 10%float "2025-03-18"] _ _ _).
  - apply perm_swap.
  - simpl. repeat split; eexists; split; reflexivity.
  - vm_compute. discriminate.
Defined.

(** C1 as stated fails: two entries on consecutive calendar days, ten and
    eleven days old, give a daily streak a [currentStreak] of 0, not 2. *)
Lemma C1_stale_days_counterexample :
  exists db' s',
    @DatabaseStorage.updateStreakProgress isoRuntime (dailyDb staleEntries)
      noon20 1 "alice" = (db', Some s')
    /\ SavingsStreak.frequency s' = "daily"
    /\ @consecutiveDays isoRuntime 20157
         (@sort isoRuntime _ (@DatabaseStorage.bySaveDateDesc isoRuntime)
            (DatabaseStorage.getStreakEntries (dailyDb staleEntries) 1))
    /\ SavingsStreak.currentStreak s'
       <> Z.of_nat (List.length
                      (DatabaseStorage.getStreakEntries
                         (dailyDb staleEntries) 1)).
Proof.
  eexists _, _. split; [reflexivity|]. split; [reflexivity|]. split.
  - simpl. repeat split; eexists; split; reflexivity.
  - vm_compute. discriminate.
Qed.

(** The count depends on the server's zone.  Of two entries three calendar
    days apart, the later one dated today, a daily streak counts one on a
    server in UTC.  On a server in New York, when daylight saving has ended
    between the two dates, [setDate] moves the cursor back by 25 hours and
    the streak counts both. *)
Lemma zone_changes_the_count :
  @setDateBack isoRuntime 1762128000000 1 = 1762128000000 - hours 24
  /\ @setDateBack newYorkRuntime 1762128000000 1 = 1762128000000 - hours 25
  /\ (exists db' s',
        @DatabaseStorage.updateStreakProgress isoRuntime
          (dailyDb novemberEntries) noonNov3 1 "alice" = (db', Some s')
        /\ SavingsStreak.currentStreak s' = 1)
  /\ (exists db' s',
        @DatabaseStorage.updateStreakProgress newYorkRuntime
          (dailyDb novemberEntries) noonNov3 1 "alice" = (db', Some s')
        /\ SavingsStreak.currentStreak s' = 2).
Proof.
  split; [reflexivity|]. split; [reflexivity|].
  split; eexists _, _; split; reflexivity.
Qed.

(** Two entries two calendar days apart (one day skipped) are both counted
    by a daily streak: after the first the cursor is already one day back,
    and the second is one more day from it. *)
Lemma skipped_day_still_counted :
  exists db' s',
    @DatabaseStorage.updateStreakProgress isoRuntime
      (dailyDb skippedDayEntries) noon20 1 "alice" = (db', Some s')
    /\ SavingsStreak.currentStreak s' = 2.
Proof. eexists _, _. split; reflexivity. Qed.

(** ** C10 and C5: the persisted counters *)

Lemma progressRow_fields `{JsRuntime} s entries now :
  let s' := progressRow s entries now in
  SavingsStreak.id s' = SavingsStreak.id s
  /\ SavingsStreak.userId s' = SavingsStreak.userId s
  /\ SavingsStreak.frequency s' = SavingsStreak.frequency s
  /\ SavingsStreak.currentStreak s'
     = DatabaseStorage.streakLoop (SavingsStreak.frequency s)
         (sort DatabaseStorage.bySaveDateDesc entries) now 0
  /\ SavingsStreak.longestStreak s'
     = Z.max (SavingsStreak.currentStreak s') (SavingsStreak.longestStreak s)
  /\ SavingsStreak.totalSaved s'
     = real_of_toString (DatabaseStorage.totalSavedOf entries).
Proof.
  repeat split. apply computeProgress_currentStreak.
Qed.

(** The bounds on the counters a successful recomputation returns. *)
Lemma recompute_bounds `{JsRuntime} db now streakId userId db' s' :
  DatabaseStorage.updateStreakProgress db now streakId userId
  = (db', Some s') ->
  0 <= SavingsStreak.currentStreak s'
    <= Z.of_nat (List.length (DatabaseStorage.getStreakEntries db streakId))
  /\ SavingsStreak.currentStreak s' <= SavingsStreak.longestStreak s'.
Proof.
  intros Hup.
  destruct (updateStreakProgress_inv _ _ _ _ _ _ Hup) as (s & _ & Hs' & _).
  destruct (progressRow_fields s (DatabaseStorage.getStreakEntries db streakId)
              now) as (_ & _ & _ & Hcs & Hls & _).
  rewrite <- Hs' in Hcs, Hls. rewrite Hls, Hcs.
  pose proof (streakLoop_bounds (SavingsStreak.frequency s)
                (sort DatabaseStorage.bySaveDateDesc
                   (DatabaseStorage.getStreakEntries db streakId)) now 0)
    as Hb.
  rewrite length_sort in Hb. lia.
Qed.

(** C10.  After a successful recomputation the stored row is the returned
    one; its [currentStreak] is at least 0, at most the number of entries of
    the streak, and at most its [longestStreak]. *)
Theorem C10_currentStreak_bounded `{JsRuntime} db now streakId userId db' s' :
  DatabaseStorage.updateStreakProgress db now streakId userId
  = (db', Some s') ->
  DatabaseStorage.getSavingsStreak db' streakId userId = Some s'
  /\ 0 <= SavingsStreak.currentStreak s'
     <= Z.of_nat (List.length
                    (DatabaseStorage.getStreakEntries db' streakId))
  /\ SavingsStreak.currentStreak s' <= SavingsStreak.longestStreak s'.
Proof.
  intros Hup.
  destruct (updateStreakProgress_inv _ _ _ _ _ _ Hup)
    as (s & _ & _ & Hdb' & Hget).
  split; [exact Hget|].
  assert (He : DatabaseStorage.getStreakEntries db' streakId
               = DatabaseStorage.getStreakEntries db streakId)
    by (now subst db').
  rewrite He. exact (recompute_bounds _ _ _ _ _ _ Hup).
Qed.

Lemma C10_currentStreak_bounded_witness :
  exists db' s',
    @DatabaseStorage.updateStreakProgress isoRuntime
      (dailyDb skippedDayEntries) noon20 1 "alice" = (db', Some s')
    /\ SavingsStreak.currentStreak s' <= SavingsStreak.longestStreak s'.
Proof.
  eexists _, _. split; [reflexivity|].
  exact (proj2 (proj2 (@C10_currentStreak_bounded isoRuntime
                         (dailyDb skippedDayEntries) noon20 1 "alice" _ _
                         eq_refl))).
Defined.

(** C5.  For a streak without entries, whose stored [longestStreak] is not
    negative (it starts at 0 and is only written by recomputations), the
    recomputation stores [currentStreak] 0, [totalSaved] 0, no
    [lastSaveDate], and the [longestStreak] it found. *)
Theorem C5_zero_entries `{JsRuntime} db now streakId userId s :
  DatabaseStorage.getSavingsStreak db streakId userId = Some s ->
  DatabaseStorage.getStreakEntries db streakId = [] ->
  0 <= SavingsStreak.longestStreak s ->
  exists db' s',
    DatabaseStorage.updateStreakProgress db now streakId userId
    = (db', Some s')
    /\ DatabaseStorage.getSavingsStreak db' streakId userId = Some s'
    /\ SavingsStreak.currentStreak s' = 0
    /\ SavingsStreak.totalSaved s' = 0%float
    /\ SavingsStreak.lastSaveDate s' = None
    /\ SavingsStreak.longestStreak s' = SavingsStreak.longestStreak s.
Proof.
  intros Hget Hnone Hlong.
  pose proof (updateStreakProgress_found db now streakId userId s Hget)
    as Hup.
  destruct (updateStreakProgress_inv _ _ _ _ _ _ Hup) as (s0 & _ & _ & _ & Hp).
  eexists _, _. split; [exact Hup|]. split; [exact Hp|].
  rewrite Hnone.
  unfold progressRow, progressWrite, DatabaseStorage.computeProgress.
  rewrite sort_nil. simpl.
  repeat split. apply Z.max_r. exact Hlong.
Qed.

Lemma C5_zero_entries_witness :
  exists db' s',
    @DatabaseStorage.updateStreakProgress isoRuntime (dailyDb []) noon20 1
      "alice" = (db', Some s')
    /\ SavingsStreak.currentStreak s' = 0
    /\ SavingsStreak.longestStreak s' = 0.
Proof.
  destruct (@C5_zero_entries isoRuntime (dailyDb []) noon20 1 "alice"
              (streakOf 1 "alice" "daily") eq_refl eq_refl
              ltac:(simpl; lia))
    as (db' & s' & Hup & _ & Hcs & _ & _ & Hls).
  exists db', s'. repeat split; assumption.
Defined.

(** The counters of a new streak start at 0, and every recomputation
    leaves a [longestStreak] that is not negative. *)
Lemma longestStreak_nonneg `{JsRuntime} db now streak streakId userId :
  SavingsStreak.longestStreak
    (snd (DatabaseStorage.createSavingsStreak db now streak)) = 0
  /\ forall db' s',
       DatabaseStorage.updateStreakProgress db now streakId userId
       = (db', Some s') ->
       0 <= SavingsStreak.longestStreak s'.
Proof.
  split; [reflexivity|]. intros db' s' Hup.
  pose proof (recompute_bounds _ _ _ _ _ _ Hup). lia.
Qed.

(** ** C2: the longest streak over entry additions *)

Section Ratchet.
Import DatabaseStorage.
Context `{JsRuntime}.

Lemma ownStreak_true streakId userId r :
  ownStreak streakId userId r = true ->
  SavingsStreak.id r = streakId /\ SavingsStreak.userId r = userId.
Proof.
  unfold ownStreak, and_, eqZ, eqS. intros Ho.
  apply andb_true_iff in Ho. destruct Ho as [Hi Hu].
  split; [now apply Z.eqb_eq|now apply String.eqb_eq].
Qed.

(** The primary key: two rows of a table with the same id are one row. *)
Lemma primary_key (l : list SavingsStreak.t) r s :
  NoDup (map SavingsStreak.id l) ->
  In r l -> In s l -> SavingsStreak.id r = SavingsStreak.id s -> r = s.
Proof.
  induction l as [|x l IH]; simpl; intros Hnd Hr Hs Hid; [contradiction|].
  inversion Hnd as [|? ? Hnotin Hnd']; subst.
  destruct Hr as [->|Hr], Hs as [->|Hs]; [reflexivity| | |now apply IH].
  - exfalso. apply Hnotin. rewrite Hid. now apply in_map.
  - exfalso. apply Hnotin. rewrite <- Hid. now apply in_map.
Qed.

Lemma ratchets_refl s : ratchets s s.
Proof. unfold ratchets. repeat split. lia. Qed.

Lemma ratchets_trans s1 s2 s3 :
  ratchets s1 s2 -> ratchets s2 s3 -> ratchets s1 s3.
Proof.
  unfold ratchets. intros (I1 & U1 & L1) (I2 & U2 & L2).
  repeat split; [congruence|congruence|lia].
Qed.

Lemma Forall2_ratchets_refl l : Forall2 ratchets l l.
Proof. induction l; constructor; [apply ratchets_refl|assumption]. Qed.

Lemma Forall2_ratchets_trans l1 l2 l3 :
  Forall2 ratchets l1 l2 -> Forall2 ratchets l2 l3 -> Forall2 ratchets l1 l3.
Proof.
  intros H12. revert l3.
  induction H12 as [|a b l1 l2 Hab _ IH]; intros l3 H23;
    inversion H23; subst; constructor.
  - now apply ratchets_trans with b.
  - now apply IH.
Qed.

Lemma Forall2_ratchets_ids l l' :
  Forall2 ratchets l l' ->
  map SavingsStreak.id l' = map SavingsStreak.id l.
Proof.
  induction 1 as [|a b l l' (Hid & _) _ IH]; simpl; [reflexivity|].
  now rewrite Hid, IH.
Qed.

Lemma Forall2_map_self (g : SavingsStreak.t -> SavingsStreak.t) l :
  (forall r, In r l -> ratchets r (g r)) -> Forall2 ratchets l (map g l).
Proof.
  induction l as [|x l IH]; simpl; intros Hg; constructor.
  - apply Hg. now left.
  - apply IH. intros r Hr. apply Hg. now right.
Qed.

Lemma addStreakEntry_streaks db now validated :
  savingsStreaks (fst (addStreakEntry db now validated)) = savingsStreaks db.
Proof. reflexivity. Qed.

(** What an entry addition does to the database: nothing when the request
    is refused, otherwise the insertion followed by the recomputation for
    the row [s] the ownership check has read. *)
Lemma addEntry_cases db (r : EntryRequest) :
  addEntry db r = db
  \/ exists s validated,
       getSavingsStreak db (er_streakId r) (er_userId r) = Some s
       /\ insertStreakEntrySchema_parse (er_body r) (er_streakId r)
          = ZodOk validated
       /\ let db1 := fst (addStreakEntry db (er_now r) validated) in
          addEntry db r
          = with_savingsStreaks db1
              (progressTable db1 (er_now r) (er_streakId r) (er_userId r) s).
Proof.
  unfold addEntry, Routes.postStreakEntry.
  destruct (getSavingsStreak db (er_streakId r) (er_userId r)) as [s|] eqn:Hg;
    [|now left].
  destruct (insertStreakEntrySchema_parse (er_body r) (er_streakId r))
    as [validated|] eqn:Hp; [|now left].
  right. exists s, validated. repeat split.
  destruct (addStreakEntry db (er_now r) validated) as [db1 entry] eqn:Ha.
  assert (Hg1 : getSavingsStreak db1 (er_streakId r) (er_userId r) = Some s).
  { rewrite <- Hg. unfold getSavingsStreak.
    change db1 with (fst (db1, entry)).
    now rewrite <- Ha, addStreakEntry_streaks. }
  now rewrite (updateStreakProgress_found _ _ _ _ s Hg1).
Qed.

Lemma addEntry_ratchets db (r : EntryRequest) :
  NoDup (map SavingsStreak.id (rows (savingsStreaks db))) ->
  Forall2 ratchets (rows (savingsStreaks db))
    (rows (savingsStreaks (addEntry db r))).
Proof.
  intros Hpk.
  destruct (addEntry_cases db r) as [->|(s & validated & Hg & _ & ->)];
    [apply Forall2_ratchets_refl|].
  destruct (getSavingsStreak_own _ _ _ _ Hg) as [Hin Hown].
  change (rows (savingsStreaks (with_savingsStreaks ?d ?t))) with (rows t).
  unfold progressTable. rewrite addStreakEntry_streaks.
  cbn [rows]. apply Forall2_map_self. intros x Hx.
  destruct (ownStreak (er_streakId r) (er_userId r) x) eqn:Hox;
    [|apply ratchets_refl].
  assert (x = s) as ->.
  { apply (primary_key _ _ _ Hpk Hx Hin).
    apply ownStreak_true in Hox, Hown. destruct Hox, Hown. congruence. }
  unfold ratchets, progressWrite. simpl. repeat split. lia.
Qed.

End Ratchet.

(** C2.  The recomputation of a streak of the caller always returns and
    stores a row, whose [longestStreak] is the larger of the new
    [currentStreak] and the [longestStreak] stored before: it is not
    computed from the history of the entries.  The same holds for the row
    read back after an accepted entry addition.  Over any sequence of entry
    additions every streak row keeps its id and owner while its
    [longestStreak] never decreases. *)
Theorem C2_longestStreak_ratchet `{JsRuntime} db :
  NoDup (map SavingsStreak.id (rows (savingsStreaks db))) ->
  (forall now streakId userId s,
     DatabaseStorage.getSavingsStreak db streakId userId = Some s ->
     exists db' s',
       DatabaseStorage.updateStreakProgress db now streakId userId
       = (db', Some s')
       /\ DatabaseStorage.getSavingsStreak db' streakId userId = Some s'
       /\ SavingsStreak.longestStreak s'
          = Z.max (SavingsStreak.currentStreak s')
                  (SavingsStreak.longestStreak s))
  /\ (forall now streakId userId db' s',
       DatabaseStorage.updateStreakProgress db now streakId userId
       = (db', Some s') ->
       exists s,
         DatabaseStorage.getSavingsStreak db streakId userId = Some s
         /\ SavingsStreak.longestStreak s'
            = Z.max (SavingsStreak.currentStreak s')
                    (SavingsStreak.longestStreak s))
  /\ (forall r s validated,
       DatabaseStorage.getSavingsStreak db (er_streakId r) (er_userId r)
       = Some s ->
       insertStreakEntrySchema_parse (er_body r) (er_streakId r)
       = ZodOk validated ->
       exists s',
         DatabaseStorage.getSavingsStreak (addEntry db r) (er_streakId r)
           (er_userId r) = Some s'
         /\ SavingsStreak.longestStreak s'
            = Z.max (SavingsStreak.currentStreak s')
                    (SavingsStreak.longestStreak s))
  /\ forall reqs,
       Forall2 ratchets (rows (savingsStreaks db))
         (rows (savingsStreaks (addEntries db reqs))).
Proof.
  intros Hpk. split; [|split; [|split]].
  - intros now streakId userId s Hg.
    pose proof (updateStreakProgress_found db now streakId userId s Hg)
      as Hup.
    destruct (updateStreakProgress_inv _ _ _ _ _ _ Hup)
      as (_ & _ & _ & _ & Hget).
    eexists _, _. split; [exact Hup|]. split; [exact Hget|].
    apply (progressRow_fields s
             (DatabaseStorage.getStreakEntries db streakId) now).
  - intros now streakId userId db' s' Hup.
    destruct (updateStreakProgress_inv _ _ _ _ _ _ Hup) as (s & Hg & -> & _).
    exists s. split; [exact Hg|].
    apply (progressRow_fields s
             (DatabaseStorage.getStreakEntries db streakId) now).
  - intros r s validated Hg Hparse.
    unfold addEntry, Routes.postStreakEntry. rewrite Hg, Hparse.
    destruct (DatabaseStorage.addStreakEntry db (er_now r) validated)
      as [db1 e] eqn:Ha.
    assert (Hg1 : DatabaseStorage.getSavingsStreak db1 (er_streakId r)
                    (er_userId r) = Some s).
    { rewrite <- Hg. unfold DatabaseStorage.getSavingsStreak.
      change db1 with (fst (db1, e)).
      now rewrite <- Ha, addStreakEntry_streaks. }
    pose proof (updateStreakProgress_found db1 (er_now r) (er_streakId r)
                  (er_userId r) s Hg1) as Hup.
    destruct (updateStreakProgress_inv _ _ _ _ _ _ Hup)
      as (_ & _ & _ & _ & Hget).
    rewrite Hup. cbn [fst]. eexists. split; [exact Hget|].
    apply (progressRow_fields s
             (DatabaseStorage.getStreakEntries db1 (er_streakId r))
             (er_now r)).
  - intros reqs. revert db Hpk.
    induction reqs as [|r reqs IH]; intros db Hpk; simpl.
    + apply Forall2_ratchets_refl.
    + pose proof (addEntry_ratchets db r Hpk) as Hstep.
      apply Forall2_ratchets_trans with (1 := Hstep). apply IH.
      now rewrite (Forall2_ratchets_ids _ _ Hstep).
Qed.

(** Alice's daily streak starts without entries and with [longestStreak]
    0.  Her entry for yesterday brings it to 1 and her entry for today to
    2; recomputed with three recent entries it is 3. *)
Lemma C2_longestStreak_ratchet_witness :
  NoDup (map SavingsStreak.id (rows (savingsStreaks (dailyDb []))))
  /\ Forall2 ratchets (rows (savingsStreaks (dailyDb [])))
       (rows (savingsStreaks
                (@addEntries isoRuntime (dailyDb []) dailyRequests)))
  /\ map SavingsStreak.longestStreak
       (rows (savingsStreaks
                (@addEntries isoRuntime (dailyDb []) dailyRequests)))
     = [2]
  /\ (exists s1,
        DatabaseStorage.getSavingsStreak
          (@addEntry isoRuntime (dailyDb [])
             (mkEntryRequest (noon20 - hours 1) "alice" 1
                (entryBody "2025-03-19"))) 1 "alice" = Some s1
        /\ SavingsStreak.longestStreak s1 = 1)
  /\ (exists db' s',
        @DatabaseStorage.updateStreakProgress isoRuntime
          (dailyDb recentEntries) noon20 1 "alice" = (db', Some s')
        /\ SavingsStreak.longestStreak s' = 3).
Proof.
  assert (Hpk : NoDup (map SavingsStreak.id
                         (rows (savingsStreaks (dailyDb [])))))
    by (repeat constructor; simpl; tauto).
  assert (Hpk3 : NoDup (map SavingsStreak.id
                          (rows (savingsStreaks (dailyDb recentEntries)))))
    by (repeat constructor; simpl; tauto).
  destruct (@C2_longestStreak_ratchet isoRuntime (dailyDb []) Hpk)
    as (_ & _ & Hadd & Hseq).
  destruct (@C2_longestStreak_ratchet isoRuntime (dailyDb recentEntries)
              Hpk3) as (Hrec & _).
  split; [exact Hpk|]. split; [exact (Hseq dailyRequests)|].
  split; [reflexivity|]. split.
  - destruct (Hadd (mkEntryRequest (noon20 - hours 1) "alice" 1
                      (entryBody "2025-03-19"))
                (streakOf 1 "alice" "daily") _ eq_refl eq_refl)
      as (s1 & Hget & Hmax).
    exists s1. split; [exact Hget|].
    rewrite Hmax. injection Hget as <-. reflexivity.
  - destruct (Hrec noon20 1 "alice" (streakOf 1 "alice" "daily") eq_refl)
      as (db' & s' & Hup & _ & Hmax).
    exists db', s'. split; [exact Hup|].
    rewrite Hmax. injection Hup as _ <-. reflexivity.
Defined.

(** ** C3: the total saved *)

Lemma fold_left_map {A B C : Type} (f : A -> C -> A) (g : B -> C) l a :
  fold_left (fun acc x => f acc (g x)) l a = fold_left f (map g l) a.
Proof. revert a. induction l as [|x l IH]; intros a; simpl; auto. Qed.

(** C3 (as amended).  After a successful recomputation [totalSaved] is the
    binary64 sum of the entry amounts, added one by one to 0 in stored
    order, each addition rounded to the nearest value.  It is computed from
    the entries alone: recomputing again, at any time, stores the same
    total. *)
Theorem C3_totalSaved_float_sum `{JsRuntime} db now streakId userId db' s' :
  DatabaseStorage.updateStreakProgress db now streakId userId
  = (db', Some s') ->
  SavingsStreak.totalSaved s'
  = real_of_toString
      (fold_left num_add
         (map (fun e => parseFloat (StreakEntry.amount e))
              (DatabaseStorage.getStreakEntries db streakId))
         0%float)
  /\ forall now2, exists db'' s'',
       DatabaseStorage.updateStreakProgress db' now2 streakId userId
       = (db'', Some s'')
       /\ SavingsStreak.totalSaved s'' = SavingsStreak.totalSaved s'.
Proof.
  intros Hup.
  destruct (updateStreakProgress_inv _ _ _ _ _ _ Hup)
    as (s & _ & Hs' & Hdb' & Hget').
  assert (Htotal : forall s0 now0,
            SavingsStreak.totalSaved
              (progressRow s0 (DatabaseStorage.getStreakEntries db streakId)
                 now0)
            = real_of_toString
                (fold_left num_add
                   (map (fun e => parseFloat (StreakEntry.amount e))
                        (DatabaseStorage.getStreakEntries db streakId))
                   0%float)).
  { intros s0 now0. rewrite <- fold_left_map.
    apply (progressRow_fields s0
             (DatabaseStorage.getStreakEntries db streakId) now0). }
  split; [rewrite Hs'; apply Htotal|].
  intros now2.
  pose proof (updateStreakProgress_found db' now2 streakId userId s' Hget')
    as Hup2.
  eexists _, _. split; [exact Hup2|].
  assert (He : DatabaseStorage.getStreakEntries db' streakId
               = DatabaseStorage.getStreakEntries db streakId)
    by (now subst db').
  rewrite He, Htotal, Hs'. symmetry. apply Htotal.
Qed.

Lemma C3_totalSaved_float_sum_witness :
  exists db' s',
    @DatabaseStorage.updateStreakProgress isoRuntime (dailyDb dimeEntries)
      noon20 1 "alice" = (db', Some s')
    /\ SavingsStreak.totalSaved s'
       = real_of_toString (num_add (num_add 0 0.1) 0.2)%float.
Proof.
  eexists _, _. split; [reflexivity|].
  exact (proj1 (@C3_totalSaved_float_sum isoRuntime (dailyDb dimeEntries)
                  noon20 1 "alice" _ _ eq_refl)).
Defined.

(** C3 as stated fails: for the amounts 0.1 and 0.2 the stored total is not
    the exact sum of the two amounts, and it is not the number 0.3. *)
Lemma C3_float_sum_counterexample :
  exists db' s' v q,
    @DatabaseStorage.updateStreakProgress isoRuntime (dailyDb dimeEntries)
      noon20 1 "alice" = (db', Some s')
    /\ exact_value (SavingsStreak.totalSaved s') = Some v
    /\ exactSum (DatabaseStorage.getStreakEntries (dailyDb dimeEntries) 1)
       = Some q
    /\ ~ (v == q)%Q
    /\ ~ totalIsExact (SavingsStreak.totalSaved s')
           (DatabaseStorage.getStreakEntries (dailyDb dimeEntries) 1)
    /\ (SavingsStreak.totalSaved s' =? 0.3)%float = false.
Proof.
  eexists _, _, _, _. split; [reflexivity|].
  split; [vm_compute; reflexivity|]. split; [vm_compute; reflexivity|].
  split; [|split; [|reflexivity]];
    vm_compute; intros Heq; discriminate Heq.
Qed.

(** ** C4: ownership scoping in the handlers of [index.ts] *)

(** The two chained [.where] calls leave the owner filter alone: the
    handlers of [index.ts] do not look at the id. *)
Lemma index_goal_id_ignored db now userId id1 id2 body :
  Index.putGoal db now userId id1 body = Index.putGoal db now userId id2 body
  /\ Index.deleteGoal db userId id1 = Index.deleteGoal db userId id2.
Proof. split; reflexivity. Qed.

(** C4, at the failing input.  Alice owns goals 1 and 3, Bob owns goal 2.
    Alice's [PUT /api/goals/2] and [PUT /api/goals/999] in [index.ts] both
    answer 200 and overwrite her two goals, and her
    [DELETE /api/goals/999] answers 204 and deletes both; the route module
    answers 404 to the same requests and changes nothing. *)
Theorem C4_index_goal_filter_lost :
  notOwned Goal.id Goal.userId (goals goalsDb) 2 "alice"
  /\ notOwned Goal.id Goal.userId (goals goalsDb) 999 "alice"
  /\ statusOf (snd (Index.putGoal goalsDb 5000 "alice" 2 goalBody)) = 200
  /\ statusOf (snd (Index.putGoal goalsDb 5000 "alice" 999 goalBody)) = 200
  /\ map Goal.title
       (rows (goals (fst (Index.putGoal goalsDb 5000 "alice" 2 goalBody))))
     = ["Moto"; "Carro"; "Moto"]
  /\ statusOf (snd (Index.deleteGoal goalsDb "alice" 999)) = 204
  /\ map Goal.id (rows (goals (fst (Index.deleteGoal goalsDb "alice" 999))))
     = [2]
  /\ Routes.putGoal goalsDb 5000 "alice" 2
       (ZodOk (mkPartialInsertGoal None (Some "Moto") None None None None
                 None None))
     = (goalsDb, Message 404 "Goal not found")
  /\ Routes.deleteGoalById goalsDb "alice" 999
     = (goalsDb, Message 404 "Goal not found").
Proof.
  assert (H2 : notOwned Goal.id Goal.userId (goals goalsDb) 2 "alice").
  { intros r [<-|[<-|[<-|[]]]]; simpl; intros; discriminate. }
  assert (H999 : notOwned Goal.id Goal.userId (goals goalsDb) 999 "alice").
  { intros r [<-|[<-|[<-|[]]]]; simpl; intros; discriminate. }
  split; [exact H2|]. split; [exact H999|].
  repeat split; reflexivity.
Qed.

(** ** C6: the goal progress update *)

Section GoalProgress.
Import DatabaseStorage.

(** The filter of the goal operations. *)
Lemma getGoal_filter db id userId :
  getGoal db id userId
  = first (filter (and_ (eqZ Goal.id id) (eqS Goal.userId userId))
             (rows (goals db))).
Proof. reflexivity. Qed.

Lemma updateGoalProgress_found db now id amount userId g :
  getGoal db id userId = Some g ->
  let own := and_ (eqZ Goal.id id) (eqS Goal.userId userId) in
  let db' :=
    with_goals db
      (mkTable
         (map (fun r => if own r then setGoalProgress amount now r else r)
              (rows (goals db)))
         (seq (goals db))) in
  updateGoalProgress db now id amount userId
  = (db', Some (setGoalProgress amount now g))
  /\ getGoal db' id userId = Some (setGoalProgress amount now g).
Proof.
  intros Hg own db'. unfold updateGoalProgress.
  rewrite exec_update_where, first_map, <- getGoal_filter, Hg.
  split; [reflexivity|].
  rewrite getGoal_filter. subst db' own. cbn [goals with_goals rows].
  rewrite filter_updated by (intros; assumption).
  now rewrite first_map, <- getGoal_filter, Hg.
Qed.

End GoalProgress.

(** C6 (as amended).  [PATCH /api/goals/:id/progress] answers 400 and
    changes nothing when the amount is not a number or is below 0.  For a
    finite number that is not below 0 and a goal of the caller, it answers
    200 with the stored goal: [currentAmount] holds the amount, [updatedAt]
    the time of the request in whole seconds, every other field of the goal
    is as before, and so is every row that is not the caller's goal with
    this id. *)
Theorem C6_goal_progress db now userId id amount :
  ((forall a, amount = JNumber a -> num_lt a 0%float = true) ->
   Routes.patchGoalProgress db now userId id amount
   = (db, Message 400 "Invalid amount"))
  /\ (forall a g,
        amount = JNumber a -> num_lt a 0%float = false ->
        is_finite a = true ->
        DatabaseStorage.getGoal db id userId = Some g ->
        exists db' g',
          Routes.patchGoalProgress db now userId id amount
          = (db', Json 200 g')
          /\ DatabaseStorage.getGoal db' id userId = Some g'
          /\ g' = Goal.mk (Goal.id g) (Goal.userId g) (Goal.title g)
                    (Goal.description g) (Goal.targetAmount g)
                    (real_of_toString a) (Goal.category g)
                    (Goal.targetDate g) (Goal.status g) (Goal.createdAt g)
                    (now / 1000 * 1000)
          /\ (a = 500%float -> Goal.currentAmount g' = 500%float)
          /\ db' = with_goals db (goals db')
          /\ seq (goals db') = seq (goals db)
          /\ Forall2
               (fun r r' =>
                  if and_ (eqZ Goal.id id) (eqS Goal.userId userId) r
                  then r' = DatabaseStorage.setGoalProgress a now r
                  else r' = r)
               (rows (goals db)) (rows (goals db'))).
Proof.
  split.
  - intros Hbad. unfold Routes.patchGoalProgress.
    destruct amount as [| | |a| |]; try reflexivity.
    now rewrite (Hbad a eq_refl).
  - intros a g -> Hok _ Hg. unfold Routes.patchGoalProgress. rewrite Hok.
    destruct (updateGoalProgress_found db now id a userId g Hg) as [Hup Hget].
    rewrite Hup. eexists _, _. split; [reflexivity|].
    split; [exact Hget|]. split; [reflexivity|].
    split; [intros ->; reflexivity|].
    split; [reflexivity|]. split; [reflexivity|].
    cbn [goals with_goals rows]. apply Forall2_updated.
Qed.

(** Alice sets the progress of her goal 1 to 500, 999 ms after second 5. *)
Lemma C6_goal_progress_witness :
  exists db' g',
    Routes.patchGoalProgress goalsDb 5999 "alice" 1 (JNumber 500%float)
    = (db', Json 200 g')
    /\ Goal.currentAmount g' = 500%float
    /\ Goal.updatedAt g' = 5000
    /\ Goal.title g' = "Viagem"
    /\ Routes.patchGoalProgress goalsDb 5999 "alice" 1 (JNumber (-5)%float)
       = (goalsDb, Message 400 "Invalid amount")
    /\ Routes.patchGoalProgress goalsDb 5999 "alice" 1 (JString "500")
       = (goalsDb, Message 400 "Invalid amount").
Proof.
  destruct (proj2 (C6_goal_progress goalsDb 5999 "alice" 1
                     (JNumber 500%float))
              500%float (goalOf 1 "alice" "Viagem") eq_refl eq_refl eq_refl
              eq_refl)
    as (db' & g' & Hpatch & _ & Hg' & H500 & _).
  exists db', g'. split; [exact Hpatch|]. split; [now apply H500|].
  split; [now rewrite Hg'|].
  split; [now rewrite Hg'|]. split.
  - apply (proj1 (C6_goal_progress goalsDb 5999 "alice" 1
                    (JNumber (-5)%float))).
    intros a [= <-]. reflexivity.
  - apply (proj1 (C6_goal_progress goalsDb 5999 "alice" 1 (JString "500"))).
    intros a Ha. discriminate Ha.
Defined.

(** C6 as stated fails: the update of Alice's goal 1 to 500, at time 5000,
    also moves [updatedAt] from 1000 to 5000, so the stored goal is not the
    old one with only [currentAmount] set. *)
Lemma C6_updatedAt_counterexample :
  exists g db' g',
    DatabaseStorage.getGoal goalsDb 1 "alice" = Some g
    /\ Routes.patchGoalProgress goalsDb 5000 "alice" 1 (JNumber 500%float)
       = (db', Json 200 g')
    /\ DatabaseStorage.getGoal db' 1 "alice" = Some g'
    /\ Goal.updatedAt g = 1000 /\ Goal.updatedAt g' = 5000
    /\ ~ onlyCurrentAmountSet 500%float g g'.
Proof.
  eexists _, _, _. split; [reflexivity|]. split; [reflexivity|].
  split; [reflexivity|]. split; [reflexivity|]. split; [reflexivity|].
  unfold onlyCurrentAmountSet. intros Heq.
  apply (f_equal Goal.updatedAt) in Heq. discriminate Heq.
Qed.

(** ** C8: registration with a registered e-mail *)

Lemma first_filter_found {row : Type} (c : SQL row) l r :
  In r l -> c r = true -> exists x, first (filter c l) = Some x.
Proof.
  induction l as [|y l IH]; simpl; intros Hin Hc; [contradiction|].
  destruct (c y) eqn:Hy; [now exists y|].
  destruct Hin as [->|Hin]; [congruence|now apply IH].
Qed.

(** C8.  When a user row already has the supplied e-mail, registration
    creates no row: [POST /api/auth/register] answers 409, and
    [POST /api/register], given a non-empty e-mail and password, answers 400
    with its "user already exists" message; the database is unchanged in
    both. *)
Theorem C8_register_conflict db uuid now hashedPassword body email :
  rb_email body = Some email ->
  (exists u, In u (rows (users db)) /\ User.email u = email) ->
  Index.register db uuid now hashedPassword body
  = (db, Message 409 "Email já está em uso")
  /\ (falsy (Some email) = false -> falsy (rb_password body) = false ->
      Auth.register db uuid now hashedPassword body
      = (db, Message 400 "Usuário já existe com este email")).
Proof.
  intros Hemail (u & Hin & Hu).
  assert (Hfound : exists x,
            first (filter (eqS User.email email) (rows (users db))) = Some x).
  { apply first_filter_found with u; [exact Hin|].
    unfold eqS. now apply String.eqb_eq. }
  destruct Hfound as [x Hx]. split.
  - unfold Index.register. rewrite Hemail, select_rows_where, Hx.
    reflexivity.
  - intros He Hp. unfold Auth.register. rewrite Hemail.
    destruct (rb_password body) as [password|]; [|discriminate Hp].
    rewrite He, Hp. simpl.
    unfold DatabaseStorage.getUserByEmail.
    now rewrite select_rows_where, Hx.
Qed.

Lemma C8_register_conflict_witness :
  let body := mkRegisterBody (Some "alice@example.com") (Some "secret")
                None None in
  Index.register usersDb "u2" 5000 "hash2" body
  = (usersDb, Message 409 "Email já está em uso")
  /\ Auth.register usersDb "u2" 5000 "hash2" body
     = (usersDb, Message 400 "Usuário já existe com este email").
Proof.
  intros body.
  destruct (C8_register_conflict usersDb "u2" 5000 "hash2" body
              "alice@example.com" eq_refl
              (ex_intro _ (userOf "u1" "alice@example.com")
                 (conj (or_introl eq_refl) eq_refl)))
    as [Hindex Hauth].
  split; [exact Hindex|]. now apply Hauth.
Defined.

(** A new e-mail is registered: the success path of both handlers adds
    one row. *)
Lemma register_new_email :
  let body := mkRegisterBody (Some "bob@example.com") (Some "secret")
                None None in
  statusOf (snd (Index.register usersDb "u2" 5000 "hash2" body)) = 201
  /\ statusOf (snd (Auth.register usersDb "u2" 5000 "hash2" body)) = 201
  /\ List.length
       (rows (users (fst (Index.register usersDb "u2" 5000 "hash2" body))))
     = 2%nat.
Proof. repeat split. Qed.

(** ** C9: frequencies other than weekly and monthly *)

Lemma streakLoop_gap_ext `{JsRuntime} f f' l c n :
  DatabaseStorage.expectedGapOf f = DatabaseStorage.expectedGapOf f' ->
  DatabaseStorage.streakLoop f l c n = DatabaseStorage.streakLoop f' l c n.
Proof.
  intros Hgap. revert c n. induction l as [|e l IH]; intros c n; simpl;
    [reflexivity|].
  destruct (Date_parse (StreakEntry.saveDate e)) as [t|]; [|reflexivity].
  rewrite Hgap.
  destruct (daysBetween c t <=? DatabaseStorage.expectedGapOf f');
    [apply IH|reflexivity].
Qed.

(** C9.  A frequency that is neither ["weekly"] nor ["monthly"] has an
    expected gap of 1: the recomputation counts its entries as it does for
    ["daily"]; and the insert schema accepts any string as frequency. *)
Theorem C9_other_frequency_is_daily `{JsRuntime} frequency :
  frequency <> "weekly" -> frequency <> "monthly" ->
  DatabaseStorage.expectedGapOf frequency = 1
  /\ (forall userId challengeName targetAmount startDate,
        is_nan targetAmount = false ->
        insertSavingsStreakSchema_parse
          (mkStreakBody (JString challengeName) (JNumber targetAmount)
             (JString frequency) JUndefined JUndefined (JString startDate)
             JUndefined)
          userId
        = ZodOk (mkInsertSavingsStreak userId challengeName targetAmount
                   frequency None None startDate None))
  /\ (forall s entries now,
        SavingsStreak.frequency s = frequency ->
        DatabaseStorage.p_currentStreak
          (DatabaseStorage.computeProgress s entries now)
        = DatabaseStorage.streakLoop "daily"
            (sort DatabaseStorage.bySaveDateDesc entries) now 0).
Proof.
  intros Hw Hm.
  assert (Hgap : DatabaseStorage.expectedGapOf frequency = 1).
  { unfold DatabaseStorage.expectedGapOf.
    apply String.eqb_neq in Hw, Hm. now rewrite Hw, Hm. }
  split; [exact Hgap|]. split.
  - intros userId challengeName targetAmount startDate Hnan.
    unfold insertSavingsStreakSchema_parse. simpl. now rewrite Hnan.
  - intros s entries now Hf.
    rewrite computeProgress_currentStreak, Hf.
    now apply streakLoop_gap_ext.
Qed.

Lemma C9_other_frequency_is_daily_witness :
  DatabaseStorage.expectedGapOf "yearly" = 1
  /\ DatabaseStorage.expectedGapOf "Weekly" = 1
  /\ DatabaseStorage.expectedGapOf EmptyString = 1.
Proof.
  split; [|split].
  - apply (@C9_other_frequency_is_daily isoRuntime "yearly"); discriminate.
  - apply (@C9_other_frequency_is_daily isoRuntime "Weekly"); discriminate.
  - apply (@C9_other_frequency_is_daily isoRuntime EmptyString); discriminate.
Defined.

(** ** C7: the weekly scenario *)

Section Weekly.
Import DatabaseStorage.
Context `{JsRuntime}.

(** An accepted entry addition: the entry is appended to the entries of the
    streak, and the streak row becomes the one recomputed from them. *)
Lemma addEntry_valid db now userId streakId a d s :
  getSavingsStreak db streakId userId = Some s ->
  is_nan a = false ->
  let db' := addEntry db (mkEntryRequest now userId streakId
                            (mkEntryBody (JNumber a) (JString d))) in
  exists e,
    StreakEntry.saveDate e = d
    /\ getStreakEntries db' streakId
       = (getStreakEntries db streakId ++ [e])%list
    /\ getSavingsStreak db' streakId userId
       = Some (progressRow s (getStreakEntries db streakId ++ [e]) now).
Proof.
  intros Hg Hnan db'. subst db'.
  unfold addEntry, Routes.postStreakEntry.
  cbn [er_now er_userId er_streakId er_body]. rewrite Hg.
  unfold insertStreakEntrySchema_parse.
  cbn [eb_amount eb_saveDate zNumber zString]. rewrite Hnan.
  destruct (addStreakEntry db now (mkInsertStreakEntry streakId a d))
    as [db1 e] eqn:Ha.
  assert (Hdb1 : db1 = fst (addStreakEntry db now
                              (mkInsertStreakEntry streakId a d)))
    by now rewrite Ha.
  assert (He1 : e = snd (addStreakEntry db now
                           (mkInsertStreakEntry streakId a d)))
    by now rewrite Ha.
  assert (Hg1 : getSavingsStreak db1 streakId userId = Some s)
    by (rewrite Hdb1; exact Hg).
  assert (He : getStreakEntries db1 streakId
               = (getStreakEntries db streakId ++ [e])%list).
  { unfold getStreakEntries. rewrite !select_rows_where, Hdb1, He1.
    unfold addStreakEntry, exec_insert. simpl.
    rewrite filter_app. simpl. unfold eqZ at 2. simpl.
    now rewrite Z.eqb_refl. }
  pose proof (updateStreakProgress_found db1 now streakId userId s Hg1)
    as Hup.
  destruct (updateStreakProgress_inv _ _ _ _ _ _ Hup)
    as (_ & _ & _ & _ & Hget).
  rewrite Hup. cbn [fst]. exists e.
  split; [now rewrite He1|]. split; [exact He|].
  now rewrite <- He.
Qed.

Lemma daysBetween_eq a b k :
  k * msPerDay <= a - b < (k + 1) * msPerDay -> daysBetween a b = k.
Proof.
  intros Hk. unfold daysBetween. symmetry.
  apply Z.div_unique with (a - b - k * msPerDay); lia.
Qed.

Lemma streakLoop_count frequency e l c n t :
  Date_parse (StreakEntry.saveDate e) = Some t ->
  daysBetween c t <= expectedGapOf frequency ->
  streakLoop frequency (e :: l) c n
  = streakLoop frequency l (setDateBack t (expectedGapOf frequency)) (n + 1).
Proof.
  intros Ht Hgap. simpl. rewrite Ht.
  apply Z.leb_le in Hgap. now rewrite Hgap.
Qed.

Lemma streakLoop_stop frequency e l c n t :
  Date_parse (StreakEntry.saveDate e) = Some t ->
  expectedGapOf frequency < daysBetween c t ->
  streakLoop frequency (e :: l) c n = n.
Proof.
  intros Ht Hgap. simpl. rewrite Ht.
  apply Z.leb_gt in Hgap. now rewrite Hgap.
Qed.

(** An entry not older than the head of the list goes in front of it. *)
Lemma insert_front x y l tx ty :
  Date_parse (StreakEntry.saveDate x) = Some tx ->
  Date_parse (StreakEntry.saveDate y) = Some ty ->
  ty <= tx ->
  insert bySaveDateDesc x (y :: l) = x :: y :: l.
Proof.
  intros Hx Hy Hle. simpl. unfold sortCompare, bySaveDateDesc.
  rewrite Hx, Hy.
  destruct (Z.ltb_spec 0 (ty - tx)); [lia|reflexivity].
Qed.

(** Entries dated 7, 14 and 40 days before today, inserted in that order,
    are stored most recent first already; a weekly walk started during
    today counts the first two and stops at the third, whatever the zone:
    a change of offset moves the cursor by less than two days. *)
Lemma weekly_walk e1 e2 e3 today now :
  Date_parse (StreakEntry.saveDate e1) = Some (today - 7 * msPerDay) ->
  Date_parse (StreakEntry.saveDate e2) = Some (today - 14 * msPerDay) ->
  Date_parse (StreakEntry.saveDate e3) = Some (today - 40 * msPerDay) ->
  today <= now < today + msPerDay ->
  sort bySaveDateDesc [e1] = [e1]
  /\ sort bySaveDateDesc [e1; e2] = [e1; e2]
  /\ sort bySaveDateDesc [e1; e2; e3] = [e1; e2; e3]
  /\ streakLoop "weekly" [e1] now 0 = 1
  /\ streakLoop "weekly" [e1; e2] now 0 = 2
  /\ streakLoop "weekly" [e1; e2; e3] now 0 = 2.
Proof.
  intros H7 H14 H40 Hnow. pose proof msPerDay_pos as Hpos.
  assert (Hgap : expectedGapOf "weekly" = 7) by reflexivity.
  assert (V1 : entryTime e1 <> None) by (unfold entryTime; congruence).
  assert (V2 : entryTime e2 <> None) by (unfold entryTime; congruence).
  assert (V3 : entryTime e3 <> None) by (unfold entryTime; congruence).
  assert (D1 : daysBetween now (today - 7 * msPerDay) = 7)
    by (apply daysBetween_eq; lia).
  pose proof (setDateBack_near (today - 7 * msPerDay) 7) as N1.
  pose proof (setDateBack_near (today - 14 * msPerDay) 7) as N2.
  assert (D2 : daysBetween (setDateBack (today - 7 * msPerDay) 7)
                 (today - 14 * msPerDay) <= 7)
    by (apply daysBetween_window; lia).
  assert (D3 : 7 < daysBetween (setDateBack (today - 14 * msPerDay) 7)
                     (today - 40 * msPerDay)).
  { apply Z.nle_gt. intros Hle. apply daysBetween_window in Hle. lia. }
  assert (S1 : sort bySaveDateDesc [e1] = [e1]).
  { rewrite sort_valid by (repeat constructor; assumption). reflexivity. }
  assert (S2 : sort bySaveDateDesc [e1; e2] = [e1; e2]).
  { rewrite sort_valid by (repeat constructor; assumption).
    change (stableSort bySaveDateDesc [e1; e2])
      with (insert bySaveDateDesc e1 [e2]).
    apply (insert_front _ _ _ _ _ H7 H14). lia. }
  assert (S3 : sort bySaveDateDesc [e1; e2; e3] = [e1; e2; e3]).
  { rewrite sort_valid by (repeat constructor; assumption).
    change (stableSort bySaveDateDesc [e1; e2; e3])
      with (insert bySaveDateDesc e1 (insert bySaveDateDesc e2 [e3])).
    rewrite (insert_front _ _ _ _ _ H14 H40) by lia.
    apply (insert_front _ _ _ _ _ H7 H14). lia. }
  split; [exact S1|]. split; [exact S2|]. split; [exact S3|].
  rewrite !(streakLoop_count "weekly" e1 _ now 0 _ H7) by (rewrite D1; lia).
  rewrite Hgap.
  rewrite !(streakLoop_count "weekly" e2 _ _ _ _ H14) by (rewrite Hgap; lia).
  rewrite Hgap.
  rewrite (streakLoop_stop "weekly" e3 _ _ _ _ H40) by (rewrite Hgap; lia).
  repeat split.
Qed.

End Weekly.

(** C7.  A weekly streak without entries and with [longestStreak] 0
    receives, through [POST /api/streaks/:id/entries], an entry dated 7 days
    before today and one dated 14 days before today: a read then shows
    [currentStreak] 2 and [longestStreak] 2.  A third entry, dated 40 days
    before today, leaves both at 2.  Each request is handled during today. *)
Theorem C7_weekly_scenario `{JsRuntime} db today now1 now2 now3 userId
  streakId s d7 d14 d40 a1 a2 a3 :
  DatabaseStorage.getSavingsStreak db streakId userId = Some s ->
  SavingsStreak.frequency s = "weekly" ->
  SavingsStreak.longestStreak s = 0 ->
  DatabaseStorage.getStreakEntries db streakId = [] ->
  Date_parse d7 = Some (today - 7 * msPerDay) ->
  Date_parse d14 = Some (today - 14 * msPerDay) ->
  Date_parse d40 = Some (today - 40 * msPerDay) ->
  today <= now1 < today + msPerDay ->
  today <= now2 < today + msPerDay ->
  today <= now3 < today + msPerDay ->
  is_nan a1 = false -> is_nan a2 = false -> is_nan a3 = false ->
  let add db now a d :=
    addEntry db (mkEntryRequest now userId streakId
                   (mkEntryBody (JNumber a) (JString d))) in
  let db2 := add (add db now1 a1 d7) now2 a2 d14 in
  let db3 := add db2 now3 a3 d40 in
  exists s2 s3,
    DatabaseStorage.getSavingsStreak db2 streakId userId = Some s2
    /\ SavingsStreak.currentStreak s2 = 2
    /\ SavingsStreak.longestStreak s2 = 2
    /\ DatabaseStorage.getSavingsStreak db3 streakId userId = Some s3
    /\ SavingsStreak.currentStreak s3 = 2
    /\ SavingsStreak.longestStreak s3 = 2.
Proof.
  intros Hg Hweekly Hlong Hnone H7 H14 H40 Hn1 Hn2 Hn3 Ha1 Ha2 Ha3
    add db2 db3.
  destruct (addEntry_valid db now1 userId streakId a1 d7 s Hg Ha1)
    as (e1 & He1 & Hentries1 & Hg1).
  fold (add db now1 a1 d7) in Hentries1, Hg1.
  rewrite Hnone in Hentries1, Hg1. simpl app in Hentries1, Hg1.
  set (s1 := progressRow s [e1] now1) in *.
  destruct (addEntry_valid _ now2 userId streakId a2 d14 s1 Hg1 Ha2)
    as (e2 & He2 & Hentries2 & Hg2).
  fold (add (add db now1 a1 d7) now2 a2 d14) in Hentries2, Hg2.
  fold db2 in Hentries2, Hg2.
  rewrite Hentries1 in Hentries2, Hg2. simpl app in Hentries2, Hg2.
  set (s2 := progressRow s1 [e1; e2] now2) in *.
  destruct (addEntry_valid _ now3 userId streakId a3 d40 s2 Hg2 Ha3)
    as (e3 & He3 & _ & Hg3).
  fold (add db2 now3 a3 d40) in Hg3. fold db3 in Hg3.
  rewrite Hentries2 in Hg3. simpl app in Hg3.
  set (s3 := progressRow s2 [e1; e2; e3] now3) in *.
  rewrite <- He1 in H7. rewrite <- He2 in H14. rewrite <- He3 in H40.
  destruct (weekly_walk e1 e2 e3 today now1 H7 H14 H40 Hn1)
    as (S1 & _ & _ & W1 & _ & _).
  destruct (weekly_walk e1 e2 e3 today now2 H7 H14 H40 Hn2)
    as (_ & S2 & _ & _ & W2 & _).
  destruct (weekly_walk e1 e2 e3 today now3 H7 H14 H40 Hn3)
    as (_ & _ & S3 & _ & _ & W3).
  destruct (progressRow_fields s [e1] now1) as (_ & _ & F1 & C1 & L1 & _).
  destruct (progressRow_fields s1 [e1; e2] now2)
    as (_ & _ & F2 & C2 & L2 & _).
  destruct (progressRow_fields s2 [e1; e2; e3] now3)
    as (_ & _ & F3 & C3 & L3 & _).
  fold s1 in F1, C1, L1. fold s2 in F2, C2, L2. fold s3 in F3, C3, L3.
  rewrite Hweekly in F1, C1. rewrite F1 in F2, C2. rewrite F2 in C3.
  rewrite S1, W1 in C1. rewrite S2, W2 in C2. rewrite S3, W3 in C3.
  exists s2, s3. repeat split; try assumption; lia.
Qed.

(** Alice's weekly streak on 2025-03-20: entries dated 2025-03-13 and
    2025-03-06, then one dated 2025-02-08. *)
Lemma C7_weekly_scenario_witness :
  let db2 := @aliceAdds isoRuntime
               (@aliceAdds isoRuntime weeklyDb (noon20 - hours 2)
                  100%float "2025-03-13")
               (noon20 - hours 1) 100%float "2025-03-06" in
  let db3 := @aliceAdds isoRuntime db2 noon20 100%float "2025-02-08" in
  exists s2 s3,
    DatabaseStorage.getSavingsStreak db2 1 "alice" = Some s2
    /\ SavingsStreak.currentStreak s2 = 2
    /\ SavingsStreak.longestStreak s2 = 2
    /\ DatabaseStorage.getSavingsStreak db3 1 "alice" = Some s3
    /\ SavingsStreak.currentStreak s3 = 2
    /\ SavingsStreak.longestStreak s3 = 2.
Proof.
  refine (@C7_weekly_scenario isoRuntime weeklyDb 1742428800000
            (noon20 - hours 2) (noon20 - hours 1) noon20 "alice" 1
            (streakOf 1 "alice" "weekly") "2025-03-13" "2025-03-06"
            "2025-02-08" 100%float 100%float 100%float
            eq_refl eq_refl eq_refl eq_refl eq_refl eq_refl eq_refl
            _ _ _ eq_refl eq_refl eq_refl);
    vm_compute; split; congruence.
Defined.

(** * Further properties of the code *)

(** ** The streak engine over time and over the order of the entries *)

Section EngineFacts.
Import DatabaseStorage.
Context `{JsRuntime}.

(** Only the first step of the walk looks at the starting cursor: started
    later, the walk counts the same entries or none. *)
Lemma streakLoop_later frequency l c c' n :
  c <= c' ->
  streakLoop frequency l c' n = streakLoop frequency l c n
  \/ streakLoop frequency l c' n = n.
Proof.
  intros Hc. destruct l as [|e l]; [now left|]. simpl.
  destruct (Date_parse (StreakEntry.saveDate e)) as [t|]; [|now left].
  pose proof (daysBetween_mono c c' t Hc) as Hm.
  destruct (Z.leb_spec (daysBetween c' t) (expectedGapOf frequency));
    [|now right].
  destruct (Z.leb_spec (daysBetween c t) (expectedGapOf frequency));
    [now left|lia].
Qed.

End EngineFacts.

(** As time passes without new entries, a recomputation shows the same
    [currentStreak] or 0, never a part of it; and when all dates are valid
    it shows at least 1 exactly until [expectedGap + 1] whole days have
    passed since the date of the most recent entry. *)
Theorem currentStreak_over_time `{JsRuntime} db streakId userId s now now' :
  DatabaseStorage.getSavingsStreak db streakId userId = Some s ->
  now <= now' ->
  exists db1 s1 db2 s2,
    DatabaseStorage.updateStreakProgress db now streakId userId
    = (db1, Some s1)
    /\ DatabaseStorage.updateStreakProgress db now' streakId userId
       = (db2, Some s2)
    /\ (SavingsStreak.currentStreak s2 = SavingsStreak.currentStreak s1
        \/ SavingsStreak.currentStreak s2 = 0)
    /\ (validDates (DatabaseStorage.getStreakEntries db streakId) ->
        forall e t,
          In e (DatabaseStorage.getStreakEntries db streakId) ->
          entryTime e = Some t ->
          (forall e', In e' (DatabaseStorage.getStreakEntries db streakId) ->
                      notOlder (entryTime e) (entryTime e')) ->
          (1 <= SavingsStreak.currentStreak s1
           <-> now < t + (DatabaseStorage.expectedGapOf
                            (SavingsStreak.frequency s) + 1) * msPerDay)).
Proof.
  intros Hg Hnow.
  eexists _, _, _, _.
  split; [exact (updateStreakProgress_found db now streakId userId s Hg)|].
  split; [exact (updateStreakProgress_found db now' streakId userId s Hg)|].
  set (entries := DatabaseStorage.getStreakEntries db streakId).
  destruct (progressRow_fields s entries now) as (_ & _ & _ & C1 & _).
  destruct (progressRow_fields s entries now') as (_ & _ & _ & C2 & _).
  rewrite C1, C2. split.
  - destruct (streakLoop_later (SavingsStreak.frequency s)
                (sort DatabaseStorage.bySaveDateDesc entries) now now' 0
                Hnow) as [->| ->]; [now left|now right].
  - intros Hv e t He Ht Hlatest.
    pose proof (sorted_times entries Hv) as Hsorted.
    pose proof (sort_perm DatabaseStorage.bySaveDateDesc entries) as Hperm.
    assert (Hes : In e (sort DatabaseStorage.bySaveDateDesc entries))
      by (apply Permutation_in with (1 := Hperm); exact He).
    destruct (sort DatabaseStorage.bySaveDateDesc entries)
      as [|e0 rest] eqn:Hsort; [contradiction|].
    assert (He0 : In e0 entries).
    { apply Permutation_in with (1 := Permutation_sym Hperm). now left. }
    assert (Ht0 : entryTime e0 = Some t).
    { rewrite <- Ht. apply notOlder_antisym; [|now apply Hlatest].
      simpl in Hsorted. inversion Hsorted as [|? ? _ Hall]; subst.
      destruct Hes as [->|Hes].
      - rewrite Ht. simpl. lia.
      - rewrite Forall_forall in Hall. apply Hall. now apply in_map. }
    unfold entryTime in Ht0. simpl. rewrite Ht0.
    rewrite <- daysBetween_window.
    destruct (Z.leb_spec (daysBetween now t)
                (DatabaseStorage.expectedGapOf (SavingsStreak.frequency s)))
      as [Hle|Hgt].
    + pose proof (streakLoop_bounds (SavingsStreak.frequency s) rest
                    (setDateBack t (DatabaseStorage.expectedGapOf
                                      (SavingsStreak.frequency s))) 1).
      split; [intros _; exact Hle|intros _; lia].
    + split; lia.
Qed.

(** The streak of three recent entries, recomputed at noon and again
    [days] days later. *)
Lemma currentStreak_over_time_witness :
  exists db1 s1 db2 s2,
    @DatabaseStorage.updateStreakProgress isoRuntime (dailyDb recentEntries)
      noon20 1 "alice" = (db1, Some s1)
    /\ @DatabaseStorage.updateStreakProgress isoRuntime
         (dailyDb recentEntries) (noon20 + 5 * msPerDay) 1 "alice"
       = (db2, Some s2)
    /\ SavingsStreak.currentStreak s1 = 3
    /\ SavingsStreak.currentStreak s2 = 0.
Proof.
  destruct (@currentStreak_over_time isoRuntime (dailyDb recentEntries) 1
              "alice" (streakOf 1 "alice" "daily") noon20
              (noon20 + 5 * msPerDay) eq_refl ltac:(vm_compute; discriminate))
    as (db1 & s1 & db2 & s2 & H1 & H2 & _).
  exists db1, s1, db2, s2. split; [exact H1|]. split; [exact H2|].
  injection H1 as _ <-. injection H2 as _ <-. split; reflexivity.
Defined.

(** With valid dates the counters do not depend on the order in which the
    entries are stored: two databases holding the same streak row and the
    same entries in different orders recompute the same [currentStreak] and
    [longestStreak]. *)
Theorem currentStreak_order_independent `{JsRuntime} db1 db2 streakId userId
  s now :
  DatabaseStorage.getSavingsStreak db1 streakId userId = Some s ->
  DatabaseStorage.getSavingsStreak db2 streakId userId = Some s ->
  Permutation (DatabaseStorage.getStreakEntries db1 streakId)
    (DatabaseStorage.getStreakEntries db2 streakId) ->
  validDates (DatabaseStorage.getStreakEntries db1 streakId) ->
  exists db1' s1 db2' s2,
    DatabaseStorage.updateStreakProgress db1 now streakId userId
    = (db1', Some s1)
    /\ DatabaseStorage.updateStreakProgress db2 now streakId userId
       = (db2', Some s2)
    /\ SavingsStreak.currentStreak s1 = SavingsStreak.currentStreak s2
    /\ SavingsStreak.longestStreak s1 = SavingsStreak.longestStreak s2.
Proof.
  intros Hg1 Hg2 Hperm Hvalid.
  eexists _, _, _, _.
  split; [exact (updateStreakProgress_found db1 now streakId userId s Hg1)|].
  split; [exact (updateStreakProgress_found db2 now streakId userId s Hg2)|].
  destruct (progressRow_fields s
              (DatabaseStorage.getStreakEntries db1 streakId) now)
    as (_ & _ & _ & C1 & L1 & _).
  destruct (progressRow_fields s
              (DatabaseStorage.getStreakEntries db2 streakId) now)
    as (_ & _ & _ & C2 & L2 & _).
  assert (Hcs : SavingsStreak.currentStreak
                  (progressRow s
                     (DatabaseStorage.getStreakEntries db1 streakId) now)
                = SavingsStreak.currentStreak
                    (progressRow s
                       (DatabaseStorage.getStreakEntries db2 streakId) now)).
  { rewrite C1, C2. apply streakLoop_times.
    now apply sorted_times_perm. }
  split; [exact Hcs|]. now rewrite L1, L2, Hcs.
Qed.

Lemma currentStreak_order_independent_witness :
  exists db1' s1 db2' s2,
    @DatabaseStorage.updateStreakProgress isoRuntime (dailyDb recentEntries)
      noon20 1 "alice" = (db1', Some s1)
    /\ @DatabaseStorage.updateStreakProgress isoRuntime
         (dailyDb (rev recentEntries)) noon20 1 "alice" = (db2', Some s2)
    /\ SavingsStreak.currentStreak s1 = SavingsStreak.currentStreak s2.
Proof.
  destruct (@currentStreak_order_independent isoRuntime
              (dailyDb recentEntries) (dailyDb (rev recentEntries)) 1
              "alice" (streakOf 1 "alice" "daily") noon20 eq_refl eq_refl)
    as (db1' & s1 & db2' & s2 & H1 & H2 & Hcs & _).
  - apply Permutation_rev.
  - repeat constructor; discriminate.
  - exists db1', s1, db2', s2. repeat split; assumption.
Defined.

Lemma with_savingsStreaks_twice db t1 t2 :
  with_savingsStreaks (with_savingsStreaks db t1) t2
  = with_savingsStreaks db t2.
Proof. reflexivity. Qed.

Lemma getStreakEntries_with_savingsStreaks db t streakId :
  DatabaseStorage.getStreakEntries (with_savingsStreaks db t) streakId
  = DatabaseStorage.getStreakEntries db streakId.
Proof. reflexivity. Qed.

Lemma computeProgress_again `{JsRuntime} s entries now :
  DatabaseStorage.computeProgress (progressRow s entries now) entries now
  = DatabaseStorage.computeProgress s entries now.
Proof.
  unfold progressRow, progressWrite, DatabaseStorage.computeProgress. simpl.
  f_equal. lia.
Qed.

(** A recomputation repeated at the same instant changes nothing: it
    leaves the database of the first one and returns the same row. *)
Theorem recompute_idempotent `{JsRuntime} db now streakId userId :
  DatabaseStorage.updateStreakProgress
    (fst (DatabaseStorage.updateStreakProgress db now streakId userId))
    now streakId userId
  = DatabaseStorage.updateStreakProgress db now streakId userId.
Proof.
  destruct (DatabaseStorage.getSavingsStreak db streakId userId) as [s|]
    eqn:Hg.
  - pose proof (updateStreakProgress_found db now streakId userId s Hg)
      as Hup.
    destruct (updateStreakProgress_inv _ _ _ _ _ _ Hup)
      as (_ & _ & _ & _ & Hg').
    rewrite Hup. cbn [fst].
    rewrite (updateStreakProgress_found _ now streakId userId _ Hg').
    change (DatabaseStorage.getStreakEntries
              (with_savingsStreaks db
                 (progressTable db now streakId userId s)) streakId)
      with (DatabaseStorage.getStreakEntries db streakId).
    set (entries := DatabaseStorage.getStreakEntries db streakId).
    assert (Hw : progressWrite (progressRow s entries now) entries now
                 = progressWrite s entries now).
    { unfold progressWrite. now rewrite computeProgress_again. }
    f_equal.
    + rewrite with_savingsStreaks_twice. f_equal.
      unfold progressTable at 1.
      rewrite getStreakEntries_with_savingsStreaks. fold entries.
      rewrite Hw. unfold progressTable.
      cbn [savingsStreaks with_savingsStreaks rows seq].
      f_equal. fold entries. rewrite map_map. apply map_ext. intros r.
      destruct (ownStreak streakId userId r) eqn:Hr; [|now rewrite Hr].
      assert (Hr' : ownStreak streakId userId
                      (progressWrite s entries now r) = true) by exact Hr.
      now rewrite Hr'.
    + f_equal. unfold progressRow at 1. now rewrite Hw.
  - now rewrite !(updateStreakProgress_missing _ _ _ _ Hg).
Qed.

(** With valid dates, [lastSaveDate] after a recomputation is the date of
    an entry of the streak that is not older than any other. *)
Theorem lastSaveDate_is_latest `{JsRuntime} db now streakId userId db' s' :
  DatabaseStorage.updateStreakProgress db now streakId userId
  = (db', Some s') ->
  validDates (DatabaseStorage.getStreakEntries db streakId) ->
  DatabaseStorage.getStreakEntries db streakId <> [] ->
  exists e,
    In e (DatabaseStorage.getStreakEntries db streakId)
    /\ SavingsStreak.lastSaveDate s' = Some (StreakEntry.saveDate e)
    /\ forall e', In e' (DatabaseStorage.getStreakEntries db streakId) ->
                  notOlder (entryTime e) (entryTime e').
Proof.
  intros Hup Hvalid Hne.
  destruct (updateStreakProgress_inv _ _ _ _ _ _ Hup) as (s & _ & -> & _).
  set (entries := DatabaseStorage.getStreakEntries db streakId) in *.
  pose proof (sort_perm DatabaseStorage.bySaveDateDesc entries) as Hperm.
  pose proof (sorted_times entries Hvalid) as Hsorted.
  unfold progressRow, progressWrite, DatabaseStorage.computeProgress.
  simpl.
  destruct (sort DatabaseStorage.bySaveDateDesc entries) as [|e rest]
    eqn:Hsort.
  - apply Permutation_sym, Permutation_nil in Hperm. contradiction.
  - exists e. split; [|split; [reflexivity|]].
    + apply Permutation_in with (1 := Permutation_sym Hperm). now left.
    + intros e' He'. simpl in Hsorted.
      inversion Hsorted as [|? ? _ Hall]; subst.
      apply Permutation_in with (1 := Hperm) in He'.
      destruct He' as [<-|He'].
      * unfold validDates in Hvalid. rewrite Forall_forall in Hvalid.
        assert (He : entryTime e <> None).
        { apply Hvalid.
          apply Permutation_in with (1 := Permutation_sym Hperm).
          now left. }
        destruct (entryTime e); [simpl; lia|congruence].
      * rewrite Forall_forall in Hall. apply Hall. now apply in_map.
Qed.

Lemma lastSaveDate_is_latest_witness :
  exists db' s' e,
    @DatabaseStorage.updateStreakProgress isoRuntime (dailyDb recentEntries)
      noon20 1 "alice" = (db', Some s')
    /\ In e recentEntries
    /\ SavingsStreak.lastSaveDate s' = Some (StreakEntry.saveDate e)
    /\ forall e', In e' recentEntries ->
                  notOlder (@entryTime isoRuntime e)
                    (@entryTime isoRuntime e').
Proof.
  destruct (@lastSaveDate_is_latest isoRuntime (dailyDb recentEntries) noon20
              1 "alice" _ _ eq_refl) as (e & Hin & Hlast & Hmax).
  - repeat constructor; discriminate.
  - discriminate.
  - eexists _, _, e. split; [reflexivity|]. repeat split; assumption.
Defined.

(** ** Row ids *)

Section KeyFacts.
Context {row : Type} (rowid : row -> Z).
Implicit Types (t : Table row) (c : SQL row) (f : row -> row).

Lemma nextId_above t :
  seq t < nextId rowid t /\ Forall (fun r => rowid r < nextId rowid t) (rows t).
Proof.
  unfold nextId. destruct t as [l s]. simpl.
  induction l as [|r l [IHs IHl]]; simpl; [split; [lia|constructor]|].
  split; [lia|]. constructor; [lia|].
  apply Forall_impl with (2 := IHl). intros. lia.
Qed.

Lemma exec_insert_keyed (mk : Z -> row) t :
  (forall i, rowid (mk i) = i) ->
  keyed rowid t -> keyed rowid (fst (exec_insert rowid mk t)).
Proof.
  intros Hmk [Hnd Hle]. destruct (nextId_above t) as [Hs Hall].
  unfold exec_insert, keyed. cbn [fst rows seq]. split.
  - rewrite map_app. simpl. rewrite Hmk.
    apply NoDup_app; [exact Hnd|repeat constructor; simpl; tauto|].
    intros i Hi [<-|[]]. apply in_map_iff in Hi. destruct Hi as (r & Hr & Hin).
    rewrite Forall_forall in Hall. specialize (Hall r Hin). lia.
  - apply Forall_app. split.
    + apply Forall_impl with (2 := Hall). intros. lia.
    + constructor; [rewrite Hmk; lia|constructor].
Qed.

Lemma exec_update_keyed c f t :
  (forall r, rowid (f r) = rowid r) ->
  keyed rowid t ->
  keyed rowid (fst (exec_update (where_ c (set_ f (update t))))).
Proof.
  intros Hf [Hnd Hle]. rewrite exec_update_where. unfold keyed.
  cbn [fst rows seq].
  assert (Hmap : map rowid (map (fun r => if c r then f r else r) (rows t))
                 = map rowid (rows t)).
  { rewrite map_map. apply map_ext. intros r.
    destruct (c r); [apply Hf|reflexivity]. }
  split; [now rewrite Hmap|].
  rewrite Forall_forall in *. intros r' Hr'. apply in_map_iff in Hr'.
  destruct Hr' as (r & <- & Hr).
  destruct (c r); [rewrite Hf|]; now apply Hle.
Qed.

Lemma NoDup_map_filter (p : row -> bool) l :
  NoDup (map rowid l) -> NoDup (map rowid (filter p l)).
Proof.
  induction l as [|r l IH]; simpl; intros Hnd; [constructor|].
  inversion Hnd as [|? ? Hnotin Hnd']; subst.
  destruct (p r); simpl; [|now apply IH].
  constructor; [|now apply IH].
  intros Hin. apply Hnotin. apply in_map_iff in Hin.
  destruct Hin as (x & Hx & Hf). apply filter_In in Hf.
  apply in_map_iff. exists x. tauto.
Qed.

Lemma exec_delete_keyed c t :
  keyed rowid t -> keyed rowid (fst (exec_delete (where_ c (delete t)))).
Proof.
  intros [Hnd Hle]. rewrite exec_delete_where. unfold keyed.
  cbn [fst rows seq]. split; [now apply NoDup_map_filter|].
  rewrite Forall_forall in *. intros r Hr. apply filter_In in Hr.
  now apply Hle.
Qed.

End KeyFacts.

(** The database a [DELETE /api/streaks/:id] leaves: the caller's streak
    with this id is deleted, and its entries with it. *)
Lemma deleteStreakById_db db userId id :
  fst (Routes.deleteStreakById db userId id)
  = with_streakEntries
      (with_savingsStreaks db
         (fst (exec_delete
                 (where_ (and_ (eqZ SavingsStreak.id id)
                               (eqS SavingsStreak.userId userId))
                         (delete (savingsStreaks db))))))
      (fst (exec_delete
              (where_ (fun e =>
                         existsb (fun s => SavingsStreak.id s
                                           =? StreakEntry.streakId e)
                           (snd (exec_delete
                                   (where_ (and_ (eqZ SavingsStreak.id id)
                                                 (eqS SavingsStreak.userId
                                                    userId))
                                           (delete (savingsStreaks db))))))
                      (delete (streakEntries db))))).
Proof. reflexivity. Qed.

Section StreakKeys.
Import DatabaseStorage.
Context `{JsRuntime}.

(** Both streak tables keep their primary key, and their largest assigned
    id never goes down, whatever the request. *)
Lemma serve_keyed db r :
  keyed SavingsStreak.id (savingsStreaks db) ->
  keyed StreakEntry.id (streakEntries db) ->
  let db' := serve db r in
  keyed SavingsStreak.id (savingsStreaks db')
  /\ keyed StreakEntry.id (streakEntries db')
  /\ seq (savingsStreaks db) <= seq (savingsStreaks db')
  /\ seq (streakEntries db) <= seq (streakEntries db').
Proof.
  intros Hs He.
  assert (Hsame : keyed SavingsStreak.id (savingsStreaks db)
                  /\ keyed StreakEntry.id (streakEntries db)
                  /\ seq (savingsStreaks db) <= seq (savingsStreaks db)
                  /\ seq (streakEntries db) <= seq (streakEntries db))
    by (split; [exact Hs|split; [exact He|split; lia]]).
  destruct r as [now userId body|now userId streakId body|userId streakId];
    cbv zeta; cbn [serve].
  - unfold Routes.postStreak.
    destruct (insertSavingsStreakSchema_parse body userId) as [v|];
      [|exact Hsame].
    unfold createSavingsStreak.
    pose proof (exec_insert_keyed SavingsStreak.id
                  (fun i =>
                     SavingsStreak.mk i (is_userId v) (is_challengeName v)
                       (is_targetAmount v) (is_frequency v) 0 0
                       (assign (is_isActive v) true)
                       (assign (is_lastSaveDate v) None) 0%float
                       (is_startDate v) (assign (is_endDate v) None)
                       (timestamp now) (timestamp now))
                  (savingsStreaks db) (fun i => eq_refl) Hs) as Hk.
    destruct (nextId_above SavingsStreak.id (savingsStreaks db)) as [Hseq _].
    unfold exec_insert in *. cbn [fst snd] in *.
    split; [exact Hk|split; [exact He|split; [simpl; lia|simpl; lia]]].
  - destruct (addEntry_cases db (mkEntryRequest now userId streakId body))
      as [Hdb'|(s & v & _ & _ & Hdb')];
      unfold addEntry in Hdb';
      cbn [er_now er_userId er_streakId er_body] in Hdb'.
    + rewrite Hdb'. exact Hsame.
    + cbv zeta in Hdb'. rewrite Hdb'.
      unfold addStreakEntry.
      pose proof (exec_insert_keyed StreakEntry.id
                    (fun i => StreakEntry.mk i (ie_streakId v) (ie_amount v)
                                (ie_saveDate v) (timestamp now))
                    (streakEntries db) (fun i => eq_refl) He) as Hk.
      destruct (nextId_above StreakEntry.id (streakEntries db)) as [Hseq _].
      unfold exec_insert in *. cbn [fst snd] in *.
      split; [|split; [exact Hk|split; [simpl; lia|simpl; lia]]].
      apply (exec_update_keyed SavingsStreak.id
               (ownStreak streakId userId) _ (savingsStreaks db));
        [reflexivity|exact Hs].
  - rewrite deleteStreakById_db. rewrite !exec_delete_where.
    pose proof (exec_delete_keyed SavingsStreak.id
                  (and_ (eqZ SavingsStreak.id streakId)
                        (eqS SavingsStreak.userId userId))
                  (savingsStreaks db) Hs) as Hks.
    rewrite exec_delete_where in Hks. cbn [fst] in Hks.
    set (deleted := filter (and_ (eqZ SavingsStreak.id streakId)
                                 (eqS SavingsStreak.userId userId))
                      (rows (savingsStreaks db))) in *.
    pose proof (exec_delete_keyed StreakEntry.id
                  (fun e => existsb (fun s => SavingsStreak.id s
                                              =? StreakEntry.streakId e)
                              deleted)
                  (streakEntries db) He) as Hke.
    rewrite exec_delete_where in Hke. cbn [fst] in Hke.
    cbn [fst].
    split; [exact Hks|split; [exact Hke|split; simpl; lia]].
Qed.

End StreakKeys.

Lemma serveAll_keyed `{JsRuntime} reqs db :
  keyed SavingsStreak.id (savingsStreaks db) ->
  keyed StreakEntry.id (streakEntries db) ->
  keyed SavingsStreak.id (savingsStreaks (serveAll db reqs))
  /\ keyed StreakEntry.id (streakEntries (serveAll db reqs))
  /\ seq (savingsStreaks db) <= seq (savingsStreaks (serveAll db reqs))
  /\ seq (streakEntries db) <= seq (streakEntries (serveAll db reqs)).
Proof.
  revert db. induction reqs as [|r reqs IH]; intros db Hs He; simpl.
  - split; [exact Hs|split; [exact He|split; lia]].
  - destruct (serve_keyed db r Hs He) as (Hs1 & He1 & Ls1 & Le1).
    destruct (IH _ Hs1 He1) as (Hs2 & He2 & Ls2 & Le2).
    split; [exact Hs2|split; [exact He2|split; lia]].
Qed.

(** Whatever streak requests the route module has served since the
    database was empty, the ids of the streaks are distinct and so are the
    ids of the entries. *)
Theorem streak_ids_distinct `{JsRuntime} reqs :
  NoDup (map SavingsStreak.id
           (rows (savingsStreaks (serveAll emptyDb reqs))))
  /\ NoDup (map StreakEntry.id
              (rows (streakEntries (serveAll emptyDb reqs)))).
Proof.
  assert (Hk : forall (row : Type) (rowid : row -> Z),
             keyed rowid (@emptyTable row))
    by (intros; split; constructor).
  destruct (serveAll_keyed reqs emptyDb (Hk _ _) (Hk _ _))
    as ((Hs & _) & (He & _) & _).
  split; assumption.
Qed.

(** A streak id is never assigned again: a streak created after any
    further requests, deletions included, gets an id above that of every
    streak that was ever in the table. *)
Theorem streak_ids_never_reused `{JsRuntime} db reqs s now userId body db'
  s' :
  keyed SavingsStreak.id (savingsStreaks db) ->
  keyed StreakEntry.id (streakEntries db) ->
  In s (rows (savingsStreaks db)) ->
  Routes.postStreak (serveAll db reqs) now userId body
  = (db', Json 201 s') ->
  SavingsStreak.id s < SavingsStreak.id s'.
Proof.
  intros Hs He Hin Hpost.
  destruct (serveAll_keyed reqs db Hs He) as (_ & _ & Hseq & _).
  destruct Hs as [_ Hle]. rewrite Forall_forall in Hle.
  specialize (Hle s Hin).
  unfold Routes.postStreak in Hpost.
  destruct (insertSavingsStreakSchema_parse body userId) as [v|];
    [|discriminate].
  unfold DatabaseStorage.createSavingsStreak, exec_insert in Hpost.
  injection Hpost as _ <-. cbn [SavingsStreak.id].
  destruct (nextId_above SavingsStreak.id
              (savingsStreaks (serveAll db reqs))) as [Hnext _].
  lia.
Qed.

Lemma streak_ids_never_reused_witness :
  exists db' s',
    Routes.postStreak (@serveAll isoRuntime weeklyDb churnRequests) 30
      "alice" weeklyBody = (db', Json 201 s')
    /\ rows (savingsStreaks (@serveAll isoRuntime weeklyDb churnRequests))
       = []
    /\ 1 < SavingsStreak.id s'.
Proof.
  eexists _, _. split; [reflexivity|]. split; [reflexivity|].
  eapply (@streak_ids_never_reused isoRuntime weeklyDb churnRequests
            (streakOf 1 "alice" "weekly") 30 "alice" weeklyBody).
  - split; [repeat constructor; simpl; tauto|].
    repeat constructor. vm_compute. discriminate.
  - split; constructor.
  - now left.
  - reflexivity.
Defined.

(** ** Creating and deleting streaks, adding entries *)

Lemma first_filter_last {row : Type} (c : SQL row) l x :
  (forall r, In r l -> c r = false) -> c x = true ->
  first (filter c (l ++ [x])) = Some x.
Proof.
  intros Hl Hx. rewrite filter_app, (filter_none c l Hl). simpl.
  now rewrite Hx.
Qed.

(** A streak created through [POST /api/streaks] belongs to the caller and
    starts with both counters and the total at 0, whatever the body holds;
    the caller reads it back under its new id, and no other user can. *)
Theorem postStreak_then_get db now userId body v :
  insertSavingsStreakSchema_parse body userId = ZodOk v ->
  exists db' s,
    Routes.postStreak db now userId body = (db', Json 201 s)
    /\ SavingsStreak.userId s = userId
    /\ SavingsStreak.currentStreak s = 0
    /\ SavingsStreak.longestStreak s = 0
    /\ SavingsStreak.totalSaved s = 0%float
    /\ Routes.getStreakById db' userId (SavingsStreak.id s) = Json 200 s
    /\ (forall other, other <> userId ->
        Routes.getStreakById db' other (SavingsStreak.id s)
        = Message 404 "Streak not found").
Proof.
  intros Hparse. unfold Routes.postStreak. rewrite Hparse.
  unfold DatabaseStorage.createSavingsStreak, exec_insert.
  eexists _, _. split; [reflexivity|].
  assert (Hu : is_userId v = userId).
  { unfold insertSavingsStreakSchema_parse in Hparse.
    repeat match type of Hparse with
           | context [match ?x with _ => _ end] =>
               destruct x; try discriminate Hparse
           end.
    now injection Hparse as <-. }
  cbn [SavingsStreak.userId SavingsStreak.currentStreak
       SavingsStreak.longestStreak SavingsStreak.totalSaved
       SavingsStreak.id].
  split; [exact Hu|]. do 3 (split; [reflexivity|]).
  set (i := nextId SavingsStreak.id (savingsStreaks db)).
  set (s := SavingsStreak.mk i _ _ _ _ _ _ _ _ _ _ _ _ _).
  assert (Hold : forall u r, In r (rows (savingsStreaks db)) ->
                   and_ (eqZ SavingsStreak.id i) (eqS SavingsStreak.userId u)
                     r = false).
  { intros u r Hr.
    destruct (nextId_above SavingsStreak.id (savingsStreaks db))
      as [_ Hall].
    rewrite Forall_forall in Hall. specialize (Hall r Hr).
    unfold and_, eqZ. fold i in Hall.
    destruct (Z.eqb_spec (SavingsStreak.id r) i); [lia|reflexivity]. }
  split.
  - unfold Routes.getStreakById, DatabaseStorage.getSavingsStreak.
    rewrite select_rows_where.
    cbn [savingsStreaks with_savingsStreaks rows].
    rewrite first_filter_last; [reflexivity|apply Hold|].
    unfold and_, eqZ, eqS. subst s. cbn. rewrite Z.eqb_refl, Hu.
    now rewrite String.eqb_refl.
  - intros other Hother.
    unfold Routes.getStreakById, DatabaseStorage.getSavingsStreak.
    rewrite select_rows_where.
    cbn [savingsStreaks with_savingsStreaks rows].
    rewrite filter_app, (filter_none _ _ (Hold other)). simpl.
    unfold and_ at 1, eqS at 1. subst s. cbn [SavingsStreak.userId].
    rewrite Hu.
    assert (Hne : String.eqb userId other = false)
      by (apply String.eqb_neq; congruence).
    rewrite Hne, andb_false_r. reflexivity.
Qed.

Lemma postStreak_then_get_witness :
  exists db' s,
    Routes.postStreak emptyDb 0 "alice" weeklyBody = (db', Json 201 s)
    /\ Routes.getStreakById db' "alice" (SavingsStreak.id s) = Json 200 s
    /\ Routes.getStreakById db' "bob" (SavingsStreak.id s)
       = Message 404 "Streak not found".
Proof.
  destruct (postStreak_then_get emptyDb 0 "alice" weeklyBody _ eq_refl)
    as (db' & s & Hpost & _ & _ & _ & _ & Hget & Hother).
  exists db', s. split; [exact Hpost|]. split; [exact Hget|].
  apply Hother. discriminate.
Defined.

(** An update that returns no row has left the table as it was. *)
Lemma exec_update_none {row : Type} (c : SQL row) f (t : Table row) :
  first (snd (exec_update (where_ c (set_ f (update t))))) = None ->
  fst (exec_update (where_ c (set_ f (update t)))) = t.
Proof.
  rewrite exec_update_where. cbn [fst snd]. rewrite first_map.
  intros Hnone.
  assert (Hf : forall r, In r (rows t) -> c r = false).
  { intros r Hr. destruct (c r) eqn:Hc; [|reflexivity].
    destruct (first_filter_found c (rows t) r Hr Hc) as [x Hx].
    now rewrite Hx in Hnone. }
  now rewrite (map_unmatched c f _ Hf), table_eta.
Qed.

(** Refused requests have no effect: whenever a [POST], [PUT] or [PATCH]
    handler of the route module answers with an error status, the database
    is unchanged.  The [DELETE] handlers are the exception.  The storage
    module reads [result.rowCount], which the result of a SQLite statement
    does not have, so every [DELETE] answers 404, also when it has deleted
    the caller's row: the table it leaves is the old one without the rows
    of that id and owner. *)
Theorem routes_errors_change_nothing `{JsRuntime} db now userId id pe pb pg
  amount streakBody entryBody budgetBody goalBody :
  let unchanged (A : Type) (r : Db * Response A) :=
    400 <= statusOf (snd r) -> fst r = db in
  let own (row : Type) (rowid : row -> Z) (owner : row -> string) :=
    and_ (eqZ rowid id) (eqS owner userId) in
  let without (row : Type) (rowid : row -> Z) (owner : row -> string)
    (t : Table row) :=
    mkTable (filter (fun r => negb (own row rowid owner r)) (rows t))
      (seq t) in
  unchanged _ (Routes.postBudget db now userId budgetBody)
  /\ unchanged _ (Routes.postGoal db now userId goalBody)
  /\ unchanged _ (Routes.putExpense db userId id pe)
  /\ unchanged _ (Routes.putBudget db userId id pb)
  /\ unchanged _ (Routes.putGoal db now userId id pg)
  /\ unchanged _ (Routes.patchGoalProgress db now userId id amount)
  /\ unchanged _ (Routes.postStreak db now userId streakBody)
  /\ unchanged _ (Routes.postStreakEntry db now userId id entryBody)
  /\ Routes.deleteExpenseById db userId id
     = (with_expenses db
          (without _ Expense.id Expense.userId (expenses db)),
        Message 404 "Expense not found")
  /\ Routes.deleteBudgetById db userId id
     = (with_budgets db (without _ Budget.id Budget.userId (budgets db)),
        Message 404 "Budget not found")
  /\ Routes.deleteGoalById db userId id
     = (with_goals db (without _ Goal.id Goal.userId (goals db)),
        Message 404 "Goal not found")
  /\ snd (Routes.deleteStreakById db userId id)
     = Message 404 "Streak not found"
  /\ savingsStreaks (fst (Routes.deleteStreakById db userId id))
     = without _ SavingsStreak.id SavingsStreak.userId (savingsStreaks db).
Proof.
  intros unchanged own without. subst unchanged own without. cbv beta.
  repeat split.
  - unfold Routes.postBudget.
    destruct (insertBudgetSchema_parse budgetBody userId); [|reflexivity].
    destruct (DatabaseStorage.createBudget db now data).
    cbn [fst snd statusOf]. lia.
  - unfold Routes.postGoal.
    destruct (insertGoalSchema_parse goalBody userId); [|reflexivity].
    destruct (DatabaseStorage.createGoal db now data).
    cbn [fst snd statusOf]. lia.
  - unfold Routes.putExpense, DatabaseStorage.updateExpense.
    destruct pe as [p|]; [|reflexivity].
    destruct (DatabaseStorage.noExpenseValues p); [reflexivity|].
    pose proof (exec_update_none
                  (and_ (eqZ Expense.id id) (eqS Expense.userId userId))
                  (DatabaseStorage.setExpense p) (expenses db)) as Hn.
    destruct (exec_update _) as [t updated]. cbn [fst snd] in *.
    destruct (DatabaseStorage.ownerUnknown db (pe_userId p) updated);
      [reflexivity|].
    destruct (first updated); cbn [fst snd statusOf]; [lia|].
    intros _. now rewrite Hn, with_expenses_eta.
  - unfold Routes.putBudget, DatabaseStorage.updateBudget.
    destruct pb as [p|]; [|reflexivity].
    destruct (DatabaseStorage.noBudgetValues p); [reflexivity|].
    pose proof (exec_update_none
                  (and_ (eqZ Budget.id id) (eqS Budget.userId userId))
                  (DatabaseStorage.setBudget p) (budgets db)) as Hn.
    destruct (exec_update _) as [t updated]. cbn [fst snd] in *.
    destruct (DatabaseStorage.ownerUnknown db (pb_userId p) updated);
      [reflexivity|].
    destruct (first updated); cbn [fst snd statusOf]; [lia|].
    intros _. now rewrite Hn, with_budgets_eta.
  - unfold Routes.putGoal, DatabaseStorage.updateGoal.
    destruct pg as [p|]; [|reflexivity].
    pose proof (exec_update_none
                  (and_ (eqZ Goal.id id) (eqS Goal.userId userId))
                  (DatabaseStorage.setGoal p now) (goals db)) as Hn.
    destruct (exec_update _) as [t updated]. cbn [fst snd] in *.
    destruct (DatabaseStorage.ownerUnknown db (pg_userId p) updated);
      [reflexivity|].
    destruct (first updated); cbn [fst snd statusOf]; [lia|].
    intros _. now rewrite Hn, with_goals_eta.
  - unfold Routes.patchGoalProgress, DatabaseStorage.updateGoalProgress.
    destruct amount as [| | |a| |]; try reflexivity.
    destruct (num_lt a 0%float); [reflexivity|].
    pose proof (exec_update_none
                  (and_ (eqZ Goal.id id) (eqS Goal.userId userId))
                  (DatabaseStorage.setGoalProgress a now) (goals db)) as Hn.
    destruct (exec_update _) as [t updated]. cbn [fst snd] in *.
    destruct (first updated); cbn [fst snd statusOf]; [lia|].
    intros _. now rewrite Hn, with_goals_eta.
  - unfold Routes.postStreak.
    destruct (insertSavingsStreakSchema_parse streakBody userId);
      [|reflexivity].
    destruct (DatabaseStorage.createSavingsStreak db now data).
    cbn [fst snd statusOf]. lia.
  - unfold Routes.postStreakEntry.
    destruct (DatabaseStorage.getSavingsStreak db id userId); [|reflexivity].
    destruct (insertStreakEntrySchema_parse entryBody id); [|reflexivity].
    destruct (DatabaseStorage.addStreakEntry db now data) as [db1 e].
    destruct (DatabaseStorage.updateStreakProgress db1 now id userId).
    cbn [fst snd statusOf]. lia.
Qed.

(** ** Deletions *)

Section DeleteFacts.
Context {row : Type} (rowid : row -> Z) (owner : row -> string).
Variables (t : Table row) (id : Z) (userId : string).

Let own : SQL row := and_ (eqZ rowid id) (eqS owner userId).
Let t' : Table row := fst (exec_delete (where_ own (delete t))).

Lemma filter_filter_implied (p q : row -> bool) l :
  (forall r, p r = true -> q r = true) ->
  filter p (filter q l) = filter p l.
Proof.
  intros Hpq. induction l as [|r l IH]; simpl; [reflexivity|].
  destruct (q r) eqn:Hq; simpl; [now rewrite IH|].
  destruct (p r) eqn:Hp; [|exact IH].
  rewrite (Hpq r Hp) in Hq. discriminate.
Qed.

Lemma filter_comm (p q : row -> bool) l :
  filter p (filter q l) = filter q (filter p l).
Proof.
  induction l as [|r l IH]; simpl; [reflexivity|].
  destruct (p r) eqn:Hp, (q r) eqn:Hq; simpl; rewrite ?Hp, ?Hq, IH;
    reflexivity.
Qed.

Lemma deleted_notOwned : notOwned rowid owner t' id userId.
Proof.
  subst t'. rewrite exec_delete_where. cbn [fst rows].
  intros r Hr Hid Hown. apply filter_In in Hr. destruct Hr as [_ Hr].
  subst own. unfold and_, eqZ, eqS in Hr.
  apply Z.eqb_eq in Hid. apply String.eqb_eq in Hown.
  now rewrite Hid, Hown in Hr.
Qed.

Lemma deleted_others other :
  other <> userId ->
  filter (eqS owner other) (rows t') = filter (eqS owner other) (rows t).
Proof.
  intros Hother. subst t'. rewrite exec_delete_where. cbn [fst rows].
  apply filter_filter_implied. intros r Hr. unfold eqS in Hr.
  apply String.eqb_eq in Hr. subst own. unfold and_, eqS.
  assert (Hne : String.eqb (owner r) userId = false)
    by (apply String.eqb_neq; congruence).
  now rewrite Hne, andb_false_r.
Qed.

Lemma deleted_own :
  filter (eqS owner userId) (rows t')
  = filter (fun r => negb (rowid r =? id))
      (filter (eqS owner userId) (rows t)).
Proof.
  subst t'. rewrite exec_delete_where. cbn [fst rows].
  rewrite filter_comm. subst own.
  induction (rows t) as [|r l IH]; [reflexivity|].
  cbn [filter]. destruct (eqS owner userId r) eqn:Hu; [|exact IH].
  cbn [filter].
  assert (Hr : and_ (eqZ rowid id) (eqS owner userId) r = (rowid r =? id))
    by (unfold and_; rewrite Hu; apply andb_true_r).
  rewrite Hr. destruct (rowid r =? id); cbn [negb]; now rewrite IH.
Qed.

End DeleteFacts.

Section DeleteGoal.
Import DatabaseStorage.

(** After [DELETE /api/goals/:id] of the route module, whatever it
    answered, the caller's goal with that id is gone: reading it and
    deleting it again answer 404, the second deletion changes nothing; the
    caller's list has lost exactly the goals with that id, and the list of
    every other user is as before.  The same holds for expenses. *)
Theorem delete_then_gone db userId id :
  let dg := fst (Routes.deleteGoalById db userId id) in
  let de := fst (Routes.deleteExpenseById db userId id) in
  Routes.getGoalById dg userId id = Message 404 "Goal not found"
  /\ Routes.deleteGoalById dg userId id = (dg, Message 404 "Goal not found")
  /\ getGoals dg userId
     = filter (fun g => negb (Goal.id g =? id)) (getGoals db userId)
  /\ (forall other, other <> userId -> getGoals dg other = getGoals db other)
  /\ Routes.getExpenseById de userId id = Message 404 "Expense not found"
  /\ Routes.deleteExpenseById de userId id
     = (de, Message 404 "Expense not found")
  /\ getExpenses de userId
     = filter (fun e => negb (Expense.id e =? id)) (getExpenses db userId)
  /\ (forall other, other <> userId ->
      getExpenses de other = getExpenses db other).
Proof.
  intros dg de.
  assert (Hdg : dg = with_goals db
                       (fst (exec_delete
                               (where_ (and_ (eqZ Goal.id id)
                                             (eqS Goal.userId userId))
                                       (delete (goals db)))))).
  { subst dg. unfold Routes.deleteGoalById, deleteGoal.
    destruct (exec_delete _) as [t deleted]. cbv beta iota.
    now destruct (0 <? Z.of_nat (List.length deleted)). }
  assert (Hde : de = with_expenses db
                       (fst (exec_delete
                               (where_ (and_ (eqZ Expense.id id)
                                             (eqS Expense.userId userId))
                                       (delete (expenses db)))))).
  { subst de. unfold Routes.deleteExpenseById, deleteExpense.
    destruct (exec_delete (where_ _ (delete (expenses db))))
      as [t deleted]. cbv beta iota.
    now destruct (0 <? Z.of_nat (List.length deleted)). }
  pose proof (deleted_notOwned Goal.id Goal.userId (goals db) id userId)
    as Hng.
  pose proof (deleted_notOwned Expense.id Expense.userId (expenses db) id
                userId) as Hne.
  assert (Hng' : notOwned Goal.id Goal.userId (goals dg) id userId)
    by (rewrite Hdg; exact Hng).
  assert (Hne' : notOwned Expense.id Expense.userId (expenses de) id userId)
    by (rewrite Hde; exact Hne).
  destruct (goal_scoped dg 0 id userId
              (mkPartialInsertGoal None None None None None None None None)
              0%float Hng') as (G1 & _ & G3 & _).
  destruct (expense_scoped de id userId
              (mkPartialInsertExpense None None None None None None None
                 None None) Hne') as (E1 & _ & E3).
  unfold Routes.getGoalById, Routes.deleteGoalById, Routes.getExpenseById,
    Routes.deleteExpenseById.
  rewrite G1, G3, E1, E3.
  split; [reflexivity|]. split; [reflexivity|].
  unfold getGoals, getExpenses. rewrite !select_rows_where.
  split; [rewrite Hdg; apply deleted_own|].
  split; [intros other Ho; rewrite select_rows_where, Hdg;
          now apply deleted_others|].
  split; [reflexivity|]. split; [reflexivity|].
  split; [rewrite Hde; apply deleted_own|].
  intros other Ho. rewrite !select_rows_where, Hde. now apply deleted_others.
Qed.

End DeleteGoal.

Section DeleteStreak.
Import DatabaseStorage.
Context `{JsRuntime}.
Variables (db : Db) (userId : string) (id : Z).

Let own : SQL SavingsStreak.t :=
  and_ (eqZ SavingsStreak.id id) (eqS SavingsStreak.userId userId).
Let deleted : list SavingsStreak.t := filter own (rows (savingsStreaks db)).
Let cascaded : SQL StreakEntry.t :=
  fun e => existsb (fun s => SavingsStreak.id s =? StreakEntry.streakId e)
             deleted.

Lemma deleteSavingsStreak_eq :
  deleteSavingsStreak db id userId
  = (with_streakEntries
       (with_savingsStreaks db
          (fst (exec_delete (where_ own (delete (savingsStreaks db))))))
       (mkTable (filter (fun e => negb (cascaded e))
                   (rows (streakEntries db)))
          (seq (streakEntries db))),
     false).
Proof. reflexivity. Qed.

Lemma cascaded_other e :
  StreakEntry.streakId e <> id -> cascaded e = false.
Proof.
  intros Hne. subst cascaded. cbv beta.
  destruct (existsb _ deleted) eqn:Hex; [|reflexivity].
  apply existsb_exists in Hex. destruct Hex as (s & Hs & Hid).
  subst deleted. apply filter_In in Hs. destruct Hs as [_ Hs].
  subst own. unfold and_, eqZ in Hs. apply andb_prop in Hs.
  destruct Hs as [Hs _]. apply Z.eqb_eq in Hs, Hid. congruence.
Qed.

Lemma cascaded_own e :
  deleted <> [] -> StreakEntry.streakId e = id -> cascaded e = true.
Proof.
  intros Hd He. subst cascaded. cbv beta.
  assert (Hall : forall s, In s deleted -> SavingsStreak.id s = id).
  { intros s Hs. subst deleted. apply filter_In in Hs.
    destruct Hs as [_ Hs]. subst own. unfold and_, eqZ in Hs.
    apply andb_prop in Hs. destruct Hs as [Hs _]. now apply Z.eqb_eq in Hs. }
  clearbody deleted. destruct deleted as [|s l]; [congruence|].
  cbn [existsb]. rewrite (Hall s (or_introl eq_refl)), He, Z.eqb_refl.
  reflexivity.
Qed.

End DeleteStreak.

(** [DELETE /api/streaks/:id] answers 404 in every case: the storage module
    reads [result.rowCount], which the result of a SQLite statement does
    not have.  When the caller had a streak with that id it is deleted all
    the same, and its entries with it (the schema's cascade).  Afterwards
    the caller has no streak with that id: reading it, listing its entries
    and adding an entry to it answer 404, and the refused addition changes
    nothing.  The entries of every other streak, and the streaks of every
    other user, are as before. *)
Theorem deleteStreak_scope `{JsRuntime} db now userId id body :
  let r := Routes.deleteStreakById db userId id in
  let db' := fst r in
  snd r = Message 404 "Streak not found"
  /\ Routes.getStreakById db' userId id = Message 404 "Streak not found"
  /\ Routes.getStreakEntriesList db' userId id
     = Message 404 "Streak not found"
  /\ Routes.postStreakEntry db' now userId id body
     = (db', Message 404 "Streak not found")
  /\ (DatabaseStorage.getSavingsStreak db id userId <> None ->
      DatabaseStorage.getStreakEntries db' id = [])
  /\ (forall sid, sid <> id ->
      DatabaseStorage.getStreakEntries db' sid
      = DatabaseStorage.getStreakEntries db sid)
  /\ (forall other, other <> userId ->
      DatabaseStorage.getSavingsStreaks db' other
      = DatabaseStorage.getSavingsStreaks db other).
Proof.
  intros r db'.
  assert (Hdb : db' = fst (DatabaseStorage.deleteSavingsStreak db id userId))
    by reflexivity.
  rewrite deleteSavingsStreak_eq in Hdb. cbn [fst snd] in Hdb.
  assert (Hn : notOwned SavingsStreak.id SavingsStreak.userId
                 (savingsStreaks db') id userId).
  { rewrite Hdb. apply deleted_notOwned. }
  destruct (streak_scoped db' 0 id userId
              (mkPartialInsertSavingsStreak None None None None None None
                 None None) Hn) as (G1 & _ & _).
  split; [reflexivity|].
  unfold Routes.getStreakById, Routes.getStreakEntriesList,
    Routes.postStreakEntry. rewrite G1.
  split; [reflexivity|]. split; [reflexivity|]. split; [reflexivity|].
  unfold DatabaseStorage.getStreakEntries, DatabaseStorage.getSavingsStreaks.
  split; [|split].
  - intros Hhad. rewrite select_rows_where, Hdb.
    cbn [streakEntries with_streakEntries rows].
    apply filter_none. intros e He. apply filter_In in He.
    destruct He as [_ He].
    destruct (eqZ StreakEntry.streakId id e) eqn:Hid; [|reflexivity].
    unfold eqZ in Hid. apply Z.eqb_eq in Hid.
    rewrite cascaded_own in He; [discriminate| |exact Hid].
    intros Hnil. apply Hhad.
    unfold DatabaseStorage.getSavingsStreak. rewrite select_rows_where.
    now rewrite Hnil.
  - intros sid Hsid. rewrite !select_rows_where, Hdb.
    cbn [streakEntries with_streakEntries rows].
    apply filter_filter_implied. intros e He. unfold eqZ in He.
    apply Z.eqb_eq in He. rewrite cascaded_other; [reflexivity|congruence].
  - intros other Ho. rewrite !select_rows_where, Hdb.
    cbn [savingsStreaks with_streakEntries with_savingsStreaks].
    now apply deleted_others.
Qed.

(** ** Adding an entry *)




(** ** Listing expenses *)

Lemma filter_and {row : Type} (p q : SQL row) l :
  filter (and_ p q) l = filter p (filter q l).
Proof.
  induction l as [|r l IH]; simpl; [reflexivity|].
  unfold and_ at 1. destruct (q r); simpl.
  - rewrite andb_true_r. destruct (p r); now rewrite IH.
  - rewrite andb_false_r. exact IH.
Qed.

(** [GET /api/expenses] of the route module answers 200 with expenses of the
    caller only, in table order: those of the category when one is given
    (a date range sent with it is ignored), those dated within the range
    when both of its ends are given, and all of them otherwise. *)
Theorem getExpensesList_scope db userId q :
  exists l,
    Routes.getExpensesList db userId q = Json 200 l
    /\ Forall (fun e => Expense.userId e = userId
                        /\ In e (rows (expenses db))) l
    /\ (forall c, truthy (Routes.eq_category q) = Some c ->
        l = filter (fun e => String.eqb (Expense.category e) c)
              (DatabaseStorage.getExpenses db userId))
    /\ (forall s t,
        truthy (Routes.eq_category q) = None ->
        truthy (Routes.eq_startDate q) = Some s ->
        truthy (Routes.eq_endDate q) = Some t ->
        l = filter (fun e => String.leb s (Expense.date e)
                             && String.leb (Expense.date e) t)
              (DatabaseStorage.getExpenses db userId))
    /\ (truthy (Routes.eq_category q) = None ->
        truthy (Routes.eq_startDate q) = None
        \/ truthy (Routes.eq_endDate q) = None ->
        l = DatabaseStorage.getExpenses db userId).
Proof.
  assert (Hown : forall p,
             Forall (fun e => Expense.userId e = userId
                              /\ In e (rows (expenses db)))
               (filter p (DatabaseStorage.getExpenses db userId))).
  { intros p. apply Forall_forall. intros e He.
    apply filter_In in He. destruct He as [He _].
    unfold DatabaseStorage.getExpenses in He.
    rewrite select_rows_where in He. apply filter_In in He.
    destruct He as [Hin Hu]. split; [|exact Hin].
    now apply String.eqb_eq in Hu. }
  assert (Hcat : forall c,
             DatabaseStorage.getExpensesByCategory db c userId
             = filter (fun e => String.eqb (Expense.category e) c)
                 (DatabaseStorage.getExpenses db userId)).
  { intros c. unfold DatabaseStorage.getExpensesByCategory,
      DatabaseStorage.getExpenses.
    rewrite !select_rows_where. apply filter_and. }
  assert (Hrange : forall s t,
             DatabaseStorage.getExpensesByDateRange db s t userId
             = filter (fun e => String.leb s (Expense.date e)
                                && String.leb (Expense.date e) t)
                 (DatabaseStorage.getExpenses db userId)).
  { intros s t. unfold DatabaseStorage.getExpensesByDateRange,
      DatabaseStorage.getExpenses.
    rewrite !select_rows_where.
    rewrite <- (filter_and
                  (fun e => String.leb s (Expense.date e)
                            && String.leb (Expense.date e) t)
                  (eqS Expense.userId userId)).
    reflexivity. }
  unfold Routes.getExpensesList.
  destruct (truthy (Routes.eq_category q)) as [c|].
  - eexists. split; [reflexivity|]. rewrite Hcat.
    split; [apply Hown|]. split; [now intros c' [= <-]|].
    split; [discriminate|discriminate].
  - destruct (truthy (Routes.eq_startDate q)) as [s|],
             (truthy (Routes.eq_endDate q)) as [t|];
      (eexists; split; [reflexivity|]); rewrite ?Hrange;
      (split; [first [apply Hown
                     |rewrite <- (filter_all (fun _ => true)
                                    (DatabaseStorage.getExpenses db userId))
                        by reflexivity; apply Hown]|]);
      (split; [discriminate|]);
      (split; [intros s' t' _ Hs Ht; try discriminate;
               injection Hs as <-; injection Ht as <-; reflexivity
              |intros _ [Hx|Hx]; try discriminate; reflexivity]).
Qed.

(** In [index.ts] each filter of [GET /api/expenses] is a further [.where]
    call, which replaces the owner filter: with a category, or with both
    ends of a date range, the answer is the same for every caller, the
    expenses of all users that pass the last filter; without any filter it
    is the caller's own expenses. *)
Theorem index_expenses_owner_filter_lost db userId q :
  (forall s t,
      truthy (Index.eq_startDate q) = Some s ->
      truthy (Index.eq_endDate q) = Some t ->
      Index.getExpenses db userId q
      = Json 200 (filter (betweenS Expense.date s t) (rows (expenses db))))
  /\ (forall c,
      truthy (Index.eq_category q) = Some c ->
      truthy (Index.eq_startDate q) = None
      \/ truthy (Index.eq_endDate q) = None ->
      Index.getExpenses db userId q
      = Json 200 (filter (eqS Expense.category c) (rows (expenses db))))
  /\ (truthy (Index.eq_category q) = None ->
      truthy (Index.eq_startDate q) = None
      \/ truthy (Index.eq_endDate q) = None ->
      Index.getExpenses db userId q
      = Json 200 (filter (eqS Expense.userId userId) (rows (expenses db))))
  /\ (truthy (Index.eq_category q) <> None
      \/ (truthy (Index.eq_startDate q) <> None
          /\ truthy (Index.eq_endDate q) <> None) ->
      forall other,
        Index.getExpenses db userId q = Index.getExpenses db other q).
Proof.
  unfold Index.getExpenses.
  destruct (truthy (Index.eq_category q)) as [c|],
           (truthy (Index.eq_startDate q)) as [s|],
           (truthy (Index.eq_endDate q)) as [t|];
    (split; [intros s' t' Hs Ht; try discriminate;
             injection Hs as <-; injection Ht as <-; reflexivity|]);
    (split; [intros c' Hc [Hx|Hx]; try discriminate;
             injection Hc as <-; reflexivity|]);
    (split; [intros Hc [Hx|Hx]; try discriminate; reflexivity|]);
    intros [Hc|[Hs Ht]] other; try congruence; reflexivity.
Qed.

(** ** Updating a goal *)

Section UniqueRow.
Context {row : Type} (rowid : row -> Z).

Lemma filter_unique_id l g :
  NoDup (map rowid l) -> In g l ->
  filter (eqZ rowid (rowid g)) l = [g].
Proof.
  induction l as [|r l IH]; simpl; intros Hnd Hin; [contradiction|].
  inversion Hnd as [|? ? Hnotin Hnd']; subst.
  destruct Hin as [->|Hin].
  - unfold eqZ at 1. rewrite Z.eqb_refl. f_equal.
    apply filter_none. intros r Hr. unfold eqZ. apply Z.eqb_neq.
    intros Heq. apply Hnotin. rewrite <- Heq. now apply in_map.
  - assert (Hne : eqZ rowid (rowid g) r = false).
    { unfold eqZ. apply Z.eqb_neq. intros Heq. apply Hnotin.
      rewrite Heq. now apply in_map. }
    rewrite Hne. now apply IH.
Qed.

Lemma filter_map_kept (p : SQL row) (u : row -> row) l :
  (forall r, p (u r) = p r) ->
  filter p (map u l) = map u (filter p l).
Proof.
  intros Hp. induction l as [|r l IH]; simpl; [reflexivity|].
  rewrite Hp. destruct (p r); simpl; now rewrite IH.
Qed.

End UniqueRow.

(** [PUT /api/goals/:id] of the route module on a goal of the caller, the
    ids of the goal table being distinct.  The body may carry [userId].
    When it names somebody who is not a stored user the update fails on the
    foreign key: the answer is 500 and nothing has changed.  Otherwise the
    answer is the stored goal with the keys of the body assigned over it,
    its id and creation time kept and [updatedAt] set to the request time
    in whole seconds; the goal is afterwards readable under the id by the
    user the body names, by the caller when it names none, and by nobody
    else.  Goals with another id read as before. *)
Theorem putGoal_owner db now userId id p g :
  NoDup (map Goal.id (rows (goals db))) ->
  DatabaseStorage.getGoal db id userId = Some g ->
  let g' := DatabaseStorage.setGoal p now g in
  (forall u, pg_userId p = Some u -> storedUser db u = false ->
   Routes.putGoal db now userId id (ZodOk p)
   = (db, Message 500 "Failed to update goal"))
  /\ ((forall u, pg_userId p = Some u -> storedUser db u = true) ->
      exists db',
        Routes.putGoal db now userId id (ZodOk p) = (db', Json 200 g')
        /\ Goal.id g' = id
        /\ Goal.createdAt g' = Goal.createdAt g
        /\ Goal.updatedAt g' = now / 1000 * 1000
        /\ Goal.userId g' = assign (pg_userId p) userId
        /\ (forall reader,
            Routes.getGoalById db' reader id
            = if String.eqb (Goal.userId g') reader then Json 200 g'
              else Message 404 "Goal not found")
        /\ (forall reader other, other <> id ->
            Routes.getGoalById db' reader other
            = Routes.getGoalById db reader other)).
Proof.
  intros Hnd Hg g'.
  assert (Hown : In g (rows (goals db))
                 /\ Goal.id g = id /\ Goal.userId g = userId
                 /\ exists l,
                      filter (and_ (eqZ Goal.id id) (eqS Goal.userId userId))
                        (rows (goals db)) = g :: l).
  { rewrite getGoal_filter in Hg. unfold first in Hg.
    destruct (filter _ (rows (goals db))) as [|x l] eqn:Hf; [discriminate|].
    injection Hg as ->.
    assert (Hin : In g (filter (and_ (eqZ Goal.id id)
                                     (eqS Goal.userId userId))
                          (rows (goals db))))
      by (rewrite Hf; now left).
    apply filter_In in Hin. destruct Hin as [Hin Hc].
    unfold and_, eqZ, eqS in Hc. apply andb_prop in Hc.
    destruct Hc as [Hi Hu]. apply Z.eqb_eq in Hi. apply String.eqb_eq in Hu.
    repeat split; try assumption. now exists l. }
  destruct Hown as (Hin & Hid & Hu & l & Hl).
  unfold Routes.putGoal, DatabaseStorage.updateGoal.
  rewrite exec_update_where, Hl. cbn [map first hd_error].
  fold g'. unfold DatabaseStorage.ownerUnknown.
  change (existsb (fun x => String.eqb (User.id x) ?u) (rows (users db)))
    with (storedUser db u).
  split.
  { intros u Hp Hno. now rewrite Hp, Hno. }
  intros Hknown.
  assert (Hok : match pg_userId p with
                | Some u => negb (storedUser db u)
                | None => false
                end = false).
  { destruct (pg_userId p) as [u|]; [|reflexivity].
    now rewrite (Hknown u eq_refl). }
  rewrite Hok. eexists. split; [reflexivity|].
  split; [exact Hid|]. split; [reflexivity|]. split; [reflexivity|].
  split; [subst g'; cbn [DatabaseStorage.setGoal Goal.userId];
          now rewrite Hu|].
  set (own := and_ (eqZ Goal.id id) (eqS Goal.userId userId)).
  set (u := fun r => if own r then DatabaseStorage.setGoal p now r else r).
  assert (Hkeep : forall i r, eqZ Goal.id i (u r) = eqZ Goal.id i r).
  { intros i r. subst u. cbv beta. now destruct (own r). }
  split.
  - intros reader. unfold Routes.getGoalById. rewrite getGoal_filter.
    cbn [goals with_goals rows]. rewrite filter_and, filter_comm.
    rewrite (filter_map_kept _ u _ (Hkeep id)), <- Hid.
    rewrite (filter_unique_id Goal.id _ g Hnd Hin).
    assert (Hug : u g = g').
    { subst u. cbv beta. subst own. unfold and_, eqZ, eqS.
      now rewrite Hid, Hu, Z.eqb_refl, String.eqb_refl. }
    cbn [map filter]. rewrite Hug. unfold eqS at 1.
    now destruct (String.eqb (Goal.userId g') reader).
  - intros reader other Hne. unfold Routes.getGoalById.
    rewrite !getGoal_filter. cbn [goals with_goals rows].
    rewrite !filter_and, !(filter_comm (eqZ Goal.id other)).
    rewrite (filter_map_kept _ u _ (Hkeep other)).
    assert (Hsame : map u (filter (eqZ Goal.id other) (rows (goals db)))
                    = filter (eqZ Goal.id other) (rows (goals db))).
    { rewrite <- (map_id (filter (eqZ Goal.id other) (rows (goals db))))
        at 2.
      apply map_ext_in. intros r Hr. apply filter_In in Hr.
      destruct Hr as [_ Hr]. unfold eqZ in Hr. apply Z.eqb_eq in Hr.
      subst u. cbv beta. subst own. unfold and_, eqZ.
      assert (Hno : (Goal.id r =? id) = false)
        by (apply Z.eqb_neq; congruence).
      now rewrite Hno. }
    now rewrite Hsame.
Qed.

(** Alice hands her goal 1 to Bob, a stored user; handing it to somebody
    unknown fails.  The request arrives 999 ms after second 5. *)
Lemma putGoal_owner_witness :
  exists db' g',
    Routes.putGoal peopleDb 5999 "alice" 1
      (ZodOk (mkPartialInsertGoal (Some "bob") None None None None None None
                None))
    = (db', Json 200 g')
    /\ Goal.userId g' = "bob"
    /\ Goal.updatedAt g' = 5000
    /\ Routes.getGoalById db' "alice" 1 = Message 404 "Goal not found"
    /\ Routes.getGoalById db' "bob" 1 = Json 200 g'
    /\ Routes.putGoal peopleDb 5999 "alice" 1
         (ZodOk (mkPartialInsertGoal (Some "nobody") None None None None
                   None None None))
       = (peopleDb, Message 500 "Failed to update goal").
Proof.
  assert (Hnd : NoDup (map Goal.id (rows (goals peopleDb))))
    by (repeat constructor; simpl; intuition discriminate).
  destruct (proj2 (putGoal_owner peopleDb 5999 "alice" 1
                     (mkPartialInsertGoal (Some "bob") None None None None
                        None None None)
                     (goalOf 1 "alice" "Viagem") Hnd eq_refl))
    as (db' & Hput & _ & _ & Hat & Hu & Hread & _).
  { intros u [= <-]. reflexivity. }
  eexists db', _. split; [exact Hput|]. split; [exact Hu|].
  split; [exact Hat|].
  split; [exact (Hread "alice")|]. split; [exact (Hread "bob")|].
  apply (proj1 (putGoal_owner peopleDb 5999 "alice" 1
                  (mkPartialInsertGoal (Some "nobody") None None None None
                     None None None)
                  (goalOf 1 "alice" "Viagem") Hnd eq_refl) "nobody");
    reflexivity.
Defined.

(** ** Password hashes *)

Lemma hex_byte (b : ascii) :
  let h := hexDigit (N_of_ascii b / 16) in
  let l := hexDigit (N_of_ascii b mod 16) in
  match hexValue h, hexValue l with
  | Some x, Some y => ascii_of_N (16 * x + y) = b
  | _, _ => False
  end
  /\ Ascii.eqb h "." = false /\ Ascii.eqb l "." = false.
Proof.
  destruct b as [[] [] [] [] [] [] [] []]; vm_compute; repeat split.
Qed.

Lemma fromHex_toHex buf : fromHex (toHex buf) = buf.
Proof.
  induction buf as [|b rest IH]; [reflexivity|].
  cbn [toHex fromHex]. destruct (hex_byte b) as (Hv & _ & _).
  cbv zeta in Hv.
  destruct (hexValue (hexDigit (N_of_ascii b / 16))) as [x|]; [|contradiction].
  destruct (hexValue (hexDigit (N_of_ascii b mod 16))) as [y|];
    [|contradiction].
  now rewrite Hv, IH.
Qed.

Lemma append_empty s : (s ++ EmptyString)%string = s.
Proof. induction s as [|c s IH]; simpl; [reflexivity|now rewrite IH]. Qed.

Lemma splitDot_nonempty s : splitDot s <> [].
Proof.
  destruct s as [|c rest]; simpl; [discriminate|].
  destruct (Ascii.eqb c "."); [discriminate|].
  destruct (splitDot rest); discriminate.
Qed.

Lemma splitDot_toHex buf s :
  splitDot (toHex buf ++ s) =
  match splitDot s with
  | h :: t => (toHex buf ++ h) :: t
  | [] => []
  end.
Proof.
  induction buf as [|b rest IH].
  - simpl. now destruct (splitDot s).
  - destruct (hex_byte b) as (_ & Hh & Hl). cbv zeta in Hh, Hl.
    cbn [toHex append splitDot]. rewrite Hh, Hl, IH.
    pose proof (splitDot_nonempty s) as Hne.
    destruct (splitDot s) as [|h t]; [contradiction|reflexivity].
Qed.

Lemma password_hash_reads `{Scrypt} saltBytes password :
  (forall supplied,
      Auth.comparePasswords supplied (Auth.hashPassword saltBytes password)
      = Some (String.eqb (scrypt password (toHex saltBytes))
                (scrypt supplied (toHex saltBytes))))
  /\ Auth.comparePasswords password (Auth.hashPassword saltBytes password)
     = Some true.
Proof.
  assert (Hcmp : forall x,
             Auth.comparePasswords x (Auth.hashPassword saltBytes password)
             = Some (String.eqb (scrypt password (toHex saltBytes))
                       (scrypt x (toHex saltBytes)))).
  { intros x. unfold Auth.comparePasswords, Auth.hashPassword.
    cbv zeta. rewrite splitDot_toHex.
    change ("." ++ toHex saltBytes) with (String "." (toHex saltBytes)).
    cbn [splitDot]. change (Ascii.eqb "." ".") with true. cbv iota.
    rewrite <- (append_empty (toHex saltBytes)) at 1.
    rewrite splitDot_toHex. cbn [splitDot].
    rewrite !append_empty, fromHex_toHex.
    unfold timingSafeEqual. rewrite !scrypt_length. reflexivity. }
  split; [exact Hcmp|].
  rewrite Hcmp, String.eqb_refl. reflexivity.
Qed.

(** A hash made by [hashPassword] is read back by [comparePasswords]: the
    comparison does not throw, and it accepts a supplied password exactly
    when [scrypt] derives for it, under the salt of the hash, the key of the
    hashed password.  The hashed password itself is always accepted. *)
Theorem password_round_trip `{Scrypt} saltBytes password supplied :
  let stored := Auth.hashPassword saltBytes password in
  Auth.comparePasswords supplied stored
  = Some (String.eqb (scrypt password (toHex saltBytes))
            (scrypt supplied (toHex saltBytes)))
  /\ Auth.comparePasswords password stored = Some true.
Proof.
  destruct (password_hash_reads saltBytes password) as [Hother Hsame].
  cbv zeta. split; [apply Hother|exact Hsame].
Qed.

Lemma password_round_trip_witness :
  @Auth.comparePasswords toyScrypt "segredo"
    (@Auth.hashPassword toyScrypt "0123456789abcdef" "segredo") = Some true
  /\ @Auth.comparePasswords toyScrypt "outra"
       (@Auth.hashPassword toyScrypt "0123456789abcdef" "segredo")
     = Some false.
Proof.
  destruct (@password_round_trip toyScrypt "0123456789abcdef" "segredo"
              "outra") as [Hother Hsame].
  split; [exact Hsame|]. rewrite Hother. reflexivity.
Defined.

(** ** Registration, then login *)

Lemma first_filter_none {row : Type} (c : SQL row) l :
  first (filter c l) = None -> forall r, In r l -> c r = false.
Proof.
  intros Hnone r Hr. destruct (c r) eqn:Hc; [|reflexivity].
  destruct (first_filter_found c l r Hr Hc) as [x Hx]. congruence.
Qed.

Lemma insertUser_inv t uuid now userData t' user :
  insertUser t uuid now userData = Some (t', user) ->
  user = User.mk uuid (iu_email userData) (iu_password userData)
           (iu_firstName userData) (iu_lastName userData)
           (Some (timestamp now)) (Some (timestamp now))
  /\ rows t' = (rows t ++ [user])%list
  /\ forall r, In r (rows t) -> eqS User.id uuid r = false.
Proof.
  unfold insertUser. destruct (existsb _ (rows t)) eqn:Hex; [discriminate|].
  intros [= <- <-]. split; [reflexivity|]. split; [reflexivity|].
  intros r Hr. unfold eqS.
  destruct (String.eqb (User.id r) uuid) eqn:Hid; [|reflexivity].
  assert (Htrue : existsb
                    (fun u => String.eqb (User.id u) uuid
                              || String.eqb (User.email u)
                                   (iu_email userData)) (rows t) = true).
  { apply existsb_exists. exists r. split; [exact Hr|]. now rewrite Hid. }
  congruence.
Qed.

(** After a registration through [POST /api/register] of the auth module
    has answered 201, a login with the registered e-mail and password
    answers 200 with the same user and puts the user's id in the session;
    a login with a password for which [scrypt] derives another key is
    answered 401 and leaves the session as it was. *)
Theorem auth_register_then_login `{Scrypt} db uuid now saltBytes body
    password db' pu session :
  rb_password body = Some password ->
  Auth.register db uuid now (Auth.hashPassword saltBytes password) body
  = (db', Json 201 pu) ->
  pu_id pu = uuid
  /\ rb_email body = Some (pu_email pu)
  /\ Auth.login db' session true
       (Auth.mkLoginBody (rb_email body) (Some password))
     = (Some uuid, Json 200 pu)
  /\ (forall supplied,
      supplied <> EmptyString ->
      scrypt supplied (toHex saltBytes) <> scrypt password (toHex saltBytes) ->
      Auth.login db' session true
        (Auth.mkLoginBody (rb_email body) (Some supplied))
      = (session, Message 401 "Email ou senha incorretos")).
Proof.
  intros Hpw. unfold Auth.register. rewrite Hpw.
  destruct (rb_email body) as [email|] eqn:Hemail; [|discriminate].
  destruct (falsy (Some email)) eqn:Hfe; [discriminate|].
  destruct (falsy (Some password)) eqn:Hfp; [discriminate|].
  cbn [orb].
  destruct (DatabaseStorage.getUserByEmail db email) as [?|] eqn:Hget;
    [discriminate|].
  unfold DatabaseStorage.createUser.
  destruct (insertUser _ _ _ _) as [[t user]|] eqn:Hins; [|discriminate].
  intros [= <- <-].
  destruct (insertUser_inv _ _ _ _ _ _ Hins) as (Huser & Hrows & _).
  cbn [iu_email iu_password iu_firstName iu_lastName] in Huser.
  assert (Hfound : DatabaseStorage.getUserByEmail (with_users db t) email
                   = Some user).
  { unfold DatabaseStorage.getUserByEmail. rewrite select_rows_where.
    cbn [users with_users]. rewrite Hrows. apply first_filter_last.
    - apply first_filter_none. exact Hget.
    - rewrite Huser. unfold eqS. cbn [User.email]. apply String.eqb_refl. }
  assert (Hte : truthy (Some email) = Some email).
  { unfold truthy. cbn [falsy] in Hfe. now rewrite Hfe. }
  assert (Htp : truthy (Some password) = Some password).
  { unfold truthy. cbn [falsy] in Hfp. now rewrite Hfp. }
  destruct (password_hash_reads saltBytes password) as [Hother Hsame].
  split; [now rewrite Huser|]. split; [now rewrite Huser|].
  unfold Auth.login, Auth.verify. cbn [Auth.lb_email Auth.lb_password].
  rewrite Hte. split.
  - rewrite Htp, Hfound.
    replace (User.password user)
      with (Auth.hashPassword saltBytes password) by now rewrite Huser.
    rewrite Hsame. now rewrite Huser.
  - intros supplied Hne Hkey.
    assert (Hts : truthy (Some supplied) = Some supplied).
    { unfold truthy. apply String.eqb_neq in Hne. now rewrite Hne. }
    rewrite Hts, Hfound.
    replace (User.password user)
      with (Auth.hashPassword saltBytes password) by now rewrite Huser.
    rewrite Hother.
    assert (Hk : String.eqb (scrypt password (toHex saltBytes))
                   (scrypt supplied (toHex saltBytes)) = false)
      by (apply String.eqb_neq; congruence).
    now rewrite Hk.
Qed.

Lemma auth_register_then_login_witness :
  let body := mkRegisterBody (Some "bob@example.com") (Some "segredo") None
                None in
  let hashed := @Auth.hashPassword toyScrypt "0123456789abcdef" "segredo" in
  exists db' pu,
    Auth.register usersDb "u2" 5000 hashed body = (db', Json 201 pu)
    /\ @Auth.login toyScrypt db' None true
         (Auth.mkLoginBody (Some "bob@example.com") (Some "segredo"))
       = (Some "u2", Json 200 pu)
    /\ @Auth.login toyScrypt db' None true
         (Auth.mkLoginBody (Some "bob@example.com") (Some "outra"))
       = (None, Message 401 "Email ou senha incorretos").
Proof.
  intros body hashed.
  destruct (@auth_register_then_login toyScrypt usersDb "u2" 5000
              "0123456789abcdef" body "segredo" _ _ None eq_refl eq_refl)
    as (_ & _ & Hlogin & Hwrong).
  eexists _, _. split; [reflexivity|]. split; [exact Hlogin|].
  apply Hwrong; [discriminate|vm_compute; discriminate].
Defined.

(** After a registration through [POST /api/auth/register] of [index.ts]
    has answered 201 with a non-empty user id, a login with the registered
    e-mail and a password that [bcrypt.compare] accepts for the stored hash
    answers 200 with the same user and puts the user's id in the session,
    under which [GET /api/auth/me] answers that user and [requireAuth] lets
    the request through; a password that is not accepted is answered 401
    and leaves the session as it was. *)
Theorem index_register_then_login compare db uuid now hashed body password
    db' pu session :
  uuid <> EmptyString ->
  rb_password body = Some password ->
  compare password hashed = true ->
  Index.register db uuid now hashed body = (db', Json 201 pu) ->
  pu_id pu = uuid
  /\ Index.login compare db' session true
       (Index.mkLoginBody (rb_email body) (Some password))
     = (Some uuid, Json 200 pu)
  /\ Index.me db' (Some uuid) = Json 200 pu
  /\ (forall (A : Type) (next : string -> Db -> Db * Response A),
      Index.requireAuth (Some uuid) next db' = next uuid db')
  /\ (forall supplied saved,
      compare supplied hashed = false ->
      Index.login compare db' session saved
        (Index.mkLoginBody (rb_email body) (Some supplied))
      = (session, Message 401 "Credenciais inválidas")).
Proof.
  intros Huuid Hpw Hcmp. unfold Index.register. rewrite Hpw.
  destruct (rb_email body) as [email|] eqn:Hemail; [|discriminate].
  destruct (first (select_rows (where_ (eqS User.email email)
                                       (from (users db)))))
    as [?|] eqn:Hget; [discriminate|].
  destruct (insertUser _ _ _ _) as [[t user]|] eqn:Hins; [|discriminate].
  intros [= <- <-].
  destruct (insertUser_inv _ _ _ _ _ _ Hins) as (Huser & Hrows & Hids).
  cbn [iu_email iu_password iu_firstName iu_lastName] in Huser.
  rewrite select_rows_where in Hget.
  assert (Hfound : first (select_rows (where_ (eqS User.email email)
                                         (from (users (with_users db t)))))
                   = Some user).
  { rewrite select_rows_where. cbn [users with_users]. rewrite Hrows.
    apply first_filter_last.
    - apply first_filter_none. exact Hget.
    - rewrite Huser. unfold eqS. cbn [User.email]. apply String.eqb_refl. }
  assert (Hbyid : first (select_rows (where_ (eqS User.id uuid)
                                        (from (users (with_users db t)))))
                  = Some user).
  { rewrite select_rows_where. cbn [users with_users]. rewrite Hrows.
    apply first_filter_last; [exact Hids|].
    rewrite Huser. unfold eqS. cbn [User.id]. apply String.eqb_refl. }
  assert (Hts : truthy (Some uuid) = Some uuid).
  { unfold truthy. apply String.eqb_neq in Huuid. now rewrite Huuid. }
  assert (Hid : User.id user = uuid) by now rewrite Huser.
  assert (Hhash : User.password user = hashed) by now rewrite Huser.
  split; [exact Hid|].
  unfold Index.login, Index.me, Index.requireAuth.
  cbn [Index.lb_email Index.lb_password].
  rewrite Hfound, Hts, Hbyid, Hhash, Hcmp, Hid.
  split; [reflexivity|]. split; [reflexivity|]. split; [reflexivity|].
  intros supplied saved Hno. now rewrite Hno.
Qed.

Lemma index_register_then_login_witness :
  let compare := fun password hash => String.eqb hash ("h:" ++ password) in
  let body := mkRegisterBody (Some "bob@example.com") (Some "segredo") None
                None in
  exists db' pu,
    Index.register usersDb "u2" 5000 "h:segredo" body = (db', Json 201 pu)
    /\ Index.login compare db' None true
         (Index.mkLoginBody (Some "bob@example.com") (Some "segredo"))
       = (Some "u2", Json 200 pu)
    /\ Index.me db' (Some "u2") = Json 200 pu
    /\ Index.login compare db' None true
         (Index.mkLoginBody (Some "bob@example.com") (Some "outra"))
       = (None, Message 401 "Credenciais inválidas").
Proof.
  intros compare body.
  destruct (index_register_then_login compare usersDb "u2" 5000 "h:segredo"
              body "segredo" _ _ None ltac:(discriminate) eq_refl eq_refl
              eq_refl)
    as (_ & Hlogin & Hme & _ & Hwrong).
  eexists _, _. split; [reflexivity|]. split; [exact Hlogin|].
  split; [exact Hme|]. now apply Hwrong.
Defined.

(** ** Login *)

(** Neither login handler opens a session without a matching password.  An
    answer of 200 names a stored user whose e-mail is the one of the body
    and whose stored hash the comparison has accepted for the password of
    the body, and the session then holds that user's id; with any other
    answer the session is as it was. *)
Theorem login_sound `{Scrypt} compare db session ok ibody abody :
  let iout := Index.login compare db session ok ibody in
  let aout := Auth.login db session ok abody in
  (statusOf (snd iout) = 200 ->
   exists user password,
     In user (rows (users db))
     /\ Index.lb_email ibody = Some (User.email user)
     /\ Index.lb_password ibody = Some password
     /\ compare password (User.password user) = true
     /\ iout = (Some (User.id user), Json 200 (publicUser user)))
  /\ (statusOf (snd iout) <> 200 -> fst iout = session)
  /\ (statusOf (snd aout) = 200 ->
      exists user password,
        In user (rows (users db))
        /\ Auth.lb_email abody = Some (User.email user)
        /\ Auth.lb_password abody = Some password
        /\ Auth.comparePasswords password (User.password user) = Some true
        /\ aout = (Some (User.id user), Json 200 (publicUser user)))
  /\ (statusOf (snd aout) <> 200 -> fst aout = session).
Proof.
  assert (Hrow : forall email user,
             first (select_rows (where_ (eqS User.email email)
                                        (from (users db)))) = Some user ->
             In user (rows (users db)) /\ User.email user = email).
  { intros email user Hf. rewrite select_rows_where in Hf. unfold first in Hf.
    destruct (filter _ (rows (users db))) as [|x l] eqn:Hl; [discriminate|].
    injection Hf as ->.
    assert (Hin : In user (filter (eqS User.email email) (rows (users db))))
      by (rewrite Hl; now left).
    apply filter_In in Hin. destruct Hin as [Hin He].
    split; [exact Hin|]. now apply String.eqb_eq in He. }
  cbv zeta. split; [|split; [|split]].
  - unfold Index.login.
    destruct (Index.lb_email ibody) as [email|]; [|discriminate].
    destruct (first _) as [user|] eqn:Hf; [|discriminate].
    destruct (Hrow _ _ Hf) as [Hin He].
    destruct (Index.lb_password ibody) as [password|]; [|discriminate].
    destruct (compare password (User.password user)) eqn:Hc; [|discriminate].
    destruct ok; [|discriminate].
    intros _. exists user, password. rewrite He. now repeat split.
  - unfold Index.login.
    destruct (Index.lb_email ibody) as [email|]; [|reflexivity].
    destruct (first _) as [user|]; [|reflexivity].
    destruct (Index.lb_password ibody) as [password|]; [|reflexivity].
    destruct (compare password (User.password user)); [|reflexivity].
    destruct ok; [|reflexivity]. intros Hno. now contradiction Hno.
  - unfold Auth.login, Auth.verify, truthy.
    destruct (Auth.lb_email abody) as [email|]; [|discriminate].
    destruct (String.eqb email EmptyString); [discriminate|].
    destruct (Auth.lb_password abody) as [password|]; [|discriminate].
    destruct (String.eqb password EmptyString); [discriminate|].
    unfold DatabaseStorage.getUserByEmail.
    destruct (first _) as [user|] eqn:Hf; [|discriminate].
    destruct (Hrow _ _ Hf) as [Hin He].
    destruct (Auth.comparePasswords password (User.password user))
      as [[|]|] eqn:Hc; [|discriminate|discriminate].
    destruct ok; [|discriminate].
    intros _. exists user, password. rewrite He. now repeat split.
  - unfold Auth.login, Auth.verify, truthy.
    destruct (Auth.lb_email abody) as [email|]; [|reflexivity].
    destruct (String.eqb email EmptyString); [reflexivity|].
    destruct (Auth.lb_password abody) as [password|]; [|reflexivity].
    destruct (String.eqb password EmptyString); [reflexivity|].
    destruct (DatabaseStorage.getUserByEmail db email) as [user|];
      [|reflexivity].
    destruct (Auth.comparePasswords password (User.password user))
      as [[|]|]; [|reflexivity|reflexivity].
    destruct ok; [|reflexivity]. intros Hno. now contradiction Hno.
Qed.

(** ** Examples *)

Lemma index_expenses_owner_filter_lost_witness :
  Index.getExpenses expensesDb "alice"
    (Index.mkExpenseQuery (Some "food") None None)
  = Json 200 [expenseOf 1 "alice" "food" "2025-03-01";
              expenseOf 2 "bob" "food" "2025-03-02"]
  /\ Routes.getExpensesList expensesDb "alice"
       (Routes.mkExpenseQuery (Some "food") None None)
     = Json 200 [expenseOf 1 "alice" "food" "2025-03-01"].
Proof.
  split; [|reflexivity].
  rewrite (proj1 (proj2 (index_expenses_owner_filter_lost expensesDb "alice"
                           (Index.mkExpenseQuery (Some "food") None None)))
             "food" eq_refl (or_introl eq_refl)).
  reflexivity.
Defined.

Lemma routes_notFound_witness :
  Routes.getGoalById goalsDb "alice" 2 = Message 404 "Goal not found"
  /\ Routes.deleteGoalById goalsDb "alice" 2
     = (goalsDb, Message 404 "Goal not found")
  /\ Routes.getGoalById goalsDb "bob" 2 = Json 200 (goalOf 2 "bob" "Carro").
Proof.
  destruct (routes_notFound goalsDb 0 2 "alice"
              (mkPartialInsertExpense None (Some "Mercado") None None None
                 None None None None)
              (mkPartialInsertBudget None None None (Some "monthly"))
              (mkPartialInsertGoal None (Some "Moto") None None None None
                 None None)
              0%float eq_refl eq_refl
              ltac:(intros r [])
              ltac:(intros r [])
              ltac:(intros r [<-|[<-|[<-|[]]]]; simpl; intros;
                    discriminate)
              ltac:(intros r []))
    as (_ & _ & _ & _ & _ & Hget & _ & Hdel & _).
  split; [exact Hget|]. split; [exact Hdel|reflexivity].
Defined.

(** ** Creating goals and budgets *)

Section InsertFacts.
Context {row : Type} (rowid : row -> Z) (owner : row -> string).
Variables (mk : Z -> row) (t : Table row).
Hypothesis Hmk : forall i, rowid (mk i) = i.

Let t' : Table row := fst (exec_insert rowid mk t).
Let r : row := snd (exec_insert rowid mk t).

Lemma inserted_fresh x : In x (rows t) -> rowid x < rowid r.
Proof.
  intros Hx. subst r. unfold exec_insert. cbn [snd]. rewrite Hmk.
  destruct (nextId_above rowid t) as [_ Hall].
  rewrite Forall_forall in Hall. now apply Hall.
Qed.

Lemma inserted_list u :
  filter (eqS owner u) (rows t')
  = (filter (eqS owner u) (rows t)
     ++ (if String.eqb (owner r) u then [r] else []))%list.
Proof.
  subst t' r. unfold exec_insert. cbn [fst snd rows].
  rewrite filter_app. reflexivity.
Qed.

Lemma inserted_get u :
  first (filter (and_ (eqZ rowid (rowid r)) (eqS owner u)) (rows t'))
  = if String.eqb (owner r) u then Some r else None.
Proof.
  assert (Hold : forall x, In x (rows t) ->
                   and_ (eqZ rowid (rowid r)) (eqS owner u) x = false).
  { intros x Hx. pose proof (inserted_fresh x Hx) as Hlt.
    unfold and_, eqZ. destruct (Z.eqb_spec (rowid x) (rowid r));
      [lia|reflexivity]. }
  assert (Hrows : rows t' = (rows t ++ [r])%list) by reflexivity.
  rewrite Hrows, filter_app, (filter_none _ _ Hold). cbn [app filter].
  unfold and_ at 1, eqZ at 1, eqS at 1. rewrite Z.eqb_refl. cbn [andb].
  now destruct (String.eqb (owner r) u).
Qed.

Lemma inserted_deleted :
  filter (fun x => negb (and_ (eqZ rowid (rowid r)) (eqS owner (owner r)) x))
    (rows t')
  = rows t.
Proof.
  assert (Hrows : rows t' = (rows t ++ [r])%list) by reflexivity.
  rewrite Hrows, filter_app. cbn [filter].
  unfold and_ at 2, eqZ at 2, eqS at 2.
  rewrite Z.eqb_refl, String.eqb_refl. cbn [andb negb].
  rewrite app_nil_r. apply filter_all. intros x Hx.
  pose proof (inserted_fresh x Hx) as Hlt. unfold and_, eqZ.
  destruct (Z.eqb_spec (rowid x) (rowid r)); [lia|reflexivity].
Qed.

End InsertFacts.

(** A goal created through [POST /api/goals] belongs to the caller whatever
    the body holds, has an id above every id of the table, and takes 0 as
    [currentAmount] and ["active"] as [status] when the body leaves them
    out.  The caller reads it back under its id and finds it at the end of
    the goal list; no other user can read it, and the lists of the other
    users are as before. *)
Theorem postGoal_then_get db now userId body v :
  insertGoalSchema_parse body userId = ZodOk v ->
  exists db' g,
    Routes.postGoal db now userId body = (db', Json 201 g)
    /\ Goal.userId g = userId
    /\ (gb_currentAmount body = JUndefined -> Goal.currentAmount g = 0%float)
    /\ (gb_status body = JUndefined -> Goal.status g = "active")
    /\ (forall x, In x (rows (goals db)) -> Goal.id x < Goal.id g)
    /\ Routes.getGoalById db' userId (Goal.id g) = Json 200 g
    /\ Routes.getGoalsList db' userId
       = Json 200 (DatabaseStorage.getGoals db userId ++ [g])%list
    /\ (forall other, other <> userId ->
        Routes.getGoalById db' other (Goal.id g)
        = Message 404 "Goal not found"
        /\ Routes.getGoalsList db' other = Routes.getGoalsList db other).
Proof.
  intros Hparse. unfold Routes.postGoal. rewrite Hparse.
  unfold DatabaseStorage.createGoal.
  set (mk := fun i => Goal.mk i (ig_userId v) (ig_title v)
                        (assign (ig_description v) None) (ig_targetAmount v)
                        (assign (ig_currentAmount v) 0%float)
                        (ig_category v) (ig_targetDate v)
                        (assign (ig_status v) "active") (timestamp now)
                        (timestamp now)).
  assert (Hmk : forall i, Goal.id (mk i) = i) by reflexivity.
  destruct (exec_insert Goal.id mk (goals db)) as [t g] eqn:Hins.
  assert (Ht : t = fst (exec_insert Goal.id mk (goals db)))
    by now rewrite Hins.
  assert (Hg : g = snd (exec_insert Goal.id mk (goals db)))
    by now rewrite Hins.
  assert (Hv : ig_userId v = userId
               /\ (gb_currentAmount body = JUndefined ->
                   ig_currentAmount v = None)
               /\ (gb_status body = JUndefined -> ig_status v = None)).
  { unfold insertGoalSchema_parse in Hparse.
    destruct (zString (gb_title body)); [|discriminate].
    destruct (zOptional (zNullable zString) (gb_description body));
      [|discriminate].
    destruct (zNumber (gb_targetAmount body)); [|discriminate].
    destruct (zOptional zNumber (gb_currentAmount body)) as [c|] eqn:Hc;
      [|discriminate].
    destruct (zString (gb_category body)); [|discriminate].
    destruct (zString (gb_targetDate body)); [|discriminate].
    destruct (zOptional zString (gb_status body)) as [st|] eqn:Hst;
      [|discriminate].
    injection Hparse as <-. cbn [ig_userId ig_currentAmount ig_status].
    split; [reflexivity|]. split.
    - intros Hu. rewrite Hu in Hc. now injection Hc as <-.
    - intros Hu. rewrite Hu in Hst. now injection Hst as <-. }
  destruct Hv as (Hu & Hcur & Hst).
  assert (Hgu : Goal.userId g = userId) by (rewrite Hg; exact Hu).
  exists (with_goals db t), g. split; [reflexivity|].
  split; [exact Hgu|].
  split; [intros Hb; rewrite Hg; cbn; now rewrite (Hcur Hb)|].
  split; [intros Hb; rewrite Hg; cbn; now rewrite (Hst Hb)|].
  split; [intros x Hx; rewrite Hg; now apply inserted_fresh|].
  unfold Routes.getGoalById, Routes.getGoalsList, DatabaseStorage.getGoal,
    DatabaseStorage.getGoals.
  rewrite !select_rows_where. cbn [goals with_goals].
  rewrite Ht, Hg, (inserted_get Goal.id Goal.userId mk (goals db) Hmk),
    (inserted_list Goal.id Goal.userId mk (goals db)).
  rewrite <- Hg, Hgu, String.eqb_refl.
  split; [reflexivity|]. split; [reflexivity|].
  intros other Hother. rewrite !select_rows_where.
  rewrite Hg, (inserted_get Goal.id Goal.userId mk (goals db) Hmk),
    (inserted_list Goal.id Goal.userId mk (goals db)).
  rewrite <- Hg, Hgu.
  assert (Hne : String.eqb userId other = false)
    by (apply String.eqb_neq; congruence).
  rewrite Hne, app_nil_r. split; reflexivity.
Qed.

Lemma postGoal_then_get_witness :
  exists db' g,
    Routes.postGoal goalsDb 5000 "bob" newGoalBody = (db', Json 201 g)
    /\ Goal.id g = 4
    /\ Goal.status g = "active"
    /\ Routes.getGoalById db' "bob" 4 = Json 200 g
    /\ Routes.getGoalById db' "alice" 4 = Message 404 "Goal not found".
Proof.
  destruct (postGoal_then_get goalsDb 5000 "bob" newGoalBody _ eq_refl)
    as (db' & g & Hpost & _ & _ & Hst & _ & Hget & _ & Hother).
  exists db', g. split; [exact Hpost|].
  assert (Hid : Goal.id g = 4) by (injection Hpost as _ <-; reflexivity).
  rewrite Hid in Hget, Hother.
  split; [exact Hid|]. split; [now apply Hst|]. split; [exact Hget|].
  apply (Hother "alice"). discriminate.
Defined.

(** A budget created through [POST /api/budgets] belongs to the caller and
    is added at the end of the caller's budget list, with the period
    ["monthly"] when the body leaves it out.  Deleting it under its id
    gives every user the budget list from before the creation, although
    the answer to the [DELETE] is 404: the storage module reads
    [result.rowCount], which the result of a SQLite statement does not
    have. *)
Theorem postBudget_then_delete db now userId body v :
  insertBudgetSchema_parse body userId = ZodOk v ->
  exists db' b,
    Routes.postBudget db now userId body = (db', Json 201 b)
    /\ Budget.userId b = userId
    /\ (bb_period body = JUndefined -> Budget.period b = "monthly")
    /\ Routes.getBudgetsList db' userId
       = Json 200 (DatabaseStorage.getBudgets db userId ++ [b])%list
    /\ (forall other, other <> userId ->
        Routes.getBudgetsList db' other = Routes.getBudgetsList db other)
    /\ snd (Routes.deleteBudgetById db' userId (Budget.id b))
       = Message 404 "Budget not found"
    /\ (forall reader,
        Routes.getBudgetsList
          (fst (Routes.deleteBudgetById db' userId (Budget.id b))) reader
        = Routes.getBudgetsList db reader).
Proof.
  intros Hparse. unfold Routes.postBudget. rewrite Hparse.
  unfold DatabaseStorage.createBudget.
  set (mk := fun i => Budget.mk i (ib_userId v) (ib_category v)
                        (ib_amount v) (assign (ib_period v) "monthly")
                        (timestamp now)).
  assert (Hmk : forall i, Budget.id (mk i) = i) by reflexivity.
  destruct (exec_insert Budget.id mk (budgets db)) as [t b] eqn:Hins.
  assert (Ht : t = fst (exec_insert Budget.id mk (budgets db)))
    by now rewrite Hins.
  assert (Hb : b = snd (exec_insert Budget.id mk (budgets db)))
    by now rewrite Hins.
  assert (Hv : ib_userId v = userId
               /\ (bb_period body = JUndefined -> ib_period v = None)).
  { unfold insertBudgetSchema_parse in Hparse.
    destruct (zString (bb_category body)); [|discriminate].
    destruct (zNumber (bb_amount body)); [|discriminate].
    destruct (zOptional zString (bb_period body)) as [pd|] eqn:Hpd;
      [|discriminate].
    injection Hparse as <-. cbn [ib_userId ib_period].
    split; [reflexivity|].
    intros Hu. rewrite Hu in Hpd. now injection Hpd as <-. }
  destruct Hv as (Hu & Hper).
  assert (Hbu : Budget.userId b = userId) by (rewrite Hb; exact Hu).
  exists (with_budgets db t), b. split; [reflexivity|].
  split; [exact Hbu|].
  split; [intros Hp; rewrite Hb; cbn; now rewrite (Hper Hp)|].
  assert (Hlist : forall reader,
             filter (eqS Budget.userId reader) (rows t)
             = (filter (eqS Budget.userId reader) (rows (budgets db))
                ++ (if String.eqb userId reader then [b] else []))%list).
  { intros reader. rewrite Ht, <- Hbu, Hb.
    apply (inserted_list Budget.id Budget.userId mk (budgets db)). }
  unfold Routes.getBudgetsList, DatabaseStorage.getBudgets.
  rewrite !select_rows_where. cbn [budgets with_budgets].
  split; [now rewrite Hlist, String.eqb_refl|].
  split.
  { intros other Hother. rewrite !select_rows_where, Hlist.
    assert (Hne : String.eqb userId other = false)
      by (apply String.eqb_neq; congruence).
    now rewrite Hne, app_nil_r. }
  unfold Routes.deleteBudgetById, DatabaseStorage.deleteBudget.
  rewrite exec_delete_where. cbn [budgets with_budgets].
  assert (Hdel : filter (fun x => negb (and_ (eqZ Budget.id (Budget.id b))
                                          (eqS Budget.userId userId) x))
                   (rows t) = rows (budgets db)).
  { rewrite <- Hbu, Ht, Hb.
    apply (inserted_deleted Budget.id Budget.userId mk (budgets db) Hmk). }
  rewrite Hdel. cbn [rowCount orZero Z.ltb Z.compare fst snd].
  split; [reflexivity|].
  intros reader. rewrite !select_rows_where. reflexivity.
Qed.

Lemma postBudget_then_delete_witness :
  exists db' b,
    Routes.postBudget emptyDb 5000 "alice" newBudgetBody = (db', Json 201 b)
    /\ Budget.period b = "monthly"
    /\ Routes.getBudgetsList db' "alice" = Json 200 [b]
    /\ Routes.getBudgetsList
         (fst (Routes.deleteBudgetById db' "alice" (Budget.id b))) "alice"
       = Json 200 [].
Proof.
  destruct (postBudget_then_delete emptyDb 5000 "alice" newBudgetBody _
              eq_refl)
    as (db' & b & Hpost & _ & Hper & Hlist & _ & _ & Hback).
  exists db', b. split; [exact Hpost|]. split; [now apply Hper|].
  split; [exact Hlist|]. exact (Hback "alice").
Defined.
